(** * Covid-19 analysis: ingestion, cleaning and aggregation

    A shallow embedding of [Library/data_utils.py], [Library/stats.py] and
    [Library/advanced_metrics.py].  Tables are lists of rows in row order,
    pandas group-bys are written out as "sorted distinct keys, then the rows
    of each key", float64 columns are binary64 primitive floats and Python
    exceptions are the [Raise] outcome of a small error monad. *)

From Stdlib Require Import ZArith List String Ascii Bool Lia Permutation Sorted.
From Stdlib Require Import Floats Uint63.
Import ListNotations.

Local Open Scope string_scope.
Local Open Scope Z_scope.
Local Open Scope list_scope.

(* ================================================================== *)
(** ** Python outcomes *)

Inductive exn : Type :=
| ValueError (msg : string)
| KeyError (key : string)
| OverflowError (msg : string).

Inductive result (A : Type) : Type :=
| Ok (a : A)
| Raise (e : exn).

Arguments Ok {A} a.
Arguments Raise {A} e.

Definition bind {A B : Type} (m : result A) (k : A -> result B) : result B :=
  match m with
  | Ok a => k a
  | Raise e => Raise e
  end.

Notation "x <- m ;; k" := (bind m (fun x => k))
  (at level 61, m at next level, right associativity).

Fixpoint mapM {A B : Type} (f : A -> result B) (l : list A) : result (list B) :=
  match l with
  | [] => Ok []
  | a :: l' => b <- f a ;; bs <- mapM f l' ;; Ok (b :: bs)
  end.

(* ================================================================== *)
(** ** Keys of a group-by or of a sort *)

(** A key type carries the equality and the ascending order pandas uses on
    its values. *)
Class Key (K : Type) : Type := {
  keqb : K -> K -> bool;
  kleb : K -> K -> bool
}.

#[export] Instance Key_Z : Key Z := {
  keqb := Z.eqb;
  kleb := Z.leb
}.

(** Python compares [str] by code point; on UTF-8 bytes that is the
    byte-wise order of [String.compare]. *)
#[export] Instance Key_string : Key string := {
  keqb := String.eqb;
  kleb := String.leb
}.

(** A tuple key is ordered lexicographically. *)
#[export] Instance Key_pair {A B : Type} `{Key A} `{Key B} : Key (A * B) := {
  keqb p q := keqb (fst p) (fst q) && keqb (snd p) (snd q);
  kleb p q := if keqb (fst p) (fst q) then kleb (snd p) (snd q)
              else kleb (fst p) (fst q)
}.

(** The laws the keys of this program satisfy: [keqb] decides equality and
    [kleb] is a total comparison. *)
Class KeyOk (K : Type) `{Key K} : Prop := {
  keqb_spec : forall a b : K, keqb a b = true <-> a = b;
  kleb_total : forall a b : K, kleb a b = false -> kleb b a = true
}.

Section Sorting.
Context {A : Type} (leb : A -> A -> bool).

(** Stable insertion: [x] goes in front of the first element that is not
    smaller, so equal elements keep their relative order. *)
Fixpoint insert (x : A) (l : list A) : list A :=
  match l with
  | [] => [x]
  | y :: l' => if leb x y then x :: y :: l' else y :: insert x l'
  end.

Fixpoint isort (l : list A) : list A :=
  match l with
  | [] => []
  | x :: l' => insert x (isort l')
  end.

Fixpoint sortedb (l : list A) : bool :=
  match l with
  | [] => true
  | x :: l' =>
      match l' with
      | [] => true
      | y :: _ => leb x y && sortedb l'
      end
  end.
End Sorting.

Section GroupBy.
Context {K : Type} `{Key K}.

(** First occurrences, in order. *)
Fixpoint dedup (l : list K) : list K :=
  match l with
  | [] => []
  | k :: l' => k :: filter (fun k' => negb (keqb k' k)) (dedup l')
  end.

(** The group keys of a [groupby(..., sort=True)]: distinct, ascending. *)
Definition distinct_sorted (l : list K) : list K :=
  isort kleb (dedup l).

Context {R : Type} (key : R -> K).

Definition rows_of (k : K) (df : list R) : list R :=
  filter (fun r => keqb (key r) k) df.

(** [df.groupby(key)]: one group per distinct key, keys ascending, the rows
    of a group in table order. *)
Definition groupby (df : list R) : list (K * list R) :=
  map (fun k => (k, rows_of k df)) (distinct_sorted (map key df)).
End GroupBy.

(** Look a key up in a keyed series. *)
Fixpoint lookup {K V : Type} `{Key K} (k : K) (s : list (K * V)) : option V :=
  match s with
  | [] => None
  | (k', v) :: s' => if keqb k' k then Some v else lookup k s'
  end.

Definition zsum (l : list Z) : Z := fold_right Z.add 0 l.

(** Column maximum; [None] on an empty column (pandas gives NaN). *)
Definition zmax (l : list Z) : option Z :=
  match l with
  | [] => None
  | x :: l' => Some (fold_left Z.max l' x)
  end.

(* ================================================================== *)
(** ** float64 *)

Module F64.
Local Open Scope float_scope.

(** int64 to float64, rounding to nearest even (exact below 2^53). *)
Definition of_Z (z : Z) : float :=
  if (z <? 0)%Z then - of_uint63 (Uint63.of_Z (- z))
  else of_uint63 (Uint63.of_Z z).

Definition two52 : float := 4503599627370496.

(** [numpy.rint]: the nearest integer, ties to even, keeping the sign. *)
Definition rint (x : float) : float :=
  if abs x <? two52 then
    let r := (abs x + two52) - two52 in
    if get_sign x then - r else r
  else x.

(** [Series.round(2)] on float64: scale by 100, [rint], scale back. *)
Definition round2 (x : float) : float := rint (x * 100) / 100.

(** One step of the compensated (Kahan) summation of pandas' grouped
    [mean]; the state is (running sum, compensation). *)
Definition kahan_step (st : float * float) (val : float) : float * float :=
  let '(sumx, comp) := st in
  let y := val - comp in
  let t := sumx + y in
  let c := t - sumx - y in
  (t, if is_nan c then 0 else c).

Definition fsum (l : list float) : float := fst (fold_left kahan_step l (0, 0)).

(** [mean] of a float64 column: NaN cells are skipped, the remaining ones
    are summed in row order and divided by their number; NaN when none
    remains. *)
Definition fmean (l : list float) : float :=
  let obs := filter (fun x => negb (is_nan x)) l in
  match obs with
  | [] => nan
  | _ => fsum obs / of_Z (Z.of_nat (List.length obs))
  end.

(** [fillna(0)] on a float64 cell. *)
Definition fillna0 (x : float) : float := if is_nan x then 0 else x.

(** Truncation towards zero of a finite float, [None] on NaN and
    infinities. *)
Definition trunc (x : float) : option Z :=
  match Prim2SF x with
  | S754_zero _ => Some 0%Z
  | S754_finite s m e =>
      let a := if (0 <=? e)%Z then (Z.pos m * 2 ^ e)%Z
               else (Z.pos m / 2 ^ (- e))%Z in
      Some (if s then (- a)%Z else a)
  | _ => None
  end.
End F64.

(* ================================================================== *)
(** ** Python strings *)

Module Str.
Definition chars : string -> list ascii := list_ascii_of_string.
Definition of_chars : list ascii -> string := string_of_list_ascii.

(** [s.endswith(suffix)] *)
Definition endswith (s suffix : string) : bool :=
  let n := String.length s in
  let m := String.length suffix in
  (m <=? n)%nat && String.eqb (substring (n - m) m s) suffix.

(** [s[:-k]] *)
Definition drop_last (k : nat) (s : string) : string :=
  substring 0 (String.length s - k) s.

(** ASCII white space as [str.isspace] sees it. *)
Definition isspace (c : ascii) : bool :=
  let n := nat_of_ascii c in
  ((9 <=? n) && (n <=? 13) || (28 <=? n) && (n <=? 32))%nat.

Fixpoint lstrip_chars (l : list ascii) : list ascii :=
  match l with
  | c :: l' => if isspace c then lstrip_chars l' else l
  | [] => []
  end.

(** [s.strip()] *)
Definition strip (s : string) : string :=
  of_chars (rev (lstrip_chars (rev (lstrip_chars (chars s))))).

(** [s.replace(a, b)] for single characters. *)
Definition replace (a b : ascii) (s : string) : string :=
  of_chars (map (fun c => if Ascii.eqb c a then b else c) (chars s)).
End Str.

(* ================================================================== *)
(** ** Calendar dates *)

Module datetime.
Record date : Type := mkdate { year : Z; month : Z; day : Z }.

Definition is_leap (y : Z) : bool :=
  (y mod 4 =? 0) && (negb (y mod 100 =? 0) || (y mod 400 =? 0)).

Definition days_in_month (y m : Z) : Z :=
  if m =? 2 then (if is_leap y then 29 else 28)
  else if (m =? 4) || (m =? 6) || (m =? 9) || (m =? 11) then 30
  else 31.

(** The checks of the [date(year, month, day)] constructor. *)
Definition valid (d : date) : bool :=
  (1 <=? year d) && (year d <=? 9999) &&
  (1 <=? month d) && (month d <=? 12) &&
  (1 <=? day d) && (day d <=? days_in_month (year d) (month d)).

Definition digit (c : ascii) : option Z :=
  let n := Z.of_nat (nat_of_ascii c) in
  if (48 <=? n) && (n <=? 57) then Some (n - 48) else None.

Definition is_dash (c : ascii) : bool := Ascii.eqb c "-"%char.

(** [%m]: the alternatives [1[0-2]|0[1-9]|[1-9]] in that order.  A dash
    follows in the format, so a shorter alternative can never rescue a
    match the longer one started. *)
Definition parse_m (l : list ascii) : option (Z * list ascii) :=
  let two :=
    match l with
    | a :: b :: rest =>
        match digit a, digit b with
        | Some 1, Some y => if y <=? 2 then Some (10 + y, rest) else None
        | Some 0, Some y => if 1 <=? y then Some (y, rest) else None
        | _, _ => None
        end
    | _ => None
    end in
  match two, l with
  | Some r, _ => Some r
  | None, a :: rest =>
      match digit a with
      | Some x => if 1 <=? x then Some (x, rest) else None
      | None => None
      end
  | None, [] => None
  end.

(** [%d]: [3[0-1]|[1-2]\d|0[1-9]|[1-9]| [1-9]]. *)
Definition parse_d (l : list ascii) : option (Z * list ascii) :=
  let two :=
    match l with
    | a :: b :: rest =>
        match digit a, digit b with
        | Some 3, Some y => if y <=? 1 then Some (30 + y, rest) else None
        | Some 1, Some y => Some (10 + y, rest)
        | Some 2, Some y => Some (20 + y, rest)
        | Some 0, Some y => if 1 <=? y then Some (y, rest) else None
        | None, Some y =>
            if Ascii.eqb a " "%char && (1 <=? y) then Some (y, rest) else None
        | _, _ => None
        end
    | _ => None
    end in
  match two, l with
  | Some r, _ => Some r
  | None, a :: rest =>
      match digit a with
      | Some x => if 1 <=? x then Some (x, rest) else None
      | None => None
      end
  | None, [] => None
  end.

(** [%Y]: exactly four digits. *)
Definition parse_Y (l : list ascii) : option (Z * list ascii) :=
  match l with
  | a :: b :: c :: d :: rest =>
      match digit a, digit b, digit c, digit d with
      | Some w, Some x, Some y, Some z =>
          Some (1000 * w + 100 * x + 10 * y + z, rest)
      | _, _, _, _ => None
      end
  | _ => None
  end.

Definition expect_dash (l : list ascii) : option (list ascii) :=
  match l with
  | c :: rest => if is_dash c then Some rest else None
  | [] => None
  end.

Definition parse_mdY (l : list ascii) : option date :=
  match parse_m l with
  | None => None
  | Some (m, l1) =>
      match expect_dash l1 with
      | None => None
      | Some l2 =>
          match parse_d l2 with
          | None => None
          | Some (d, l3) =>
              match expect_dash l3 with
              | None => None
              | Some l4 =>
                  match parse_Y l4 with
                  | Some (y, []) => Some (mkdate y m d)
                  | _ => None
                  end
              end
          end
      end
  end.

(** [datetime.strptime(s, "%m-%d-%Y").date()]: the whole text must match
    the format and name a real calendar day, else [ValueError]. *)
Definition strptime_mdY (s : string) : result date :=
  match parse_mdY (Str.chars s) with
  | Some d =>
      if valid d then Ok d
      else Raise (ValueError "day is out of range for month")
  | None => Raise (ValueError "time data does not match format '%m-%d-%Y'")
  end.

Definition digit_char (n : Z) : ascii :=
  ascii_of_nat (48 + Z.to_nat (n mod 10)).

(** [d.strftime('%Y-%m')]: four-digit year, dash, two-digit month. *)
Definition strftime_Ym (d : date) : string :=
  let y := year d in
  let m := month d in
  Str.of_chars
    [digit_char (y / 1000); digit_char (y / 100); digit_char (y / 10);
     digit_char y; "-"%char; digit_char (m / 10); digit_char m].

Definition eqb (a b : date) : bool :=
  (year a =? year b) && (month a =? month b) && (day a =? day b).

Definition leb (a b : date) : bool :=
  if year a =? year b then
    if month a =? month b then day a <=? day b else month a <=? month b
  else year a <=? year b.
End datetime.

#[export] Instance Key_date : Key datetime.date := {
  keqb := datetime.eqb;
  kleb := datetime.leb
}.

(** A value of a frame cell that has no fixed column type: NaN is the
    missing value [pd.read_csv] produces. *)
Inductive cell : Type :=
| Int (z : Z)
| Float (f : float)
| Str (s : string).

Definition isna (c : cell) : bool :=
  match c with
  | Float f => is_nan f
  | _ => false
  end.

Definition NaN : cell := Float nan.

(** [Series.fillna(v)] on one cell. *)
Definition fillna (v c : cell) : cell := if isna c then v else c.

(* ================================================================== *)
(** ** Library/data_utils.py *)

Module data_utils.
Import datetime.

Definition TARGET_COUNTRIES : list string :=
  ["India"; "Brazil"; "Russia"; "United Kingdom"; "Egypt"; "Italy";
   "South Africa"].

(** What [pd.read_csv] returns: the header and one list of cells per
    record, a cell per header name. *)
Record frame : Type := mkframe {
  columns : list string;
  values : list (list cell)
}.

(** An entry of [os.listdir(folder_path)] with the outcome of reading it
    as a CSV file. *)
Record dir_entry : Type := mkentry {
  filename : string;
  read_csv : result frame
}.

(** A row of the table [load_all_csvs] builds.  [Country_Region] is text
    because only rows whose cell is one of the target names are kept. *)
Record raw_row : Type := mkraw {
  Province_State : cell;
  Country_Region : string;
  Confirmed : cell;
  Deaths : cell;
  Recovered : cell;
  Lat : cell;
  Long_ : cell;
  report_date : date
}.

(** [c.strip().replace('/', '_').replace(' ', '_')] *)
Definition normalize_column (c : string) : string :=
  Str.replace " "%char "_"%char (Str.replace "/"%char "_"%char (Str.strip c)).

Definition has_column (name : string) (df : frame) : bool :=
  existsb (String.eqb name) (columns df).

(** [df[name] = v] for a column the frame does not have yet. *)
Definition add_column (name : string) (v : cell) (df : frame) : frame :=
  mkframe (columns df ++ [name]) (map (fun row => row ++ [v]) (values df)).

Fixpoint index_of (name : string) (cols : list string) : option nat :=
  match cols with
  | [] => None
  | c :: cols' =>
      if String.eqb c name then Some 0%nat
      else option_map S (index_of name cols')
  end.

Definition column_index (df : frame) (name : string) : result nat :=
  match index_of name (columns df) with
  | Some i => Ok i
  | None => Raise (KeyError name)
  end.

(** [df[[names]]]: the named columns in the order asked for, [KeyError]
    when one is absent. *)
Definition select (names : list string) (df : frame) : result frame :=
  idx <- mapM (column_index df) names ;;
  Ok (mkframe names
        (map (fun row => map (fun i => nth i row NaN) idx) (values df))).

Definition isin (c : string) (l : list string) : bool :=
  existsb (String.eqb c) l.

(** [df[df['Country_Region'].isin(TARGET_COUNTRIES)]] followed by
    [df['report_date'] = report_date], on one record of the projected
    frame. *)
Definition keep_target (d : date) (row : list cell) : option raw_row :=
  match row with
  | [p; Str c; cf; de; re; la; lo] =>
      if isin c TARGET_COUNTRIES then Some (mkraw p c cf de re la lo d)
      else None
  | _ => None
  end.

Fixpoint filter_map {A B : Type} (f : A -> option B) (l : list A) : list B :=
  match l with
  | [] => []
  | a :: l' =>
      match f a with
      | Some b => b :: filter_map f l'
      | None => filter_map f l'
      end
  end.

(** The body of the [for] loop for one directory entry: [None] is
    [continue], [Some df] is the frame appended to [all_data]. *)
Definition day_table (e : dir_entry) : result (option (list raw_row)) :=
  if negb (Str.endswith (filename e) ".csv") then Ok None
  else
    report_date <- strptime_mdY (Str.drop_last 4 (filename e)) ;;
    if (year report_date <? 2021) || (year report_date >? 2023) then Ok None
    else
      df <- read_csv e ;;
      let df := mkframe (map normalize_column (columns df)) (values df) in
      let df := if has_column "Lat" df then df
                else add_column "Lat" (Int 0) df in
      let df := if has_column "Long_" df then df
                else add_column "Long_" (Int 0) df in
      df <- select ["Province_State"; "Country_Region"; "Confirmed";
                    "Deaths"; "Recovered"; "Lat"; "Long_"] df ;;
      Ok (Some (filter_map (keep_target report_date) (values df))).

Fixpoint collect (entries : list dir_entry) (all_data : list (list raw_row))
  : result (list (list raw_row)) :=
  match entries with
  | [] => Ok all_data
  | e :: rest =>
      r <- day_table e ;;
      collect rest
        (match r with
         | Some df => all_data ++ [df]
         | None => all_data
         end)
  end.

(** [pd.concat(frames, ignore_index=True)] *)
Definition concat (frames : list (list raw_row)) : result (list raw_row) :=
  match frames with
  | [] => Raise (ValueError "No objects to concatenate")
  | _ => Ok (List.concat frames)
  end.

Definition load_all_csvs (folder : list dir_entry) : result (list raw_row) :=
  all_data <- collect folder [] ;;
  concat all_data.

Definition int64_min : Z := - 2 ^ 63.

Definition in_int64 (z : Z) : bool := (int64_min <=? z) && (z <? 2 ^ 63).

(** The digits of an integer literal: decimal digits that single
    underscores may separate.  [seen] is the value so far and [after_digit]
    tells whether the previous character was a digit. *)
Fixpoint literal_digits (l : list ascii) (seen : Z) (after_digit : bool)
  : option Z :=
  match l with
  | [] => if after_digit then Some seen else None
  | c :: l' =>
      match datetime.digit c with
      | Some d => literal_digits l' (10 * seen + d) true
      | None =>
          if Ascii.eqb c "_"%char && after_digit
          then literal_digits l' seen false
          else None
      end
  end.

(** [int(s)] on text: white space around the literal is ignored, a sign
    may come first; [None] when the text is no integer literal. *)
Definition int_of_text (s : string) : option Z :=
  let l := rev (Str.lstrip_chars (rev (Str.lstrip_chars (Str.chars s)))) in
  match l with
  | c :: l' =>
      if Ascii.eqb c "-"%char then option_map Z.opp (literal_digits l' 0 false)
      else if Ascii.eqb c "+"%char then literal_digits l' 0 false
      else literal_digits l 0 false
  | [] => None
  end.

(** A Python integer stored into an int64 column. *)
Definition to_int64 (z : Z) : result cell :=
  if in_int64 z then Ok (Int z)
  else Raise (OverflowError "Python int too large to convert to C long").

(** [astype(int)] on one cell.  An integer must fit int64; a float is
    truncated towards zero, gives the smallest int64 when its integer part
    does not fit, and cannot be converted when it is infinite or NaN; text
    is read as an integer literal (the message of its error goes on with
    the text itself, which is left out here). *)
Definition astype_int (c : cell) : result cell :=
  match c with
  | Int z => to_int64 z
  | Float f =>
      match F64.trunc f with
      | Some z => Ok (Int (if in_int64 z then z else int64_min))
      | None =>
          Raise (ValueError "Cannot convert non-finite values (NA or inf) to integer")
      end
  | Str s =>
      match int_of_text s with
      | Some z => to_int64 z
      | None => Raise (ValueError "invalid literal for int() with base 10")
      end
  end.

Definition count_cell (c : cell) : result cell :=
  astype_int (fillna (Int 0) c).

Definition set_Province_State (v : cell) (r : raw_row) : raw_row :=
  mkraw v (Country_Region r) (Confirmed r) (Deaths r) (Recovered r)
    (Lat r) (Long_ r) (report_date r).
Definition set_Confirmed (v : cell) (r : raw_row) : raw_row :=
  mkraw (Province_State r) (Country_Region r) v (Deaths r) (Recovered r)
    (Lat r) (Long_ r) (report_date r).
Definition set_Deaths (v : cell) (r : raw_row) : raw_row :=
  mkraw (Province_State r) (Country_Region r) (Confirmed r) v (Recovered r)
    (Lat r) (Long_ r) (report_date r).
Definition set_Recovered (v : cell) (r : raw_row) : raw_row :=
  mkraw (Province_State r) (Country_Region r) (Confirmed r) (Deaths r) v
    (Lat r) (Long_ r) (report_date r).
Definition set_Lat (v : cell) (r : raw_row) : raw_row :=
  mkraw (Province_State r) (Country_Region r) (Confirmed r) (Deaths r)
    (Recovered r) v (Long_ r) (report_date r).
Definition set_Long_ (v : cell) (r : raw_row) : raw_row :=
  mkraw (Province_State r) (Country_Region r) (Confirmed r) (Deaths r)
    (Recovered r) (Lat r) v (report_date r).

Definition sort_key (r : raw_row) : string * date :=
  (Country_Region r, report_date r).

(** [df.sort_values(['Country_Region','report_date'])]: a sort on two
    columns is pandas' stable lexicographic sort. *)
Definition sort_values (df : list raw_row) : list raw_row :=
  isort (fun a b => kleb (sort_key a) (sort_key b)) df.

Definition clean_data (df : list raw_row) : result (list raw_row) :=
  let df := map (fun r =>
    set_Province_State (fillna (Str "Unknown") (Province_State r)) r) df in
  df <- mapM (fun r => c <- count_cell (Confirmed r) ;;
                       Ok (set_Confirmed c r)) df ;;
  df <- mapM (fun r => c <- count_cell (Deaths r) ;;
                       Ok (set_Deaths c r)) df ;;
  df <- mapM (fun r => c <- count_cell (Recovered r) ;;
                       Ok (set_Recovered c r)) df ;;
  let df := map (fun r => set_Lat (fillna (Float 0) (Lat r)) r) df in
  let df := map (fun r => set_Long_ (fillna (Float 0) (Long_ r)) r) df in
  Ok (sort_values df).
End data_utils.

(* ================================================================== *)
(** ** The persisted table *)

(** A row of [covid_data] as [load_data_from_db] returns it. *)
Record Row : Type := mkRow {
  country : string;
  province : string;
  date : datetime.date;
  confirmed_cases : Z;
  deaths_cases : Z;
  recovered_cases : Z;
  latitude : float;
  longitude : float
}.

(** How the [date] column is stored: Python [date] objects as the database
    driver returns them, or pandas time stamps. *)
Inductive date_dtype : Type :=
| object_dates
| datetime64.

(** The frame object the caller holds.  The operations below receive it by
    reference, so each returns the frame as it leaves it next to its
    result.  [derived] lists the columns assigned on top of the eight
    persisted ones, in column order. *)
Record DataFrame : Type := mkDataFrame {
  rows : list Row;
  date_as : date_dtype;
  derived : list (string * list cell)
}.

(** [df[name] = column]: an existing column is replaced where it stands, a
    new one is appended. *)
Fixpoint assign (name : string) (col : list cell)
  (cols : list (string * list cell)) : list (string * list cell) :=
  match cols with
  | [] => [(name, col)]
  | (n, c) :: cols' =>
      if String.eqb n name then (name, col) :: cols'
      else (n, c) :: assign name col cols'
  end.

Definition set_column (name : string) (col : list cell) (df : DataFrame)
  : DataFrame :=
  mkDataFrame (rows df) (date_as df) (assign name col (derived df)).

(** Three count columns of an aggregate, under an index [K]. *)
Record stat_row (K : Type) : Type := mkstat {
  index : K;
  confirmed : Z;
  deaths : Z;
  recovered : Z
}.

Arguments mkstat {K} _ _ _ _.
Arguments index {K} _.
Arguments confirmed {K} _.
Arguments deaths {K} _.
Arguments recovered {K} _.

(** [max] of a column over a group; a group is never empty. *)
Definition group_max (f : Row -> Z) (g : list Row) : Z :=
  match zmax (map f g) with
  | Some m => m
  | None => 0
  end.

Definition group_sum (f : Row -> Z) (g : list Row) : Z := zsum (map f g).

(* ================================================================== *)
(** ** Library/stats.py *)

Module stats.
(** [.agg({... : 'max'}).reset_index()] over the groups of a group-by. *)
Definition agg_max {K : Type} (groups : list (K * list Row))
  : list (stat_row K) :=
  map (fun kg =>
         mkstat (fst kg)
           (group_max confirmed_cases (snd kg))
           (group_max deaths_cases (snd kg))
           (group_max recovered_cases (snd kg))) groups.

Definition agg_sum {K : Type} (groups : list (K * list Row))
  : list (stat_row K) :=
  map (fun kg =>
         mkstat (fst kg)
           (group_sum confirmed_cases (snd kg))
           (group_sum deaths_cases (snd kg))
           (group_sum recovered_cases (snd kg))) groups.

Definition stats_by_country (df : DataFrame)
  : DataFrame * list (stat_row string) :=
  (df, agg_max (groupby country (rows df))).

Definition stats_by_month (df : DataFrame)
  : DataFrame * list (stat_row (string * string)) :=
  let month_year := map (fun r => datetime.strftime_Ym (date r)) (rows df) in
  let df := set_column "month_year" (map Str month_year) df in
  let keyed := combine (rows df) month_year in
  let groups := groupby (fun rm => (country (fst rm), snd rm)) keyed in
  (df, agg_max (map (fun kg => (fst kg, map fst (snd kg))) groups)).

Definition stats_by_year (df : DataFrame)
  : DataFrame * list (stat_row (string * Z)) :=
  let years := map (fun r => datetime.year (date r)) (rows df) in
  let df := set_column "year" (map Int years) df in
  let keyed := combine (rows df) years in
  let groups := groupby (fun ry => (country (fst ry), snd ry)) keyed in
  (df, agg_max (map (fun kg => (fst kg, map fst (snd kg))) groups)).

(** [df['date'] == d] on one cell, for a Python [date] object [d]: a cell
    that is a [date] object equals it when it is the same day, a cell that
    is a pandas time stamp never does. *)
Definition date_is (stored : date_dtype) (x d : datetime.date) : bool :=
  match stored with
  | object_dates => datetime.eqb x d
  | datetime64 => false
  end.

(** [df[df['date'] == d].groupby('country')[...].sum().reset_index()] *)
Definition sums_on (stored : date_dtype) (d : datetime.date) (df : list Row)
  : list (stat_row string) :=
  agg_sum (groupby country (filter (fun r => date_is stored (date r) d) df)).

(** [left.merge(right, on='country')]: the inner join, in the order of
    the left keys, one output row per matching pair. *)
Definition merge (left right : list (stat_row string))
  : list (stat_row string * stat_row string) :=
  flat_map (fun l =>
    map (fun r => (l, r))
        (filter (fun r => String.eqb (index r) (index l)) right)) left.

Definition stats_by_date_range (df : DataFrame) (start_date end_date : datetime.date)
  : DataFrame * list (stat_row string) :=
  let df_start := sums_on (date_as df) start_date (rows df) in
  let df_end := sums_on (date_as df) end_date (rows df) in
  let df_merged := merge df_end df_start in
  (df,
   map (fun es =>
          mkstat (index (fst es))
            (confirmed (fst es) - confirmed (snd es))
            (deaths (fst es) - deaths (snd es))
            (recovered (fst es) - recovered (snd es))) df_merged).

(** A row of the frame [filter_data] returns; it has no province. *)
Record grouped_row : Type := mkgrouped {
  g_country : string;
  g_date : datetime.date;
  g_confirmed_cases : Z;
  g_deaths_cases : Z;
  g_recovered_cases : Z;
  g_latitude : float;
  g_longitude : float
}.

Definition grouped_columns : list string :=
  ["country"; "date"; "confirmed_cases"; "deaths_cases"; "recovered_cases";
   "latitude"; "longitude"].

(** Python truthiness of a text argument. *)
Definition truthy (s : option string) : option string :=
  match s with
  | Some "" => None
  | _ => s
  end.

(** [year] and [month] stand for [int(year)] and [int(month)] of the
    arguments, [None] for an argument that is empty or [None]. *)
Definition filter_data (df : DataFrame) (year month : option Z)
  (country_arg : option string) : DataFrame * list grouped_row :=
  let df := mkDataFrame (rows df) datetime64 (derived df) in
  let df_filtered := rows df in
  let df_filtered :=
    match year with
    | Some y => filter (fun r => datetime.year (date r) =? y) df_filtered
    | None => df_filtered
    end in
  let df_filtered :=
    match month with
    | Some m => filter (fun r => datetime.month (date r) =? m) df_filtered
    | None => df_filtered
    end in
  let df_filtered :=
    match truthy country_arg with
    | Some c => filter (fun r => String.eqb (country r) c) df_filtered
    | None => df_filtered
    end in
  let groups := groupby (fun r => (country r, date r)) df_filtered in
  (df,
   map (fun kg =>
          mkgrouped (fst (fst kg)) (snd (fst kg))
            (group_sum confirmed_cases (snd kg))
            (group_sum deaths_cases (snd kg))
            (group_sum recovered_cases (snd kg))
            (F64.fmean (map latitude (snd kg)))
            (F64.fmean (map longitude (snd kg)))) groups).
End stats.

(* ================================================================== *)
(** ** Library/advanced_metrics.py *)

Module advanced_metrics.
Record wave_row : Type := mkwave {
  w_country : string;
  y2021 : Z;
  y2022 : Z;
  y2023 : Z;
  pct_2021_2022 : float;
  pct_2022_2023 : float;
  pct_2021_2023 : float
}.

(** [((b - a) / a * 100).round(2)] on int64 columns: the difference is
    an integer, the quotient and the product are float64. *)
Definition pct_change (a b : Z) : float :=
  F64.round2 (F64.of_Z (b - a) / F64.of_Z a * 100)%float.

(** [.groupby(['country','year'])['confirmed_cases'].max()]: a series
    indexed by (country, year). *)
Definition yearly_max (df : list Row) : list ((string * Z) * Z) :=
  map (fun kg => (fst kg, group_max confirmed_cases (snd kg)))
      (groupby (fun r => (country r, datetime.year (date r))) df).

(** [.unstack().fillna(0).astype(int)]: one row per country, one column
    per year present in the index, 0 where the pair is absent. *)
Definition unstack (s : list ((string * Z) * Z))
  : list Z * list (string * list Z) :=
  let years := distinct_sorted (map (fun kv => snd (fst kv)) s) in
  let countries := distinct_sorted (map (fun kv => fst (fst kv)) s) in
  (years,
   map (fun c =>
          (c, map (fun y => match lookup (c, y) s with
                            | Some v => v
                            | None => 0
                            end) years)) countries).

(** The input frame is copied first, so it is returned as it came.
    Assigning three column names raises unless the unstacked frame has
    exactly three columns. *)
Definition compare_wave_intensity (df : DataFrame)
  : DataFrame * result (list wave_row) :=
  let '(years, yearly_data) := unstack (yearly_max (rows df)) in
  (df,
   match years with
   | [_; _; _] =>
       Ok (map (fun cv =>
                  let a := nth 0 (snd cv) 0 in
                  let b := nth 1 (snd cv) 0 in
                  let c := nth 2 (snd cv) 0 in
                  mkwave (fst cv) a b c
                    (pct_change a b) (pct_change b c) (pct_change a c))
             yearly_data)
   | _ => Raise (ValueError "Length mismatch")
   end).

Record rate_row : Type := mkrate {
  r_country : string;
  fatality_rate : float;
  recovery_rate : float
}.

(** [(x / confirmed) * 100] on int64 columns. *)
Definition ratio (x confirmed : Z) : float :=
  (F64.of_Z x / F64.of_Z confirmed * 100)%float.

Definition calculate_rates (df : DataFrame) : DataFrame * list rate_row :=
  let kept := filter (fun r => confirmed_cases r >? 0) (rows df) in
  let rated :=
    map (fun r => (country r,
                   (ratio (deaths_cases r) (confirmed_cases r),
                    ratio (recovered_cases r) (confirmed_cases r)))) kept in
  (df,
   map (fun kg =>
          mkrate (fst kg)
            (F64.fmean (map (fun x => fst (snd x)) (snd kg)))
            (F64.fmean (map (fun x => snd (snd x)) (snd kg))))
       (groupby fst rated)).

(** [pivot_table(index='country', columns='year', aggfunc='max')]: the
    year columns present and, per country, the maximum of each (NaN,
    here [None], where the country has no row in that year). *)
Definition generate_pivot (df : DataFrame)
  : DataFrame * (list Z * list (string * list (option Z))) :=
  let years := map (fun r => datetime.year (date r)) (rows df) in
  let df := set_column "year" (map Int years) df in
  let keyed := combine (rows df) years in
  let s :=
    map (fun kg => (fst kg, group_max confirmed_cases (map fst (snd kg))))
        (groupby (fun ry => (country (fst ry), snd ry)) keyed) in
  let ys := distinct_sorted (map (fun kv => snd (fst kv)) s) in
  let cs := distinct_sorted (map (fun kv => fst (fst kv)) s) in
  (df, (ys, map (fun c => (c, map (fun y => lookup (c, y) s) ys)) cs)).
End advanced_metrics.

(* ================================================================== *)
(** ** Vocabulary of the properties *)

(** Some row of the table belongs to country [c] and day [d]. *)
Definition has_row_on (c : string) (d : datetime.date) (df : list Row) : Prop :=
  exists r, In r df /\ country r = c /\ date r = d.

(** The rows of country [c] on day [d], in table order. *)
Definition rows_on (c : string) (d : datetime.date) (df : list Row) : list Row :=
  filter (fun r => String.eqb (country r) c && datetime.eqb (date r) d) df.

(** The sum of a count column over the rows of country [c] on day [d]. *)
Definition total_on (f : Row -> Z) (c : string) (d : datetime.date)
  (df : list Row) : Z :=
  zsum (map f (rows_on c d df)).

(** The column sum over the whole table. *)
Definition total (f : Row -> Z) (df : list Row) : Z := zsum (map f df).

Definition is_int (c : cell) : bool :=
  match c with
  | Int z => data_utils.in_int64 z
  | _ => false
  end.

(** A row as the cleaner leaves it: no missing province or coordinate,
    integer counts. *)
Definition cleaned (r : data_utils.raw_row) : Prop :=
  isna (data_utils.Province_State r) = false /\
  is_int (data_utils.Confirmed r) = true /\
  is_int (data_utils.Deaths r) = true /\
  is_int (data_utils.Recovered r) = true /\
  isna (data_utils.Lat r) = false /\
  isna (data_utils.Long_ r) = false.

(** Ascending by country, then by report date. *)
Definition sorted_rows (df : list data_utils.raw_row) : bool :=
  sortedb (fun a b => kleb (data_utils.sort_key a) (data_utils.sort_key b)) df.

(** The date token of a directory entry: its name without the last four
    characters. *)
Definition stem (e : data_utils.dir_entry) : string :=
  Str.drop_last 4 (data_utils.filename e).

Definition in_window (d : datetime.date) : bool :=
  (2021 <=? datetime.year d) && (datetime.year d <=? 2023).

(** An entry passes the filename pattern and the year filter. *)
Definition passes (e : data_utils.dir_entry) : bool :=
  Str.endswith (data_utils.filename e) ".csv" &&
  match datetime.strptime_mdY (stem e) with
  | Ok d => in_window d
  | Raise _ => false
  end.

(** The key of the yearly group-by. *)
Definition country_year (r : Row) : string * Z :=
  (country r, datetime.year (date r)).

(** The rows of country [c] in calendar year [y], in table order. *)
Definition year_rows (c : string) (y : Z) (df : list Row) : list Row :=
  filter (fun r => String.eqb (country r) c && (datetime.year (date r) =? y))
    df.

(** [v] is the yearly figure of country [c] for year [y]: 0 when the
    country has no row in that year, else the largest [confirmed_cases]
    among its rows of that year. *)
Definition yearly_peak (df : list Row) (c : string) (y v : Z) : Prop :=
  (year_rows c y df = [] /\ v = 0) \/
  ((exists r, In r (year_rows c y df) /\ confirmed_cases r = v) /\
   (forall r, In r (year_rows c y df) -> confirmed_cases r <= v)).

(** The table is within the ingestion window and every year of the window
    occurs in it. *)
Definition in_years (df : list Row) : Prop :=
  Forall (fun r => 2021 <= datetime.year (date r) <= 2023) df.

Definition covers_years (df : list Row) : Prop :=
  forall y, In y [2021; 2022; 2023] ->
            exists r, In r df /\ datetime.year (date r) = y.

(** The rows left after the rows with no confirmed case are discarded. *)
Definition nonzero_rows (df : list Row) : list Row :=
  filter (fun r => negb (confirmed_cases r =? 0)) df.

(** The rows with a positive number of confirmed cases. *)
Definition confirmed_rows (df : list Row) : list Row :=
  filter (fun r => 0 <? confirmed_cases r) df.

(** A count as a percentage of the confirmed cases of the same row. *)
Definition percent_of_confirmed (f : Row -> Z) (r : Row) : float :=
  (F64.of_Z (f r) / F64.of_Z (confirmed_cases r) * 100)%float.

(** The total of a count as a percentage of the total of the confirmed
    cases: the ratio of sums. *)
Definition percent_of_sums (f : Row -> Z) (g : list Row) : float :=
  (F64.of_Z (total f g) / F64.of_Z (total confirmed_cases g) * 100)%float.

(** ** Sample tables *)

Definition day (y m d : Z) : datetime.date := datetime.mkdate y m d.

Definition sample_row (c : string) (d : datetime.date) (cf de re : Z) : Row :=
  mkRow c "Unknown" d cf de re 0%float 0%float.

Definition frame_of (l : list Row) : DataFrame := mkDataFrame l object_dates [].

(** India with 100 confirmed cases on the first day and 180 on the second,
    the later day split over two provinces; Italy only on the first day. *)
Definition india_range : DataFrame :=
  frame_of
    [sample_row "India" (day 2021 3 1) 100 2 40;
     sample_row "Italy" (day 2021 3 1) 70 7 7;
     sample_row "India" (day 2021 3 9) 150 3 50;
     sample_row "India" (day 2021 3 9) 30 1 10].

(** A daily report in the early layout: slashes in the header, no
    coordinates, a missing province and a missing count. *)
Definition report_early : data_utils.frame :=
  data_utils.mkframe
    ["Province/State"; "Country/Region"; "Confirmed"; "Deaths"; "Recovered"]
    [[NaN; Str "India"; Int 100; Int 2; NaN];
     [Str "Hubei"; Str "China"; Int 9; Int 1; Int 1];
     [Str "Lazio"; Str "Italy"; Int 70; Int 7; Float 7]].

Definition unreadable : result data_utils.frame :=
  Raise (ValueError "not a CSV file").

(** A folder with one report inside the window, one outside and a file
    that is not a report. *)
Definition folder_one_report : list data_utils.dir_entry :=
  [data_utils.mkentry "README.md" unreadable;
   data_utils.mkentry "03-01-2021.csv" (Ok report_early);
   data_utils.mkentry "03-01-2020.csv" (Ok report_early)].

(** A folder in which no entry passes the filters. *)
Definition folder_no_report : list data_utils.dir_entry :=
  [data_utils.mkentry "README.md" unreadable;
   data_utils.mkentry "03-01-2020.csv" (Ok report_early);
   data_utils.mkentry "1-2-2024.csv" (Ok report_early)].

(** A folder with a report and a CSV file that is not named after a day. *)
Definition folder_with_notes : list data_utils.dir_entry :=
  [data_utils.mkentry "03-01-2021.csv" (Ok report_early);
   data_utils.mkentry "notes.csv" (Ok report_early)].

(** The table read from [report_early] dated 1 March 2021. *)
Definition table_one_report : list data_utils.raw_row :=
  [data_utils.mkraw NaN "India" (Int 100) (Int 2) NaN (Int 0) (Int 0)
     (day 2021 3 1);
   data_utils.mkraw (Str "Lazio") "Italy" (Int 70) (Int 7) (Float 7)
     (Int 0) (Int 0) (day 2021 3 1)].

(** A report without any row of a target country. *)
Definition report_elsewhere : data_utils.frame :=
  data_utils.mkframe
    ["Province_State"; "Country_Region"; "Confirmed"; "Deaths"; "Recovered"]
    [[Str "Hubei"; Str "China"; Int 9; Int 1; Int 1]].

(** A frame as the database returns it, with a single row. *)
Definition one_day : DataFrame :=
  frame_of [sample_row "India" (day 2021 3 1) 100 2 40].

(** One country over the three years, with yearly maxima 100, 150, 120. *)
Definition three_waves : DataFrame :=
  frame_of
    [sample_row "India" (day 2021 3 1) 80 2 40;
     sample_row "India" (day 2021 12 31) 100 2 40;
     sample_row "India" (day 2022 6 1) 150 3 50;
     sample_row "India" (day 2023 1 9) 120 3 50;
     sample_row "India" (day 2023 2 1) 90 3 50].

(** A country with one row without confirmed cases and one row with 50
    confirmed cases and 5 deaths. *)
Definition zero_then_fifty : DataFrame :=
  frame_of
    [sample_row "Egypt" (day 2021 3 1) 0 0 0;
     sample_row "Egypt" (day 2021 3 2) 50 5 10].

(** A country with two reports: 10 deaths in 100 cases, then none in
    300. *)
Definition two_reports : DataFrame :=
  frame_of
    [sample_row "Italy" (day 2021 3 1) 100 10 50;
     sample_row "Italy" (day 2021 3 2) 300 0 300].

(** A country whose only row has a negative number of confirmed cases. *)
Definition minus_four : DataFrame :=
  frame_of [sample_row "Brazil" (day 2021 3 1) (-4) 1 2].

(** A country with such a row and a row at 50 confirmed cases. *)
Definition minus_then_fifty : DataFrame :=
  frame_of
    [sample_row "Brazil" (day 2021 3 1) (-4) 1 2;
     sample_row "Brazil" (day 2021 3 2) 50 5 10].

(** ** Vocabulary of the aggregates *)

(** [v] is the largest value of column [f] among the rows [g], attained by
    one of them. *)
Definition is_max_of (f : Row -> Z) (g : list Row) (v : Z) : Prop :=
  (exists r, In r g /\ f r = v) /\ (forall r, In r g -> f r <= v).

(** The rows of country [c], in table order. *)
Definition country_rows (c : string) (df : list Row) : list Row :=
  filter (fun r => String.eqb (country r) c) df.

(** The key of the monthly group-by. *)
Definition country_month (r : Row) : string * string :=
  (country r, datetime.strftime_Ym (date r)).

(** The rows of country [c] whose date formats to the month text [m]. *)
Definition month_rows (c m : string) (df : list Row) : list Row :=
  filter (fun r => String.eqb (country r) c
                   && String.eqb (datetime.strftime_Ym (date r)) m) df.

(** The three maxima of a group under its key. *)
Definition max_row {K : Type} (k : K) (g : list Row) : stat_row K :=
  mkstat k (group_max confirmed_cases g) (group_max deaths_cases g)
    (group_max recovered_cases g).

(** [fillna(0)] on a cell of the pivot. *)
Definition fill0 (o : option Z) : Z :=
  match o with
  | Some v => v
  | None => 0
  end.

(** The predicates of the filter engine on one row. *)
Definition matches (year month : option Z) (country_arg : option string)
  (r : Row) : bool :=
  match year with
  | Some y => datetime.year (date r) =? y
  | None => true
  end &&
  match month with
  | Some m => datetime.month (date r) =? m
  | None => true
  end &&
  match stats.truthy country_arg with
  | Some c => String.eqb (country r) c
  | None => true
  end.

(** The years that occur in the table, ascending. *)
Definition distinct_years (df : list Row) : list Z :=
  distinct_sorted (map (fun r => datetime.year (date r)) df).

(** One country over 2020, 2021 and 2022. *)
Definition early_waves : DataFrame :=
  frame_of
    [sample_row "Egypt" (day 2020 5 1) 10 1 1;
     sample_row "Egypt" (day 2021 5 1) 30 1 1;
     sample_row "Egypt" (day 2022 5 1) 60 1 1].

(** Three report days of one country, with a second country on the middle
    day only. *)
Definition three_days : DataFrame :=
  frame_of
    [sample_row "Brazil" (day 2022 1 1) 10 1 5;
     sample_row "Brazil" (day 2022 1 2) 25 2 9;
     sample_row "Russia" (day 2022 1 2) 7 0 0;
     sample_row "Brazil" (day 2022 1 3) 45 2 30].

(** A delta row with the opposite sign. *)
Definition negated (x : stat_row string) : stat_row string :=
  mkstat (index x) (- confirmed x) (- deaths x) (- recovered x).

(** ** Vocabulary of the ingestion *)

(** A float that is missing or not infinite. *)
Definition missing_or_finite (f : float) : bool :=
  PrimFloat.is_nan f || PrimFloat.is_zero f || negb (PrimFloat.is_infinity f).

(** A count cell that [fillna(0).astype(int)] accepts: an integer that
    fits int64, a missing value, a float that is not infinite, or text
    that reads as an integer that fits int64. *)
Definition convertible (c : cell) : bool :=
  match c with
  | Int z => data_utils.in_int64 z
  | Float f => missing_or_finite f
  | Str s =>
      match data_utils.int_of_text s with
      | Some z => data_utils.in_int64 z
      | None => false
      end
  end.

(** A count cell of a numeric column: an integer that fits int64, a
    missing value or a float that is not infinite. *)
Definition numeric_count (c : cell) : bool :=
  match c with
  | Int z => data_utils.in_int64 z
  | Float f => missing_or_finite f
  | Str _ => false
  end.

(** A count cell that cannot become an integer: an infinite float, or
    text that is no integer literal. *)
Definition unconvertible (c : cell) : bool :=
  match c with
  | Int _ => false
  | Float f => negb (missing_or_finite f)
  | Str s =>
      match data_utils.int_of_text s with
      | Some _ => false
      | None => true
      end
  end.

(** The cleaning steps applied to one row. *)
Definition clean_row (r : data_utils.raw_row) : result data_utils.raw_row :=
  cf <- data_utils.count_cell (data_utils.Confirmed r) ;;
  de <- data_utils.count_cell (data_utils.Deaths r) ;;
  re <- data_utils.count_cell (data_utils.Recovered r) ;;
  Ok (data_utils.mkraw
        (fillna (Str "Unknown") (data_utils.Province_State r))
        (data_utils.Country_Region r) cf de re
        (fillna (Float 0) (data_utils.Lat r))
        (fillna (Float 0) (data_utils.Long_ r))
        (data_utils.report_date r)).

(** The day tables the loop appends, in listing order. *)
Definition day_tables (folder : list data_utils.dir_entry)
  : list (list data_utils.raw_row) :=
  flat_map (fun e => match data_utils.day_table e with
                     | Ok (Some tbl) => [tbl]
                     | _ => []
                     end) folder.

(** The columns every report must have. *)
Definition required_columns : list string :=
  ["Province_State"; "Country_Region"; "Confirmed"; "Deaths"; "Recovered"].

(** The first of [names] that is not among [cols]. *)
Definition first_missing (names cols : list string) : option string :=
  find (fun n => negb (existsb (String.eqb n) cols)) names.

(** Every record of the frame has one cell per column. *)
Definition rectangular (df : data_utils.frame) : Prop :=
  Forall (fun row => List.length row = List.length (data_utils.columns df))
    (data_utils.values df).

(** The header of a frame after normalisation. *)
Definition normalized (fr : data_utils.frame) : data_utils.frame :=
  data_utils.mkframe (map data_utils.normalize_column (data_utils.columns fr))
    (data_utils.values fr).

(** A report in the window that lacks the Deaths column. *)
Definition report_no_deaths : data_utils.frame :=
  data_utils.mkframe
    ["Province_State"; "Country_Region"; "Confirmed"; "Recovered"]
    [[NaN; Str "India"; Int 100; Int 40]].

(** [table_one_report] after cleaning. *)
Definition cleaned_one_report : list data_utils.raw_row :=
  [data_utils.mkraw (Str "Unknown") "India" (Int 100) (Int 2) (Int 0)
     (Int 0) (Int 0) (day 2021 3 1);
   data_utils.mkraw (Str "Lazio") "Italy" (Int 70) (Int 7) (Int 7)
     (Int 0) (Int 0) (day 2021 3 1)].

(* ================================================================== *)
(** * Properties *)

(** ** Keys *)

#[export] Instance KeyOk_Z : KeyOk Z.
Proof.
  split; simpl.
  - apply Z.eqb_eq.
  - intros a b; rewrite Z.leb_gt, Z.leb_le; lia.
Qed.

#[export] Instance KeyOk_string : KeyOk string.
Proof.
  split; simpl.
  - apply String.eqb_eq.
  - intros a b; unfold String.leb.
    rewrite (String.compare_antisym b a).
    destruct (String.compare a b); simpl; congruence.
Qed.

Lemma date_eqb_eq (a b : datetime.date) : datetime.eqb a b = true <-> a = b.
Proof.
  destruct a as [y m d], b as [y' m' d']; unfold datetime.eqb; simpl.
  rewrite !andb_true_iff, !Z.eqb_eq.
  split; [intros [[-> ->] ->]; reflexivity | intros E; inversion E; auto].
Qed.

#[export] Instance KeyOk_date : KeyOk datetime.date.
Proof.
  split; simpl.
  - apply date_eqb_eq.
  - intros [y m d] [y' m' d']; unfold datetime.leb; simpl.
    destruct (Z.eqb_spec y y'), (Z.eqb_spec y' y); try lia;
      destruct (Z.eqb_spec m m'), (Z.eqb_spec m' m); try lia;
      rewrite ?Z.leb_gt, ?Z.leb_le; lia.
Qed.

#[export] Instance KeyOk_pair {A B : Type} `{KeyOk A} `{KeyOk B}
  : KeyOk (A * B).
Proof.
  split; simpl.
  - intros [a b] [a' b']; simpl.
    rewrite andb_true_iff, !keqb_spec.
    split; [intros [-> ->]; reflexivity | intros E; inversion E; auto].
  - intros [a b] [a' b']; simpl.
    destruct (keqb a a') eqn:E.
    + apply keqb_spec in E; subst a'.
      replace (keqb a a) with true by (symmetry; apply keqb_spec; reflexivity).
      apply kleb_total.
    + intros L. apply kleb_total in L. rewrite L.
      destruct (keqb a' a) eqn:E'; [|reflexivity].
      apply keqb_spec in E'; subst a'.
      assert (keqb a a = true) by (apply keqb_spec; reflexivity). congruence.
Qed.

Lemma keqb_refl {K : Type} `{KeyOk K} (k : K) : keqb k k = true.
Proof. apply keqb_spec; reflexivity. Qed.

Lemma keqb_neq {K : Type} `{KeyOk K} (a b : K) : keqb a b = false <-> a <> b.
Proof.
  rewrite <- keqb_spec. destruct (keqb a b); split; congruence.
Qed.

(** ** Sorting *)

Section SortingFacts.
Context {A : Type} (leb : A -> A -> bool).

Lemma insert_perm (x : A) (l : list A) : Permutation (insert leb x l) (x :: l).
Proof.
  induction l as [|y l IH]; simpl; [reflexivity|].
  destruct (leb x y); [reflexivity|].
  rewrite IH. apply perm_swap.
Qed.

Lemma isort_perm (l : list A) : Permutation (isort leb l) l.
Proof.
  induction l as [|x l IH]; simpl; [reflexivity|].
  rewrite insert_perm. now constructor.
Qed.

Lemma isort_In (x : A) (l : list A) : In x (isort leb l) <-> In x l.
Proof.
  split; apply Permutation_in;
    [apply isort_perm | symmetry; apply isort_perm].
Qed.

Lemma isort_NoDup (l : list A) : NoDup l -> NoDup (isort leb l).
Proof.
  apply Permutation_NoDup. symmetry. apply isort_perm.
Qed.

Lemma isort_Forall (P : A -> Prop) (l : list A) :
  Forall P l -> Forall P (isort leb l).
Proof.
  apply Permutation_Forall. symmetry. apply isort_perm.
Qed.

(** A sorted list is left as it is: the sort is stable. *)
Lemma isort_sorted_id (l : list A) : sortedb leb l = true -> isort leb l = l.
Proof.
  induction l as [|x l IH]; [reflexivity|].
  intros S. simpl in S |- *.
  destruct l as [|y l']; [reflexivity|].
  apply andb_true_iff in S as [Hxy S].
  rewrite (IH S). simpl. now rewrite Hxy.
Qed.

Hypothesis leb_total : forall a b, leb a b = false -> leb b a = true.

Lemma insert_sorted (x : A) (l : list A) :
  sortedb leb l = true -> sortedb leb (insert leb x l) = true.
Proof.
  induction l as [|y l IH]; [reflexivity|].
  intros S. simpl insert.
  destruct (leb x y) eqn:E.
  - change (leb x y && sortedb leb (y :: l) = true). now rewrite E.
  - assert (Sl : sortedb leb l = true).
    { simpl in S. destruct l; [reflexivity|].
      now apply andb_true_iff in S as [_ S]. }
    specialize (IH Sl).
    destruct l as [|z l'].
    + simpl. now rewrite (leb_total _ _ E).
    + simpl in S. apply andb_true_iff in S as [Hyz _].
      simpl insert in *.
      destruct (leb x z).
      * change (leb y x && sortedb leb (x :: z :: l') = true).
        now rewrite (leb_total _ _ E), IH.
      * change (leb y z && sortedb leb (z :: insert leb x l') = true).
        now rewrite Hyz, IH.
Qed.

Lemma isort_sorted (l : list A) : sortedb leb (isort leb l) = true.
Proof.
  induction l as [|x l IH]; [reflexivity|].
  simpl. now apply insert_sorted.
Qed.
End SortingFacts.

(** ** Group-by *)

Lemma zsum_app (l1 l2 : list Z) : zsum (l1 ++ l2) = zsum l1 + zsum l2.
Proof. induction l1 as [|x l1 IH]; simpl; lia. Qed.

Lemma zsum_map_add {A : Type} (g h : A -> Z) (l : list A) :
  zsum (map (fun a => g a + h a) l) = zsum (map g l) + zsum (map h l).
Proof. induction l as [|a l IH]; simpl; lia. Qed.

Lemma zsum_map_zero {A : Type} (l : list A) : zsum (map (fun _ => 0) l) = 0.
Proof. induction l as [|a l IH]; simpl; lia. Qed.

Lemma zsum_map_ext {A : Type} (g h : A -> Z) (l : list A) :
  (forall a, In a l -> g a = h a) -> zsum (map g l) = zsum (map h l).
Proof.
  intros E. f_equal. apply map_ext_in, E.
Qed.

Section GroupByFacts.
Context {K : Type} `{KeyOk K}.

Lemma dedup_In (k : K) (l : list K) : In k (dedup l) <-> In k l.
Proof.
  induction l as [|a l IH]; simpl; [tauto|].
  rewrite filter_In, IH. split.
  - intros [E|[I _]]; auto.
  - intros [E|I]; auto.
    destruct (keqb k a) eqn:E; [left; symmetry; now apply keqb_spec|].
    right. split; [assumption | reflexivity].
Qed.

Lemma dedup_NoDup (l : list K) : NoDup (dedup l).
Proof.
  induction l as [|a l IH]; simpl; constructor.
  - rewrite filter_In, keqb_refl. intros [_ F]. discriminate.
  - now apply NoDup_filter.
Qed.

Lemma distinct_sorted_In (k : K) (l : list K) :
  In k (distinct_sorted l) <-> In k l.
Proof. unfold distinct_sorted. now rewrite isort_In, dedup_In. Qed.

Lemma distinct_sorted_NoDup (l : list K) : NoDup (distinct_sorted l).
Proof. apply isort_NoDup, dedup_NoDup. Qed.

Lemma distinct_sorted_sorted (l : list K) :
  sortedb kleb (distinct_sorted l) = true.
Proof. apply isort_sorted, kleb_total. Qed.

(** One point of a key list carries the whole indicator sum. *)
Lemma zsum_indicator (a : K) (v : Z) (ks : list K) :
  NoDup ks -> In a ks ->
  zsum (map (fun k => if keqb a k then v else 0) ks) = v.
Proof.
  induction 1 as [|k ks Hk Hnd IH]; simpl; [tauto|].
  intros [->|I].
  - rewrite keqb_refl.
    rewrite (zsum_map_ext _ (fun _ => 0)), zsum_map_zero; [lia|].
    intros k' I'. destruct (keqb a k') eqn:E; [|reflexivity].
    apply keqb_spec in E. now subst.
  - destruct (keqb a k) eqn:E.
    + apply keqb_spec in E. now subst.
    + rewrite (IH I). lia.
Qed.

Context {R : Type} (key : R -> K).

Lemma rows_of_In (k : K) (r : R) (df : list R) :
  In r (rows_of key k df) <-> In r df /\ key r = k.
Proof. unfold rows_of. now rewrite filter_In, keqb_spec. Qed.

Lemma group_keys_In (k : K) (df : list R) :
  In k (distinct_sorted (map key df)) <-> exists r, In r df /\ key r = k.
Proof.
  rewrite distinct_sorted_In, in_map_iff.
  split; intros [r [A B]]; exists r; auto.
Qed.

Lemma groupby_keys (df : list R) :
  map fst (groupby key df) = distinct_sorted (map key df).
Proof.
  unfold groupby. rewrite map_map. simpl. apply map_id.
Qed.

Lemma groupby_In (k : K) (g : list R) (df : list R) :
  In (k, g) (groupby key df) <->
  (exists r, In r df /\ key r = k) /\ g = rows_of key k df.
Proof.
  unfold groupby. rewrite in_map_iff, <- group_keys_In. split.
  - intros [k' [E I]]. inversion E; subst. auto.
  - intros [I ->]. exists k. auto.
Qed.

(** The groups partition the table: group sums add up to the column sum. *)
Lemma zsum_groups (f : R -> Z) (ks : list K) (df : list R) :
  NoDup ks -> (forall r, In r df -> In (key r) ks) ->
  zsum (map (fun k => zsum (map f (rows_of key k df))) ks) = zsum (map f df).
Proof.
  intros Hnd. induction df as [|r df IH]; intros Hin.
  - simpl. apply zsum_map_zero.
  - rewrite (zsum_map_ext _
      (fun k => (if keqb (key r) k then f r else 0)
                + zsum (map f (rows_of key k df)))).
    + rewrite zsum_map_add, zsum_indicator, IH; simpl; auto.
      * intros r' I. apply Hin. now right.
      * apply Hin. now left.
    + intros k _. simpl. destruct (keqb (key r) k); simpl; lia.
Qed.

Lemma zsum_groupby (f : R -> Z) (df : list R) :
  zsum (map (fun kg => zsum (map f (snd kg))) (groupby key df))
  = zsum (map f df).
Proof.
  unfold groupby. rewrite map_map. simpl.
  apply zsum_groups.
  - apply distinct_sorted_NoDup.
  - intros r I. apply distinct_sorted_In, in_map, I.
Qed.

(** Reading a group-by aggregate back at a key. *)
Lemma lookup_map_keys {V : Type} (g : K -> V) (k : K) (ks : list K) :
  lookup k (map (fun k' => (k', g k')) ks)
  = if existsb (keqb k) ks then Some (g k) else None.
Proof.
  induction ks as [|a ks IH]; simpl; [reflexivity|].
  destruct (keqb a k) eqn:E.
  - apply keqb_spec in E. subst. now rewrite keqb_refl.
  - rewrite IH. destruct (keqb k a) eqn:E'; [|reflexivity].
    apply keqb_spec in E'. subst. rewrite keqb_refl in E. discriminate.
Qed.

Lemma existsb_keqb (k : K) (ks : list K) :
  existsb (keqb k) ks = true <-> In k ks.
Proof.
  rewrite existsb_exists. split.
  - intros [x [I E]]. apply keqb_spec in E. now subst.
  - intros I. exists k. split; [assumption | apply keqb_refl].
Qed.
End GroupByFacts.

(** ** Date-range delta and the filter engine *)

Lemma filter_filter {A : Type} (p q : A -> bool) (l : list A) :
  filter p (filter q l) = filter (fun a => p a && q a) l.
Proof.
  induction l as [|a l IH]; simpl; [reflexivity|].
  destruct (q a); simpl; rewrite ?andb_true_r, ?andb_false_r;
    [destruct (p a)|]; now rewrite IH.
Qed.

Lemma has_row_on_filter (c : string) (d : datetime.date) (df : list Row) :
  (exists r, In r (filter (fun r => datetime.eqb (date r) d) df)
             /\ country r = c)
  <-> has_row_on c d df.
Proof.
  unfold has_row_on. split.
  - intros [r [I E]]. apply filter_In in I as [I D].
    apply date_eqb_eq in D. eauto.
  - intros [r [I [E D]]]. exists r. split; [|assumption].
    apply filter_In. split; [assumption|]. now apply date_eqb_eq.
Qed.

Lemma sums_on_keys (stored : date_dtype) (d : datetime.date)
  (df : list Row) :
  map index (stats.sums_on stored d df)
  = distinct_sorted
      (map country (filter (fun r => stats.date_is stored (date r) d) df)).
Proof.
  unfold stats.sums_on, stats.agg_sum. rewrite map_map. simpl.
  apply (groupby_keys country).
Qed.

Lemma sums_on_In (stored : date_dtype) (d : datetime.date) (df : list Row)
  (x : stat_row string) :
  In x (stats.sums_on stored d df) <->
  stored = object_dates /\
  has_row_on (index x) d df /\
  x = mkstat (index x)
        (total_on confirmed_cases (index x) d df)
        (total_on deaths_cases (index x) d df)
        (total_on recovered_cases (index x) d df).
Proof.
  destruct stored.
  2:{ unfold stats.sums_on, stats.date_is. rewrite filter_false.
      split; [intros [] | intros [Q _]; discriminate]. }
  unfold stats.sums_on, stats.date_is, stats.agg_sum, total_on, rows_on,
    group_sum.
  rewrite in_map_iff. split.
  - intros [[k g] [E I]]. apply groupby_In in I as [Hex ->].
    subst x. simpl. split; [reflexivity|].
    split; [now apply has_row_on_filter|].
    unfold rows_of. now rewrite !filter_filter.
  - intros [_ [Hex E]].
    exists (index x,
            rows_of country (index x)
              (filter (fun r => datetime.eqb (date r) d) df)).
    split.
    + rewrite E at 4. simpl. unfold rows_of. now rewrite !filter_filter.
    + apply groupby_In. split; [now apply has_row_on_filter | reflexivity].
Qed.

Lemma sums_on_NoDup (stored : date_dtype) (d : datetime.date)
  (df : list Row) :
  NoDup (map index (stats.sums_on stored d df)).
Proof. rewrite sums_on_keys. apply distinct_sorted_NoDup. Qed.

Lemma merge_In (l r : stat_row string) (L R : list (stat_row string)) :
  In (l, r) (stats.merge L R) <-> In l L /\ In r R /\ index r = index l.
Proof.
  unfold stats.merge. rewrite in_flat_map. split.
  - intros [l' [I J]]. apply in_map_iff in J as [r' [E J]].
    inversion E; subst. apply filter_In in J as [J Q].
    apply String.eqb_eq in Q. auto.
  - intros [I [J Q]]. exists l. split; [assumption|].
    apply in_map, filter_In. split; [assumption|]. now apply String.eqb_eq.
Qed.

(** With distinct keys on the right, a left row finds at most one partner. *)
Lemma matches_at_most_one (k : string) (R : list (stat_row string)) :
  NoDup (map index R) ->
  (List.length (filter (fun r => String.eqb (index r) k) R) <= 1)%nat.
Proof.
  induction R as [|r R IH]; simpl; [lia|].
  intros N. inversion N as [|? ? Hn N']; subst.
  destruct (String.eqb (index r) k) eqn:E; [|auto].
  apply String.eqb_eq in E.
  destruct (filter (fun r0 => String.eqb (index r0) k) R) as [|r' rest] eqn:F;
    [simpl; lia|].
  exfalso. apply Hn.
  assert (I : In r' (filter (fun r0 => String.eqb (index r0) k) R))
    by (rewrite F; now left).
  apply filter_In in I as [I Q]. apply String.eqb_eq in Q.
  rewrite E, <- Q. now apply in_map.
Qed.

Lemma merge_NoDup (L R : list (stat_row string)) :
  NoDup (map index L) -> NoDup (map index R) ->
  NoDup (map (fun p => index (fst p)) (stats.merge L R)).
Proof.
  intros NL NR. induction L as [|l L IH]; simpl; [constructor|].
  inversion NL as [|? ? Hn NL']; subst.
  rewrite map_app, map_map. simpl.
  apply NoDup_app.
  - pose proof (matches_at_most_one (index l) R NR) as Le.
    destruct (filter (fun r => String.eqb (index r) (index l)) R)
      as [|a [|b rest]]; simpl in *; try lia; repeat constructor; auto.
  - now apply IH.
  - intros a Ia Ib. apply in_map_iff in Ia as [r [<- _]].
    apply in_map_iff in Ib as [[l' r'] [E I]]. simpl in E.
    apply merge_In in I as [I _].
    apply Hn. rewrite <- E. now apply in_map.
Qed.

(** What [stats_by_date_range] returns, row by row: nothing unless the
    dates of the frame are [date] objects. *)
Lemma date_range_rows (df : DataFrame) (s e : datetime.date)
  (x : stat_row string) :
  In x (snd (stats.stats_by_date_range df s e)) <->
  date_as df = object_dates /\
  has_row_on (index x) s (rows df) /\ has_row_on (index x) e (rows df) /\
  x = mkstat (index x)
        (total_on confirmed_cases (index x) e (rows df)
         - total_on confirmed_cases (index x) s (rows df))
        (total_on deaths_cases (index x) e (rows df)
         - total_on deaths_cases (index x) s (rows df))
        (total_on recovered_cases (index x) e (rows df)
         - total_on recovered_cases (index x) s (rows df)).
Proof.
  unfold stats.stats_by_date_range. simpl. rewrite in_map_iff. split.
  - intros [[l r] [E I]]. simpl in E.
    apply merge_In in I as [Il [Ir Q]].
    apply sums_on_In in Il as [Hd [Hl El]], Ir as [_ [Hr Er]].
    rewrite Q in Hr, Er. subst x. simpl.
    rewrite El, Er. simpl. auto.
  - intros [Hd [Hs [He E]]].
    exists (mkstat (index x)
              (total_on confirmed_cases (index x) e (rows df))
              (total_on deaths_cases (index x) e (rows df))
              (total_on recovered_cases (index x) e (rows df)),
            mkstat (index x)
              (total_on confirmed_cases (index x) s (rows df))
              (total_on deaths_cases (index x) s (rows df))
              (total_on recovered_cases (index x) s (rows df))).
    split; [now rewrite E at 7|].
    apply merge_In. repeat split; try apply sums_on_In; simpl; auto.
Qed.

Lemma date_range_NoDup (df : DataFrame) (s e : datetime.date) :
  NoDup (map index (snd (stats.stats_by_date_range df s e))).
Proof.
  unfold stats.stats_by_date_range. simpl. rewrite map_map. simpl.
  apply merge_NoDup; apply sums_on_NoDup.
Qed.

Lemma date_range_countries (df : DataFrame) (s e : datetime.date) (c : string) :
  date_as df = object_dates ->
  (In c (map index (snd (stats.stats_by_date_range df s e))) <->
   has_row_on c s (rows df) /\ has_row_on c e (rows df)).
Proof.
  intros Hd. rewrite in_map_iff. split.
  - intros [x [<- I]]. apply date_range_rows in I. tauto.
  - intros [Hs He].
    exists (mkstat c
              (total_on confirmed_cases c e (rows df)
               - total_on confirmed_cases c s (rows df))
              (total_on deaths_cases c e (rows df)
               - total_on deaths_cases c s (rows df))
              (total_on recovered_cases c e (rows df)
               - total_on recovered_cases c s (rows df))).
    split; [reflexivity|]. apply date_range_rows. simpl. auto.
Qed.

(** X24. On a frame whose dates are [date] objects, as the database
    returns them, the date-range delta holds exactly one row for each
    country that has a row on the start date and a row on the end date;
    its three values are the country's column sum on the end date minus
    its column sum on the start date. *)
Theorem date_range_on_date_objects
  (df : DataFrame) (start_date end_date : datetime.date) :
  date_as df = object_dates ->
  let out := snd (stats.stats_by_date_range df start_date end_date) in
  NoDup (map index out) /\
  (forall c, In c (map index out) <->
             has_row_on c start_date (rows df) /\
             has_row_on c end_date (rows df)) /\
  (forall x, In x out ->
     confirmed x = total_on confirmed_cases (index x) end_date (rows df)
                   - total_on confirmed_cases (index x) start_date (rows df) /\
     deaths x = total_on deaths_cases (index x) end_date (rows df)
                - total_on deaths_cases (index x) start_date (rows df) /\
     recovered x = total_on recovered_cases (index x) end_date (rows df)
                   - total_on recovered_cases (index x) start_date (rows df)).
Proof.
  intros Hd out. subst out.
  split; [apply date_range_NoDup|].
  split; [intros c; now apply date_range_countries|].
  intros x I. apply date_range_rows in I as [_ [_ [_ E]]].
  rewrite E. simpl. auto.
Qed.

Lemma date_range_on_date_objects_witness :
  date_as india_range = object_dates /\
  let out :=
    snd (stats.stats_by_date_range india_range (day 2021 3 1)
           (day 2021 3 9)) in
  NoDup (map index out) /\
  (forall c, In c (map index out) <->
             has_row_on c (day 2021 3 1) (rows india_range) /\
             has_row_on c (day 2021 3 9) (rows india_range)) /\
  (forall x, In x out ->
     confirmed x
     = total_on confirmed_cases (index x) (day 2021 3 9) (rows india_range)
       - total_on confirmed_cases (index x) (day 2021 3 1)
           (rows india_range) /\
     deaths x
     = total_on deaths_cases (index x) (day 2021 3 9) (rows india_range)
       - total_on deaths_cases (index x) (day 2021 3 1) (rows india_range) /\
     recovered x
     = total_on recovered_cases (index x) (day 2021 3 9) (rows india_range)
       - total_on recovered_cases (index x) (day 2021 3 1)
           (rows india_range)).
Proof.
  split; [reflexivity|].
  apply (date_range_on_date_objects india_range (day 2021 3 1)
           (day 2021 3 9)).
  reflexivity.
Defined.

(** X25. On such a frame, with the start date equal to the end date, the
    delta holds exactly the countries that have a row on that date, once
    each, and every delta is 0. *)
Theorem date_range_same_day_on_date_objects (df : DataFrame)
  (d : datetime.date) :
  date_as df = object_dates ->
  let out := snd (stats.stats_by_date_range df d d) in
  NoDup (map index out) /\
  (forall c, In c (map index out) <-> has_row_on c d (rows df)) /\
  (forall x, In x out -> confirmed x = 0 /\ deaths x = 0 /\ recovered x = 0).
Proof.
  intros Hd out. subst out. split; [apply date_range_NoDup|]. split.
  - intros c. rewrite (date_range_countries df d d c Hd). tauto.
  - intros x I. apply date_range_rows in I as [_ [_ [_ E]]].
    rewrite E. simpl. lia.
Qed.

Lemma date_range_same_day_on_date_objects_witness :
  date_as three_days = object_dates /\
  let out :=
    snd (stats.stats_by_date_range three_days (day 2022 1 2)
           (day 2022 1 2)) in
  NoDup (map index out) /\
  (forall c, In c (map index out) <->
             has_row_on c (day 2022 1 2) (rows three_days)) /\
  (forall x, In x out -> confirmed x = 0 /\ deaths x = 0 /\ recovered x = 0).
Proof.
  split; [reflexivity|].
  apply (date_range_same_day_on_date_objects three_days (day 2022 1 2)).
  reflexivity.
Defined.

(** On a frame whose dates are time stamps no row equals a [date] object
    and the delta is empty. *)
Lemma date_range_on_time_stamps (df : DataFrame) (s e : datetime.date) :
  date_as df = datetime64 ->
  snd (stats.stats_by_date_range df s e) = [].
Proof.
  intros Hd. unfold stats.stats_by_date_range, stats.sums_on, stats.date_is.
  rewrite Hd, !filter_false. reflexivity.
Qed.

(** C3, at the frame the filter engine leaves behind.  On the frame as it
    was loaded India has rows on both dates and goes from 100 to 180
    confirmed cases, and the delta is 80.  Once [filter_data] has been
    called on that frame its dates are time stamps: India still has its
    rows on both dates, and the date-range delta is empty.  So it is on
    every frame that went through [filter_data], whatever the filter and
    the two dates. *)
Theorem stats_by_date_range_after_filter :
  snd (stats.stats_by_date_range india_range (day 2021 3 1) (day 2021 3 9))
  = [mkstat "India" 80 2 20] /\
  rows (fst (stats.filter_data india_range None None None))
  = rows india_range /\
  has_row_on "India" (day 2021 3 1)
    (rows (fst (stats.filter_data india_range None None None))) /\
  has_row_on "India" (day 2021 3 9)
    (rows (fst (stats.filter_data india_range None None None))) /\
  snd (stats.stats_by_date_range
         (fst (stats.filter_data india_range None None None))
         (day 2021 3 1) (day 2021 3 9))
  = [] /\
  (forall (df : DataFrame) (year month : option Z) (c : option string)
          (start_date end_date : datetime.date),
     rows (fst (stats.filter_data df year month c)) = rows df /\
     snd (stats.stats_by_date_range
            (fst (stats.filter_data df year month c)) start_date end_date)
     = []).
Proof.
  split; [vm_compute; reflexivity|].
  split; [reflexivity|].
  split.
  { exists (sample_row "India" (day 2021 3 1) 100 2 40). simpl. auto. }
  split.
  { exists (sample_row "India" (day 2021 3 9) 150 3 50). simpl. auto. }
  split; [vm_compute; reflexivity|].
  intros df year month c start_date end_date.
  split; [reflexivity|].
  now apply date_range_on_time_stamps.
Qed.


(** C9. With no year, no month and no country the filter engine returns one
    row per (country, date) pair of the input, without a province column,
    holding the sums of the three count columns over the rows of the pair;
    summed over the result, each count column equals its sum over the
    input. *)
Theorem filter_data_unset_totals (df : DataFrame) :
  let out := snd (stats.filter_data df None None None) in
  let pair_of g := (stats.g_country g, stats.g_date g) in
  NoDup (map pair_of out) /\
  (forall c d, In (c, d) (map pair_of out) <-> has_row_on c d (rows df)) /\
  (forall g, In g out ->
     stats.g_confirmed_cases g
     = total_on confirmed_cases (stats.g_country g) (stats.g_date g) (rows df) /\
     stats.g_deaths_cases g
     = total_on deaths_cases (stats.g_country g) (stats.g_date g) (rows df) /\
     stats.g_recovered_cases g
     = total_on recovered_cases (stats.g_country g) (stats.g_date g) (rows df)) /\
  zsum (map stats.g_confirmed_cases out) = total confirmed_cases (rows df) /\
  zsum (map stats.g_deaths_cases out) = total deaths_cases (rows df) /\
  zsum (map stats.g_recovered_cases out) = total recovered_cases (rows df) /\
  ~ In "province" stats.grouped_columns.
Proof.
  intros out pair_of. subst out pair_of.
  unfold stats.filter_data. simpl snd.
  set (key := fun r : Row => (country r, date r)).
  assert (Hkeys : forall (l : list (string * datetime.date * list Row)),
    map (fun g => (stats.g_country g, stats.g_date g))
      (map (fun kg =>
         stats.mkgrouped (fst (fst kg)) (snd (fst kg))
           (group_sum confirmed_cases (snd kg))
           (group_sum deaths_cases (snd kg))
           (group_sum recovered_cases (snd kg))
           (F64.fmean (map latitude (snd kg)))
           (F64.fmean (map longitude (snd kg)))) l)
    = map fst l).
  { intros l. rewrite map_map. apply map_ext. now intros [[c d] g]. }
  rewrite Hkeys, (groupby_keys key).
  split; [apply distinct_sorted_NoDup|].
  split.
  { intros c d. rewrite (group_keys_In key). unfold has_row_on, key. split.
    - intros [r [I E]]. inversion E. eauto.
    - intros [r [I [<- <-]]]. eauto. }
  split.
  { intros g I. apply in_map_iff in I as [[[c d] rs] [<- I]].
    apply (groupby_In key) in I as [_ ->]. simpl. tauto. }
  unfold total. rewrite !map_map. simpl.
  repeat split; try apply (zsum_groupby key).
  simpl. intuition discriminate.
Qed.

(** ** The error monad *)

Lemma mapM_Ok_id {A : Type} (f : A -> result A) (l : list A) :
  Forall (fun a => f a = Ok a) l -> mapM f l = Ok l.
Proof.
  induction 1 as [|a l Ha _ IH]; simpl; [reflexivity|].
  now rewrite Ha, IH.
Qed.

Lemma mapM_Forall {A B : Type} (f : A -> result B)
  (Q : A -> Prop) (P : B -> Prop) :
  (forall a b, Q a -> f a = Ok b -> P b) ->
  forall l l', Forall Q l -> mapM f l = Ok l' -> Forall P l'.
Proof.
  intros Hf l. induction l as [|a l IH]; simpl; intros l' HQ E.
  - inversion E. constructor.
  - inversion HQ as [|? ? Qa Ql]; subst.
    destruct (f a) as [b|e] eqn:Fa; simpl in E; [|discriminate].
    destruct (mapM f l) as [bs|e] eqn:Fl; simpl in E; [|discriminate].
    inversion E; subst. constructor; eauto.
Qed.

Lemma map_fixed {A : Type} (f : A -> A) (l : list A) :
  Forall (fun a => f a = a) l -> map f l = l.
Proof.
  induction 1 as [|a l Ha _ IH]; simpl; [reflexivity|].
  now rewrite Ha, IH.
Qed.

Lemma Forall_map_intro {A B : Type} (f : A -> B) (Q : A -> Prop)
  (P : B -> Prop) (l : list A) :
  (forall a, Q a -> P (f a)) -> Forall Q l -> Forall P (map f l).
Proof.
  intros Hf HQ. apply Forall_map. revert HQ. apply Forall_impl, Hf.
Qed.

(** ** The cleaner *)

Lemma fillna_notna (v c : cell) : isna c = false -> fillna v c = c.
Proof. unfold fillna. now intros ->. Qed.

Lemma isna_fillna (v c : cell) : isna v = false -> isna (fillna v c) = false.
Proof. unfold fillna. intros Hv. now destruct (isna c) eqn:E. Qed.

Lemma count_cell_int (c c' : cell) :
  data_utils.count_cell c = Ok c' -> is_int c' = true.
Proof.
  assert (T : forall z, data_utils.to_int64 z = Ok c' -> is_int c' = true).
  { intros z. unfold data_utils.to_int64.
    destruct (data_utils.in_int64 z) eqn:B; [|discriminate].
    intros E. inversion E. exact B. }
  unfold data_utils.count_cell, fillna.
  destruct (isna c); [intros E; inversion E; reflexivity|].
  destruct c as [z|f|s]; unfold data_utils.astype_int.
  - apply T.
  - destruct (F64.trunc f) as [z|]; [|discriminate].
    intros E. inversion E. simpl.
    destruct (data_utils.in_int64 z) eqn:B; [exact B | reflexivity].
  - destruct (data_utils.int_of_text s) as [z|]; [apply T | discriminate].
Qed.

Lemma count_cell_fixed (c : cell) :
  is_int c = true -> data_utils.count_cell c = Ok c.
Proof.
  destruct c as [z|f|s]; simpl; try discriminate.
  intros B. unfold data_utils.count_cell, fillna. simpl.
  unfold data_utils.to_int64. now rewrite B.
Qed.

(** On cleaned rows the cleaner only sorts. *)
Lemma clean_data_cleaned (df : list data_utils.raw_row) :
  Forall cleaned df ->
  data_utils.clean_data df = Ok (data_utils.sort_values df).
Proof.
  intros C. unfold data_utils.clean_data.
  rewrite (map_fixed _ df).
  2:{ revert C. apply Forall_impl. intros [p c cf de re la lo d] H.
      unfold cleaned in H. simpl in *.
      unfold data_utils.set_Province_State. simpl.
      now rewrite fillna_notna. }
  rewrite (mapM_Ok_id _ df). simpl.
  2:{ revert C. apply Forall_impl. intros [p c cf de re la lo d] H.
      unfold cleaned in H. simpl in *.
      rewrite count_cell_fixed by tauto. reflexivity. }
  rewrite (mapM_Ok_id _ df). simpl.
  2:{ revert C. apply Forall_impl. intros [p c cf de re la lo d] H.
      unfold cleaned in H. simpl in *.
      rewrite count_cell_fixed by tauto. reflexivity. }
  rewrite (mapM_Ok_id _ df). simpl.
  2:{ revert C. apply Forall_impl. intros [p c cf de re la lo d] H.
      unfold cleaned in H. simpl in *.
      rewrite count_cell_fixed by tauto. reflexivity. }
  rewrite (map_fixed _ df).
  2:{ revert C. apply Forall_impl. intros [p c cf de re la lo d] H.
      unfold cleaned in H. simpl in *.
      unfold data_utils.set_Lat. simpl.
      now rewrite fillna_notna. }
  rewrite (map_fixed _ df); [reflexivity|].
  revert C. apply Forall_impl. intros [p c cf de re la lo d] H.
  unfold cleaned in H. simpl in *.
  unfold data_utils.set_Long_. simpl.
  now rewrite fillna_notna.
Qed.

(** Whatever the cleaner returns is cleaned and sorted. *)
Lemma clean_data_result (df u : list data_utils.raw_row) :
  data_utils.clean_data df = Ok u ->
  Forall cleaned u /\ sorted_rows u = true.
Proof.
  unfold data_utils.clean_data. intros E.
  set (df1 := map _ df) in E.
  destruct (mapM _ df1) as [df2|] eqn:E2; simpl in E; [|discriminate].
  destruct (mapM _ df2) as [df3|] eqn:E3; simpl in E; [|discriminate].
  destruct (mapM _ df3) as [df4|] eqn:E4; simpl in E; [|discriminate].
  inversion E; subst u; clear E. split.
  2:{ apply isort_sorted. intros a b.
      apply (kleb_total (data_utils.sort_key a) (data_utils.sort_key b)). }
  apply isort_Forall.
  assert (H1 : Forall (fun r => isna (data_utils.Province_State r) = false)
                 df1).
  { apply Forall_map, Forall_forall. intros r _. simpl.
    now apply isna_fillna. }
  assert (H2 : Forall (fun r =>
                 isna (data_utils.Province_State r) = false /\
                 is_int (data_utils.Confirmed r) = true) df2).
  { revert H1 E2. apply mapM_Forall. intros a b Qa Fa.
    destruct (data_utils.count_cell (data_utils.Confirmed a)) eqn:Ec;
      simpl in Fa; [|discriminate].
    inversion Fa; subst b. simpl. split; [assumption|].
    eapply count_cell_int, Ec. }
  assert (H3 : Forall (fun r =>
                 isna (data_utils.Province_State r) = false /\
                 is_int (data_utils.Confirmed r) = true /\
                 is_int (data_utils.Deaths r) = true) df3).
  { revert H2 E3. apply mapM_Forall. intros a b Qa Fa.
    destruct (data_utils.count_cell (data_utils.Deaths a)) eqn:Ec;
      simpl in Fa; [|discriminate].
    inversion Fa; subst b. simpl. repeat split; try tauto.
    eapply count_cell_int, Ec. }
  assert (H4 : Forall (fun r =>
                 isna (data_utils.Province_State r) = false /\
                 is_int (data_utils.Confirmed r) = true /\
                 is_int (data_utils.Deaths r) = true /\
                 is_int (data_utils.Recovered r) = true) df4).
  { revert H3 E4. apply mapM_Forall. intros a b Qa Fa.
    destruct (data_utils.count_cell (data_utils.Recovered a)) eqn:Ec;
      simpl in Fa; [|discriminate].
    inversion Fa; subst b. simpl. repeat split; try tauto.
    eapply count_cell_int, Ec. }
  apply Forall_map, Forall_map. revert H4. apply Forall_impl.
  intros r H. unfold cleaned. simpl.
  repeat split; try tauto; now apply isna_fillna.
Qed.

(** C8. The cleaner is idempotent: cleaning the cleaned table returns it
    unchanged, and a table the cleaner rejects is rejected with the same
    error either way. *)
Theorem clean_data_idempotent (df : list data_utils.raw_row) :
  (u <- data_utils.clean_data df ;; data_utils.clean_data u)
  = data_utils.clean_data df.
Proof.
  destruct (data_utils.clean_data df) as [u|e] eqn:E; simpl; [|reflexivity].
  apply clean_data_result in E as [C S].
  rewrite (clean_data_cleaned u C). f_equal.
  apply isort_sorted_id, S.
Qed.

(** ** The ingestion *)

Lemma filter_map_In {A B : Type} (f : A -> option B) (b : B) (l : list A) :
  In b (data_utils.filter_map f l) -> exists a, In a l /\ f a = Some b.
Proof.
  induction l as [|a l IH]; simpl; [tauto|].
  destruct (f a) as [b'|] eqn:E.
  - intros [->|I]; [exists a; auto|].
    destruct (IH I) as [a' [I' E']]. exists a'. auto.
  - intros I. destruct (IH I) as [a' [I' E']]. exists a'. auto.
Qed.

Lemma keep_target_Some (d : datetime.date) (row : list cell)
  (r : data_utils.raw_row) :
  data_utils.keep_target d row = Some r ->
  data_utils.report_date r = d /\
  In (data_utils.Country_Region r) data_utils.TARGET_COUNTRIES.
Proof.
  unfold data_utils.keep_target.
  destruct row as [|p [|[z|f|c] [|cf [|de [|re [|la [|lo [|]]]]]]]];
    try discriminate.
  destruct (data_utils.isin c data_utils.TARGET_COUNTRIES) eqn:E;
    [|discriminate].
  intros Q. inversion Q; subst. simpl. split; [reflexivity|].
  unfold data_utils.isin in E. apply existsb_exists in E as [x [I Ex]].
  apply String.eqb_eq in Ex. now subst.
Qed.

(** What an appended day table says about its entry and its rows. *)
Lemma day_table_Some (e : data_utils.dir_entry)
  (t : list data_utils.raw_row) :
  data_utils.day_table e = Ok (Some t) ->
  exists d, datetime.strptime_mdY (stem e) = Ok d /\ passes e = true /\
    Forall (fun r => data_utils.report_date r = d /\
                     In (data_utils.Country_Region r)
                        data_utils.TARGET_COUNTRIES) t.
Proof.
  unfold data_utils.day_table, passes, stem, in_window.
  destruct (Str.endswith (data_utils.filename e) ".csv"); simpl;
    [|discriminate].
  destruct (datetime.strptime_mdY _) as [d|err]; simpl; [|discriminate].
  destruct (datetime.year d <? 2021) eqn:Lo; simpl; [discriminate|].
  destruct (datetime.year d >? 2023) eqn:Hi; simpl; [discriminate|].
  destruct (data_utils.read_csv e) as [fr|err]; simpl; [|discriminate].
  match goal with
  | |- bind ?m _ = _ -> _ => destruct m as [sel|err]; simpl; [|discriminate]
  end.
  intros Q. inversion Q; subst t. exists d.
  split; [reflexivity|]. split.
  - apply andb_true_iff. split; [apply Z.leb_le | apply Z.leb_le].
    + apply Z.ltb_ge in Lo. lia.
    + rewrite Z.gtb_ltb in Hi. apply Z.ltb_ge in Hi. lia.
  - apply Forall_forall. intros r I.
    apply filter_map_In in I as [row [_ K]].
    now apply keep_target_Some in K.
Qed.

(** Every table the loop ends with was there at the start or comes from
    an entry. *)
Lemma collect_tables (entries : list data_utils.dir_entry) :
  forall acc out, data_utils.collect entries acc = Ok out ->
  forall t, In t out ->
    In t acc \/
    exists e, In e entries /\ data_utils.day_table e = Ok (Some t).
Proof.
  induction entries as [|e entries IH]; simpl; intros acc out E t I.
  - inversion E; subst. now left.
  - destruct (data_utils.day_table e) as [[df|]|err] eqn:D; simpl in E;
      [| |discriminate].
    + destruct (IH _ _ E t I) as [J|[e' [J K]]].
      * apply in_app_or in J as [J|[<-|[]]]; [now left|].
        right. exists e. auto.
      * right. exists e'. auto.
    + destruct (IH _ _ E t I) as [J|[e' [J K]]]; [now left|].
      right. exists e'. auto.
Qed.

Lemma load_all_csvs_In (folder : list data_utils.dir_entry)
  (t : list data_utils.raw_row) (r : data_utils.raw_row) :
  data_utils.load_all_csvs folder = Ok t -> In r t ->
  exists e tbl, In e folder /\ data_utils.day_table e = Ok (Some tbl) /\
                In r tbl.
Proof.
  unfold data_utils.load_all_csvs.
  destruct (data_utils.collect folder []) as [out|err] eqn:C; simpl;
    [|discriminate].
  unfold data_utils.concat. destruct out as [|t0 out']; [discriminate|].
  intros Q I. inversion Q; subst t; clear Q.
  change (In r (List.concat (t0 :: out'))) in I.
  apply in_concat in I as [tbl [J I]].
  destruct (collect_tables _ _ _ C tbl J) as [[]|[e [Ie D]]].
  exists e, tbl. auto.
Qed.

(** C7. Every row of the table the normaliser returns has a country of the
    allow-list and a report date in 2021..2023, and that date is the one
    parsed from the name of the file the row was read from. *)
Theorem load_all_csvs_rows (folder : list data_utils.dir_entry)
  (t : list data_utils.raw_row) :
  data_utils.load_all_csvs folder = Ok t ->
  Forall (fun r =>
    In (data_utils.Country_Region r)
       ["India"; "Brazil"; "Russia"; "United Kingdom"; "Egypt"; "Italy";
        "South Africa"] /\
    2021 <= datetime.year (data_utils.report_date r) <= 2023 /\
    exists e tbl,
      In e folder /\
      datetime.strptime_mdY (Str.drop_last 4 (data_utils.filename e))
        = Ok (data_utils.report_date r) /\
      data_utils.day_table e = Ok (Some tbl) /\ In r tbl) t.
Proof.
  intros L. apply Forall_forall. intros r I.
  destruct (load_all_csvs_In _ _ _ L I) as [e [tbl [Ie [D J]]]].
  destruct (day_table_Some _ _ D) as [d [P [W F]]].
  rewrite Forall_forall in F. destruct (F r J) as [Rd Tc].
  split; [exact Tc|]. subst d. split.
  - unfold passes in W. apply andb_true_iff in W as [_ W].
    rewrite P in W. unfold in_window in W.
    apply andb_true_iff in W as [A B].
    apply Z.leb_le in A, B. lia.
  - exists e, tbl. auto.
Qed.

Lemma load_all_csvs_rows_witness :
  Forall (fun r =>
    In (data_utils.Country_Region r)
       ["India"; "Brazil"; "Russia"; "United Kingdom"; "Egypt"; "Italy";
        "South Africa"] /\
    2021 <= datetime.year (data_utils.report_date r) <= 2023 /\
    exists e tbl,
      In e folder_one_report /\
      datetime.strptime_mdY (Str.drop_last 4 (data_utils.filename e))
        = Ok (data_utils.report_date r) /\
      data_utils.day_table e = Ok (Some tbl) /\ In r tbl) table_one_report.
Proof.
  apply (load_all_csvs_rows folder_one_report table_one_report).
  vm_compute. reflexivity.
Defined.

Lemma strptime_raises_ValueError (s : string) (err : exn) :
  datetime.strptime_mdY s = Raise err -> exists msg, err = ValueError msg.
Proof.
  unfold datetime.strptime_mdY.
  destruct (datetime.parse_mdY _) as [d|]; [destruct (datetime.valid d)|];
    intros Q; inversion Q; eauto.
Qed.

(** An entry that does not pass is skipped or stops the loop at the date
    parser. *)
Lemma day_table_not_passing (e : data_utils.dir_entry) :
  passes e = false ->
  data_utils.day_table e = Ok None \/
  exists msg, data_utils.day_table e = Raise (ValueError msg).
Proof.
  unfold passes, data_utils.day_table, stem, in_window.
  destruct (Str.endswith (data_utils.filename e) ".csv"); simpl;
    [|now left].
  destruct (datetime.strptime_mdY _) as [d|err] eqn:P; simpl.
  - intros W. left.
    destruct (Z.leb_spec 2021 (datetime.year d)),
             (Z.leb_spec (datetime.year d) 2023); try discriminate.
    + replace (datetime.year d <? 2021) with false
        by (symmetry; apply Z.ltb_ge; lia).
      replace (datetime.year d >? 2023) with true; [reflexivity|].
      symmetry. rewrite Z.gtb_ltb. apply Z.ltb_lt. lia.
    + replace (datetime.year d <? 2021) with true; [reflexivity|].
      symmetry. apply Z.ltb_lt. lia.
    + replace (datetime.year d <? 2021) with true; [reflexivity|].
      symmetry. apply Z.ltb_lt. lia.
  - intros _. right.
    destruct (strptime_raises_ValueError _ _ P) as [msg ->]. eauto.
Qed.

Lemma collect_not_passing (entries : list data_utils.dir_entry) :
  Forall (fun e => passes e = false) entries ->
  forall acc,
    data_utils.collect entries acc = Ok acc \/
    exists msg, data_utils.collect entries acc = Raise (ValueError msg).
Proof.
  induction 1 as [|e entries He _ IH]; intros acc; simpl; [now left|].
  destruct (day_table_not_passing e He) as [->|[msg ->]]; simpl.
  - apply IH.
  - right. eauto.
Qed.

(** C5 (amended). When no entry of the folder passes the filename pattern
    and the year filter, the normaliser returns no table: it raises
    [ValueError] (from the date parser on a CSV name that is not a date, or
    else from the concatenation of an empty list of day tables). *)
Theorem load_all_csvs_no_report (folder : list data_utils.dir_entry) :
  Forall (fun e => passes e = false) folder ->
  exists msg, data_utils.load_all_csvs folder = Raise (ValueError msg).
Proof.
  intros H. unfold data_utils.load_all_csvs.
  destruct (collect_not_passing folder H []) as [->|[msg ->]]; simpl; eauto.
Qed.

Lemma load_all_csvs_no_report_witness :
  exists msg,
    data_utils.load_all_csvs folder_no_report = Raise (ValueError msg).
Proof.
  apply (load_all_csvs_no_report folder_no_report).
  repeat constructor.
Defined.

(** C5 as stated fails: in [folder_no_report] no entry passes the filters,
    and the normaliser raises instead of returning an empty table. *)
Lemma load_all_csvs_no_report_raises :
  Forall (fun e => passes e = false) folder_no_report /\
  data_utils.load_all_csvs folder_no_report
  = Raise (ValueError "No objects to concatenate") /\
  ~ exists t, data_utils.load_all_csvs folder_no_report = Ok t.
Proof.
  split; [repeat constructor|].
  split; [vm_compute; reflexivity|].
  intros [t E]. vm_compute in E. discriminate.
Qed.

(** An empty table is returned when a report passes and holds no row of a
    target country. *)
Example load_all_csvs_empty_table :
  data_utils.load_all_csvs
    [data_utils.mkentry "03-01-2021.csv" (Ok report_elsewhere)] = Ok [].
Proof. vm_compute. reflexivity. Qed.

Lemma collect_app (l1 l2 : list data_utils.dir_entry) :
  forall acc,
    data_utils.collect (l1 ++ l2) acc
    = (out <- data_utils.collect l1 acc ;; data_utils.collect l2 out).
Proof.
  induction l1 as [|e l1 IH]; intros acc; simpl; [reflexivity|].
  destruct (data_utils.day_table e) as [r|err]; simpl; [apply IH|reflexivity].
Qed.

(** C6 (amended). The normaliser silently skips the entries whose name
    does not end in [.csv]: the result is the same with or without such
    an entry.  A name that ends in [.csv] and whose date token does not
    parse as MM-DD-YYYY is not skipped: the whole ingestion raises. *)
Theorem load_all_csvs_filenames
  (before : list data_utils.dir_entry) (e : data_utils.dir_entry)
  (after : list data_utils.dir_entry) :
  (Str.endswith (data_utils.filename e) ".csv" = false ->
   data_utils.load_all_csvs (before ++ e :: after)
   = data_utils.load_all_csvs (before ++ after)) /\
  (Str.endswith (data_utils.filename e) ".csv" = true ->
   forall err, datetime.strptime_mdY (stem e) = Raise err ->
   exists err', data_utils.load_all_csvs (before ++ e :: after) = Raise err').
Proof.
  unfold data_utils.load_all_csvs. rewrite !collect_app. split.
  - intros Hn.
    destruct (data_utils.collect before []) as [out|err]; simpl;
      [|reflexivity].
    unfold data_utils.day_table. now rewrite Hn.
  - intros Hc err P.
    destruct (data_utils.collect before []) as [out|err0]; simpl; [|eauto].
    unfold data_utils.day_table, stem in *. rewrite Hc, P. simpl. eauto.
Qed.

(** C6 as stated fails: [notes.csv] has no date token, and with it in the
    folder the normaliser raises, while without it the report is read. *)
Lemma load_all_csvs_notes_raises :
  datetime.strptime_mdY "notes"
  = Raise (ValueError "time data does not match format '%m-%d-%Y'") /\
  data_utils.load_all_csvs folder_with_notes
  = Raise (ValueError "time data does not match format '%m-%d-%Y'") /\
  data_utils.load_all_csvs
    [data_utils.mkentry "03-01-2021.csv" (Ok report_early)]
  = Ok table_one_report.
Proof. repeat split; vm_compute; reflexivity. Qed.

(** ** The caller's frame *)

Lemma assign_twice (name : string) (col : list cell)
  (cols : list (string * list cell)) :
  assign name col (assign name col cols) = assign name col cols.
Proof.
  induction cols as [|[n c] cols IH]; simpl.
  - now rewrite String.eqb_refl.
  - destruct (String.eqb n name) eqn:E; simpl.
    + now rewrite String.eqb_refl.
    + now rewrite E, IH.
Qed.

(** These four operations hand the frame back as they received it. *)
Lemma frame_untouched (df : DataFrame) (s e : datetime.date) :
  fst (stats.stats_by_country df) = df /\
  fst (stats.stats_by_date_range df s e) = df /\
  fst (advanced_metrics.compare_wave_intensity df) = df /\
  fst (advanced_metrics.calculate_rates df) = df.
Proof.
  repeat split.
Qed.

(** A second call on the frame the first call left behind returns the
    same result and leaves the same frame. *)
Lemma second_call_same (df : DataFrame) :
  stats.stats_by_month (fst (stats.stats_by_month df))
  = stats.stats_by_month df /\
  stats.stats_by_year (fst (stats.stats_by_year df))
  = stats.stats_by_year df /\
  advanced_metrics.generate_pivot (fst (advanced_metrics.generate_pivot df))
  = advanced_metrics.generate_pivot df /\
  stats.filter_data (fst (stats.filter_data df None None None)) None None None
  = stats.filter_data df None None None.
Proof.
  unfold stats.stats_by_month, stats.stats_by_year,
    advanced_metrics.generate_pivot, stats.filter_data, set_column.
  simpl. rewrite !assign_twice. auto.
Qed.

(** C4, at a frame with one row and no derived column.  The monthly and
    yearly statistics and the pivot add a column to the frame they were
    given and the filter engine rewrites its date column, so the frame the
    caller holds is not the one it passed in. *)
Theorem aggregations_change_frame :
  derived one_day = [] /\ date_as one_day = object_dates /\
  derived (fst (stats.stats_by_month one_day))
  = [("month_year", [Str "2021-03"])] /\
  derived (fst (stats.stats_by_year one_day)) = [("year", [Int 2021])] /\
  derived (fst (advanced_metrics.generate_pivot one_day))
  = [("year", [Int 2021])] /\
  date_as (fst (stats.filter_data one_day None None None)) = datetime64 /\
  fst (stats.stats_by_month one_day) <> one_day /\
  fst (stats.stats_by_year one_day) <> one_day /\
  fst (advanced_metrics.generate_pivot one_day) <> one_day /\
  fst (stats.filter_data one_day None None None) <> one_day.
Proof.
  repeat split; try (vm_compute; reflexivity); intros E;
    first [ apply (f_equal derived) in E; vm_compute in E; discriminate
          | apply (f_equal date_as) in E; vm_compute in E; discriminate ].
Qed.

(** ** Wave intensity *)

Lemma fold_max_spec (l : list Z) :
  forall x, In (fold_left Z.max l x) (x :: l) /\
            forall y, In y (x :: l) -> y <= fold_left Z.max l x.
Proof.
  induction l as [|a l IH]; intros x; simpl.
  - split; [now left | intros y [<-|[]]; lia].
  - destruct (IH (Z.max x a)) as [I B]. split.
    + destruct I as [E|I]; [|now right; right].
      destruct (Z.max_spec x a) as [[_ M]|[_ M]];
        [right; left | left]; congruence.
    + pose proof (B (Z.max x a) (or_introl eq_refl)) as Bm.
      intros y [E|[E|J]]; [lia | lia | apply B; now right].
Qed.

Lemma group_max_peak (df : list Row) (c : string) (y : Z) :
  yearly_peak df c y (group_max confirmed_cases (year_rows c y df)).
Proof.
  unfold yearly_peak, group_max.
  destruct (year_rows c y df) as [|r g]; [now left|right]. simpl.
  destruct (fold_max_spec (map confirmed_cases g) (confirmed_cases r))
    as [I B].
  split.
  - destruct I as [E|I]; [exists r; auto|].
    apply in_map_iff in I as [r' [E I]]. exists r'. auto.
  - intros r' [<-|J]; apply B; [now left|]. right. now apply in_map.
Qed.

Lemma rows_of_none {K R : Type} `{KeyOk K} (key : R -> K) (k : K)
  (df : list R) :
  ~ In k (map key df) -> rows_of key k df = [].
Proof.
  induction df as [|r df IH]; simpl; [reflexivity|].
  intros N. destruct (keqb (key r) k) eqn:E.
  - apply keqb_spec in E. tauto.
  - apply IH. tauto.
Qed.

(** A cell of the unstacked, zero-filled frame is the group maximum. *)
Lemma unstack_cell (df : list Row) (c : string) (y : Z) :
  match lookup (c, y) (advanced_metrics.yearly_max df) with
  | Some v => v
  | None => 0
  end = group_max confirmed_cases (year_rows c y df).
Proof.
  unfold advanced_metrics.yearly_max, groupby. rewrite map_map. simpl.
  rewrite (lookup_map_keys
             (fun k => group_max confirmed_cases (rows_of country_year k df))).
  change (year_rows c y df) with (rows_of country_year (c, y) df).
  destruct (existsb _ _) eqn:E; [reflexivity|].
  rewrite (rows_of_none country_year (c, y) df); [reflexivity|].
  intros I. apply distinct_sorted_In, existsb_keqb in I.
  unfold country_year in I. congruence.
Qed.

Lemma yearly_max_years (df : list Row) (y : Z) :
  In y (map (fun kv => snd (fst kv)) (advanced_metrics.yearly_max df)) <->
  exists r, In r df /\ datetime.year (date r) = y.
Proof.
  unfold advanced_metrics.yearly_max. rewrite map_map. simpl.
  rewrite in_map_iff. split.
  - intros [[k g] [<- I]]. apply groupby_In in I as [[r [I E]] _].
    exists r. simpl. split; [assumption|]. now rewrite <- E.
  - intros [r [I E]].
    exists (country_year r, rows_of country_year (country_year r) df).
    split; [exact E|]. apply groupby_In. split; [eauto | reflexivity].
Qed.

Lemma yearly_max_countries (df : list Row) (c : string) :
  In c (map (fun kv => fst (fst kv)) (advanced_metrics.yearly_max df)) <->
  exists r, In r df /\ country r = c.
Proof.
  unfold advanced_metrics.yearly_max. rewrite map_map. simpl.
  rewrite in_map_iff. split.
  - intros [[k g] [<- I]]. apply groupby_In in I as [[r [I E]] _].
    exists r. simpl. split; [assumption|]. now rewrite <- E.
  - intros [r [I E]].
    exists (country_year r, rows_of country_year (country_year r) df).
    split; [exact E|]. apply groupby_In. split; [eauto | reflexivity].
Qed.

(** The sorted distinct years of a list that lies in the window and
    reaches each of its years. *)
Lemma window_years (l : list Z) :
  (forall y, In y l -> 2021 <= y <= 2023) ->
  In 2021 l -> In 2022 l -> In 2023 l ->
  distinct_sorted l = [2021; 2022; 2023].
Proof.
  intros W I1 I2 I3.
  pose proof (distinct_sorted_NoDup l) as N.
  pose proof (distinct_sorted_sorted l) as S.
  assert (M : forall y, In y (distinct_sorted l) <-> In y l)
    by (intros y; apply distinct_sorted_In).
  assert (P : Permutation (distinct_sorted l) [2021; 2022; 2023]).
  { apply NoDup_Permutation; [assumption | |].
    - repeat constructor; simpl; intuition lia.
    - intros y. rewrite M. split.
      + intros I. specialize (W y I). simpl.
        assert (y = 2021 \/ y = 2022 \/ y = 2023) by lia. intuition.
      + simpl. intros [<-|[<-|[<-|[]]]]; assumption. }
  apply Permutation_length in P.
  destruct (distinct_sorted l) as [|a [|b [|c [|d L]]]]; try discriminate.
  assert (Wa : 2021 <= a <= 2023) by (apply W, M; simpl; auto).
  assert (Wb : 2021 <= b <= 2023) by (apply W, M; simpl; auto).
  assert (Wc : 2021 <= c <= 2023) by (apply W, M; simpl; auto).
  simpl in S. apply andb_true_iff in S as [Sab S].
  apply andb_true_iff in S as [Sbc _].
  apply Z.leb_le in Sab, Sbc.
  inversion N as [|? ? Na N']; subst. inversion N' as [|? ? Nb _]; subst.
  simpl in Na, Nb.
  assert (a <> b /\ a <> c /\ b <> c) as [? [? ?]] by intuition.
  assert (a = 2021 /\ b = 2022 /\ c = 2023) as [-> [-> ->]] by lia.
  reflexivity.
Qed.

(** The comparison on a table that lies in the window and covers it. *)
Lemma compare_wave_intensity_covering (df : DataFrame) :
  in_years (rows df) -> covers_years (rows df) ->
  snd (advanced_metrics.compare_wave_intensity df)
  = Ok (map (fun c =>
          let a := group_max confirmed_cases (year_rows c 2021 (rows df)) in
          let b := group_max confirmed_cases (year_rows c 2022 (rows df)) in
          let d := group_max confirmed_cases (year_rows c 2023 (rows df)) in
          advanced_metrics.mkwave c a b d
            (advanced_metrics.pct_change a b)
            (advanced_metrics.pct_change b d)
            (advanced_metrics.pct_change a d))
        (distinct_sorted
           (map (fun kv => fst (fst kv))
              (advanced_metrics.yearly_max (rows df))))).
Proof.
  intros W C.
  unfold advanced_metrics.compare_wave_intensity, advanced_metrics.unstack.
  rewrite (window_years
             (map (fun kv => snd (fst kv))
                (advanced_metrics.yearly_max (rows df)))).
  - cbn [snd]. f_equal. rewrite map_map. apply map_ext. intros c.
    cbn [fst snd map nth]. now rewrite !unstack_cell.
  - intros y I. apply yearly_max_years in I as [r [I <-]].
    unfold in_years in W. rewrite Forall_forall in W. now apply W.
  - apply yearly_max_years, C. simpl. auto.
  - apply yearly_max_years, C. simpl. auto.
  - apply yearly_max_years, C. simpl. auto.
Qed.

(** C1 (amended). On a table whose rows lie in 2021..2023 and in which
    each of the three years occurs, the wave-intensity comparison returns
    one row per country; its 2021, 2022 and 2023 columns are the largest
    [confirmed_cases] of the country within the year (0 for a year in
    which the country has no row), and its three percentage columns are
    (2022-2021)/2021*100, (2023-2022)/2022*100 and (2023-2021)/2021*100 in
    float64, rounded to two decimals.  Yearly maxima 100, 150 and 120 give
    50.0, -20.0 and 20.0. *)
Theorem compare_wave_intensity_rows (df : DataFrame) :
  in_years (rows df) -> covers_years (rows df) ->
  (exists out,
     snd (advanced_metrics.compare_wave_intensity df) = Ok out /\
     NoDup (map advanced_metrics.w_country out) /\
     (forall c, In c (map advanced_metrics.w_country out) <->
                exists r, In r (rows df) /\ country r = c) /\
     (forall w, In w out ->
        let c := advanced_metrics.w_country w in
        let a := advanced_metrics.y2021 w in
        let b := advanced_metrics.y2022 w in
        let d := advanced_metrics.y2023 w in
        yearly_peak (rows df) c 2021 a /\
        yearly_peak (rows df) c 2022 b /\
        yearly_peak (rows df) c 2023 d /\
        advanced_metrics.pct_2021_2022 w
        = F64.round2 (F64.of_Z (b - a) / F64.of_Z a * 100)%float /\
        advanced_metrics.pct_2022_2023 w
        = F64.round2 (F64.of_Z (d - b) / F64.of_Z b * 100)%float /\
        advanced_metrics.pct_2021_2023 w
        = F64.round2 (F64.of_Z (d - a) / F64.of_Z a * 100)%float)) /\
  snd (advanced_metrics.compare_wave_intensity three_waves)
  = Ok [advanced_metrics.mkwave "India" 100 150 120 50 (-20) 20].
Proof.
  intros W C. split; [|vm_compute; reflexivity].
  eexists. split; [apply (compare_wave_intensity_covering df W C)|].
  rewrite map_map. cbn [advanced_metrics.w_country]. rewrite map_id.
  split; [apply distinct_sorted_NoDup|]. split.
  - intros c. rewrite distinct_sorted_In. apply yearly_max_countries.
  - intros w I. apply in_map_iff in I as [c [<- _]].
    cbn -[group_max year_rows F64.round2 F64.of_Z].
    repeat split; apply group_max_peak.
Qed.

Lemma compare_wave_intensity_rows_witness :
  (exists out,
     snd (advanced_metrics.compare_wave_intensity three_waves) = Ok out /\
     NoDup (map advanced_metrics.w_country out) /\
     (forall c, In c (map advanced_metrics.w_country out) <->
                exists r, In r (rows three_waves) /\ country r = c) /\
     (forall w, In w out ->
        let c := advanced_metrics.w_country w in
        let a := advanced_metrics.y2021 w in
        let b := advanced_metrics.y2022 w in
        let d := advanced_metrics.y2023 w in
        yearly_peak (rows three_waves) c 2021 a /\
        yearly_peak (rows three_waves) c 2022 b /\
        yearly_peak (rows three_waves) c 2023 d /\
        advanced_metrics.pct_2021_2022 w
        = F64.round2 (F64.of_Z (b - a) / F64.of_Z a * 100)%float /\
        advanced_metrics.pct_2022_2023 w
        = F64.round2 (F64.of_Z (d - b) / F64.of_Z b * 100)%float /\
        advanced_metrics.pct_2021_2023 w
        = F64.round2 (F64.of_Z (d - a) / F64.of_Z a * 100)%float)) /\
  snd (advanced_metrics.compare_wave_intensity three_waves)
  = Ok [advanced_metrics.mkwave "India" 100 150 120 50 (-20) 20].
Proof.
  apply (compare_wave_intensity_rows three_waves).
  - repeat constructor; simpl; lia.
  - intros y [<-|[<-|[<-|[]]]].
    + exists (sample_row "India" (day 2021 3 1) 80 2 40).
      split; [simpl; auto | reflexivity].
    + exists (sample_row "India" (day 2022 6 1) 150 3 50).
      split; [simpl; auto | reflexivity].
    + exists (sample_row "India" (day 2023 1 9) 120 3 50).
      split; [simpl; auto | reflexivity].
Defined.

(** C1 as stated fails: a table within the window that holds a single
    year makes the comparison raise instead of returning a row with zeros
    for the other years. *)
Lemma compare_wave_intensity_one_year_raises :
  in_years (rows one_day) /\
  snd (advanced_metrics.compare_wave_intensity one_day)
  = Raise (ValueError "Length mismatch") /\
  ~ exists out, snd (advanced_metrics.compare_wave_intensity one_day) = Ok out.
Proof.
  split; [repeat constructor; simpl; lia|].
  split; [vm_compute; reflexivity|].
  intros [out E]. vm_compute in E. discriminate.
Qed.

(** ** Rates *)

Lemma positive_rows (df : list Row) :
  Forall (fun r => 0 <= confirmed_cases r) df ->
  filter (fun r => confirmed_cases r >? 0) df = nonzero_rows df.
Proof.
  intros N. apply filter_ext_in. intros r I.
  rewrite Forall_forall in N. specialize (N r I).
  rewrite Z.gtb_ltb.
  destruct (Z.ltb_spec 0 (confirmed_cases r)),
           (Z.eqb_spec (confirmed_cases r) 0); simpl; lia.
Qed.

Lemma positive_of_nonzero (df : list Row) :
  filter (fun r => confirmed_cases r >? 0) (nonzero_rows df)
  = filter (fun r => confirmed_cases r >? 0) df.
Proof.
  unfold nonzero_rows. rewrite filter_filter. apply filter_ext. intros r.
  rewrite Z.gtb_ltb.
  destruct (Z.ltb_spec 0 (confirmed_cases r)),
           (Z.eqb_spec (confirmed_cases r) 0); simpl; lia.
Qed.

(** The guard [confirmed_cases > 0] keeps the rows with a positive
    count, and filtering twice is filtering once. *)
Lemma positive_confirmed_rows (df : list Row) :
  filter (fun r => confirmed_cases r >? 0) df = confirmed_rows df.
Proof. apply filter_ext. intros r. apply Z.gtb_ltb. Qed.

Lemma positive_of_confirmed_rows (df : list Row) :
  filter (fun r => confirmed_cases r >? 0) (confirmed_rows df)
  = filter (fun r => confirmed_cases r >? 0) df.
Proof.
  unfold confirmed_rows. rewrite filter_filter. apply filter_ext. intros r.
  rewrite Z.gtb_ltb. now destruct (0 <? confirmed_cases r).
Qed.

(** The rates in terms of the rows that pass the filter. *)
Lemma calculate_rates_groups (df : DataFrame) :
  let kept := filter (fun r => confirmed_cases r >? 0) (rows df) in
  snd (advanced_metrics.calculate_rates df)
  = map (fun c =>
           advanced_metrics.mkrate c
             (F64.fmean (map (percent_of_confirmed deaths_cases)
                           (rows_of country c kept)))
             (F64.fmean (map (percent_of_confirmed recovered_cases)
                           (rows_of country c kept))))
        (distinct_sorted (map country kept)).
Proof.
  intros kept. unfold advanced_metrics.calculate_rates, groupby.
  cbn [snd]. fold kept. rewrite !map_map. cbn [fst snd].
  apply map_ext. intros c. unfold rows_of.
  rewrite filter_map_swap, !map_map. reflexivity.
Qed.

(** C2 (amended). The rate calculation discards the rows whose
    [confirmed_cases] is not positive, those at 0 and those below, and
    returns one row per country that has a row left; the fatality rate is
    the mean, over the remaining rows of the country, of
    deaths/confirmed*100 taken row by row, and the recovery rate the mean
    of recovered/confirmed*100.  A country with a row at confirmed 0 and a
    row at confirmed 50 with 5 deaths gets 10.0, which is not 5.0; a
    country with 10 deaths in 100 cases and then none in 300 gets 5.0, the
    mean of 10 and 0, where the ratio of the sums is 2.5. *)
Theorem calculate_rates_mean_over_positive_rows (df : DataFrame) :
  let kept := confirmed_rows (rows df) in
  let out := snd (advanced_metrics.calculate_rates df) in
  out = snd (advanced_metrics.calculate_rates
               (mkDataFrame kept (date_as df) (derived df))) /\
  NoDup (map advanced_metrics.r_country out) /\
  (forall c, In c (map advanced_metrics.r_country out) <->
             exists r, In r kept /\ country r = c) /\
  (forall x, In x out ->
     let mine :=
       filter (fun r => String.eqb (country r) (advanced_metrics.r_country x))
         kept in
     advanced_metrics.fatality_rate x
     = F64.fmean (map (percent_of_confirmed deaths_cases) mine) /\
     advanced_metrics.recovery_rate x
     = F64.fmean (map (percent_of_confirmed recovered_cases) mine)) /\
  snd (advanced_metrics.calculate_rates zero_then_fifty)
  = [advanced_metrics.mkrate "Egypt" 10 20] /\
  (10 <> 5)%float /\
  snd (advanced_metrics.calculate_rates two_reports)
  = [advanced_metrics.mkrate "Italy" 5 75] /\
  percent_of_sums deaths_cases (rows two_reports) = 2.5%float /\
  (5 <> 2.5)%float.
Proof.
  intros kept out. subst kept out.
  split.
  { rewrite !calculate_rates_groups. cbn [rows].
    now rewrite positive_of_confirmed_rows. }
  rewrite calculate_rates_groups, positive_confirmed_rows.
  rewrite map_map. cbn [advanced_metrics.r_country]. rewrite map_id.
  split; [apply distinct_sorted_NoDup|].
  split; [intros c; apply (group_keys_In country)|].
  split.
  { intros x I. apply in_map_iff in I as [c [<- _]]. simpl. auto. }
  split; [vm_compute; reflexivity|].
  split.
  { intros E. apply (f_equal (fun x => PrimFloat.eqb x 5)) in E.
    vm_compute in E. discriminate. }
  split; [vm_compute; reflexivity|].
  split; [vm_compute; reflexivity|].
  intros E. apply (f_equal (fun x => PrimFloat.eqb x 2.5)) in E.
  vm_compute in E. discriminate.
Qed.

(** C2 as stated fails at a negative count.  Brazil's only row has
    -4 confirmed cases: it is not a row with [confirmed_cases] equal to 0,
    so Brazil is a remaining country, and the rate calculation returns no
    row at all.  With a second row at 50 confirmed cases and 5 deaths the
    fatality rate is 10.0, the ratio of that row alone, where the mean
    over the rows with [confirmed_cases] other than 0 is -7.5. *)
Lemma calculate_rates_negative_row :
  nonzero_rows (rows minus_four) = rows minus_four /\
  (exists r, In r (nonzero_rows (rows minus_four)) /\ country r = "Brazil") /\
  snd (advanced_metrics.calculate_rates minus_four) = [] /\
  ~ (forall c,
       In c (map advanced_metrics.r_country
               (snd (advanced_metrics.calculate_rates minus_four))) <->
       exists r, In r (nonzero_rows (rows minus_four)) /\ country r = c) /\
  nonzero_rows (rows minus_then_fifty) = rows minus_then_fifty /\
  snd (advanced_metrics.calculate_rates minus_then_fifty)
  = [advanced_metrics.mkrate "Brazil" 10 20] /\
  F64.fmean (map (percent_of_confirmed deaths_cases)
               (nonzero_rows (rows minus_then_fifty)))
  = (-7.5)%float /\
  (10 <> -7.5)%float.
Proof.
  split; [reflexivity|].
  split.
  { exists (sample_row "Brazil" (day 2021 3 1) (-4) 1 2). simpl. auto. }
  split; [vm_compute; reflexivity|].
  split.
  { intros H. destruct (H "Brazil") as [_ B].
    assert (I : In "Brazil"
                  (map advanced_metrics.r_country
                     (snd (advanced_metrics.calculate_rates minus_four)))).
    { apply B. exists (sample_row "Brazil" (day 2021 3 1) (-4) 1 2).
      simpl. auto. }
    vm_compute in I. exact I. }
  split; [reflexivity|].
  split; [vm_compute; reflexivity|].
  split; [vm_compute; reflexivity|].
  intros E. apply (f_equal (fun x => PrimFloat.eqb x 10)) in E.
  vm_compute in E. discriminate.
Qed.

(** ** Runs on the sample tables *)

Example clean_data_one_report :
  data_utils.clean_data
    (data_utils.mkraw (Str "Lazio") "Italy" (Int 70) (Int 7) (Float 7)
       (Int 0) NaN (day 2021 3 1)
     :: table_one_report)
  = Ok [data_utils.mkraw (Str "Unknown") "India" (Int 100) (Int 2) (Int 0)
          (Int 0) (Int 0) (day 2021 3 1);
        data_utils.mkraw (Str "Lazio") "Italy" (Int 70) (Int 7) (Int 7)
          (Int 0) (Float 0) (day 2021 3 1);
        data_utils.mkraw (Str "Lazio") "Italy" (Int 70) (Int 7) (Int 7)
          (Int 0) (Int 0) (day 2021 3 1)].
Proof. vm_compute. reflexivity. Qed.

Example clean_data_rejects_infinity :
  data_utils.clean_data
    [data_utils.mkraw NaN "India" (Float infinity) (Int 2) NaN (Int 0) (Int 0)
       (day 2021 3 1)]
  = Raise (ValueError "Cannot convert non-finite values (NA or inf) to integer").
Proof. vm_compute. reflexivity. Qed.

Example strptime_short_fields :
  datetime.strptime_mdY "3-1-2021" = Ok (day 2021 3 1) /\
  datetime.strptime_mdY "02-29-2021"
  = Raise (ValueError "day is out of range for month") /\
  datetime.strptime_mdY "02-29-2020" = Ok (day 2020 2 29).
Proof. repeat split; vm_compute; reflexivity. Qed.

Example normalize_column_slash :
  data_utils.normalize_column " Country/Region " = "Country_Region" /\
  data_utils.normalize_column "Last Update" = "Last_Update".
Proof. split; vm_compute; reflexivity. Qed.

Example filter_data_sample :
  snd (stats.filter_data india_range None None None)
  = [stats.mkgrouped "India" (day 2021 3 1) 100 2 40 0 0;
     stats.mkgrouped "India" (day 2021 3 9) 180 4 60 0 0;
     stats.mkgrouped "Italy" (day 2021 3 1) 70 7 7 0 0] /\
  snd (stats.filter_data india_range (Some 2021) (Some 3) (Some "Italy"))
  = [stats.mkgrouped "Italy" (day 2021 3 1) 70 7 7 0 0] /\
  snd (stats.filter_data india_range None None (Some ""))
  = snd (stats.filter_data india_range None None None).
Proof. repeat split; vm_compute; reflexivity. Qed.

Example wave_missing_year_for_one_country :
  snd (advanced_metrics.compare_wave_intensity
         (frame_of (sample_row "Italy" (day 2021 5 5) 40 1 1
                    :: rows three_waves)))
  = Ok [advanced_metrics.mkwave "India" 100 150 120 50 (-20) 20;
        advanced_metrics.mkwave "Italy" 40 0 0 (-100) nan (-100)].
Proof. vm_compute. reflexivity. Qed.

Example stats_by_country_sample :
  snd (stats.stats_by_country india_range)
  = [mkstat "India" 150 3 50; mkstat "Italy" 70 7 7].
Proof. vm_compute. reflexivity. Qed.

Example load_all_csvs_skips_readme :
  data_utils.load_all_csvs folder_one_report = Ok table_one_report /\
  data_utils.load_all_csvs
    [data_utils.mkentry "03-01-2021.csv" (Ok report_early)]
  = Ok table_one_report.
Proof. split; vm_compute; reflexivity. Qed.

(* ================================================================== *)
(** * Further properties *)

(** ** Maxima per country, year and month *)

Lemma group_max_is_max (f : Row -> Z) (g : list Row) :
  g <> [] -> is_max_of f g (group_max f g).
Proof.
  unfold is_max_of, group_max. destruct g as [|r g]; [congruence|].
  intros _. simpl.
  destruct (fold_max_spec (map f g) (f r)) as [I B]. split.
  - destruct I as [E|I]; [exists r; auto|].
    apply in_map_iff in I as [r' [E I]]. exists r'. auto.
  - intros r' [<-|J]; apply B; [now left|]. right. now apply in_map.
Qed.

Lemma rows_of_nonempty {K R : Type} `{KeyOk K} (key : R -> K) (k : K)
  (df : list R) :
  (exists r, In r df /\ key r = k) -> rows_of key k df <> [].
Proof.
  intros [r [I E]] N.
  assert (J : In r (rows_of key k df)) by now apply rows_of_In.
  rewrite N in J. inversion J.
Qed.

Lemma max_row_is_max {K : Type} `{KeyOk K} (key : Row -> K) (k : K)
  (df : list Row) :
  (exists r, In r df /\ key r = k) ->
  let x := max_row k (rows_of key k df) in
  is_max_of confirmed_cases (rows_of key k df) (confirmed x) /\
  is_max_of deaths_cases (rows_of key k df) (deaths x) /\
  is_max_of recovered_cases (rows_of key k df) (recovered x).
Proof.
  intros E. pose proof (rows_of_nonempty key k df E) as N.
  simpl. repeat split; now apply group_max_is_max.
Qed.

Lemma combine_map_r {A B : Type} (f : A -> B) (l : list A) :
  combine l (map f l) = map (fun a => (a, f a)) l.
Proof. induction l as [|a l IH]; simpl; [reflexivity | now rewrite IH]. Qed.

(** A group-by on a column computed from the rows is the group-by on the
    rows under the computed key. *)
Lemma groupby_keyed {K B : Type} `{KeyOk K} (f : Row -> B)
  (key : Row * B -> K) (df : list Row) :
  map (fun kg => (fst kg, map fst (snd kg)))
    (groupby key (combine df (map f df)))
  = groupby (fun r => key (r, f r)) df.
Proof.
  rewrite combine_map_r. unfold groupby. rewrite !map_map. cbn [fst snd].
  apply map_ext. intros k. f_equal. unfold rows_of.
  rewrite filter_map_swap, map_map. cbn [fst]. apply map_id.
Qed.

Lemma stats_by_country_rows (df : DataFrame) :
  snd (stats.stats_by_country df)
  = map (fun c => max_row c (rows_of country c (rows df)))
      (distinct_sorted (map country (rows df))).
Proof.
  unfold stats.stats_by_country, stats.agg_max, groupby. cbn [snd].
  now rewrite map_map.
Qed.

Lemma stats_by_year_rows (df : DataFrame) :
  snd (stats.stats_by_year df)
  = map (fun k => max_row k (rows_of country_year k (rows df)))
      (distinct_sorted (map country_year (rows df))).
Proof.
  unfold stats.stats_by_year, stats.agg_max. cbn [snd rows set_column].
  rewrite (groupby_keyed (fun r => datetime.year (date r))
             (fun ry => (country (fst ry), snd ry))).
  unfold groupby. now rewrite map_map.
Qed.

Lemma stats_by_month_rows (df : DataFrame) :
  snd (stats.stats_by_month df)
  = map (fun k => max_row k (rows_of country_month k (rows df)))
      (distinct_sorted (map country_month (rows df))).
Proof.
  unfold stats.stats_by_month, stats.agg_max. cbn [snd rows set_column].
  rewrite (groupby_keyed (fun r => datetime.strftime_Ym (date r))
             (fun rm => (country (fst rm), snd rm))).
  unfold groupby. now rewrite map_map.
Qed.

(** X1. [stats_by_country] leaves the frame alone and returns one row per
    country of the table, in ascending order of the country name; each of
    its three values is the largest value of its column among the rows of
    the country. *)
Theorem stats_by_country_maxima (df : DataFrame) :
  let out := snd (stats.stats_by_country df) in
  fst (stats.stats_by_country df) = df /\
  NoDup (map index out) /\
  sortedb String.leb (map index out) = true /\
  (forall c, In c (map index out) <->
             exists r, In r (rows df) /\ country r = c) /\
  (forall x, In x out ->
     let g := country_rows (index x) (rows df) in
     is_max_of confirmed_cases g (confirmed x) /\
     is_max_of deaths_cases g (deaths x) /\
     is_max_of recovered_cases g (recovered x)).
Proof.
  intros out. subst out. rewrite stats_by_country_rows.
  rewrite map_map. cbn [index max_row]. rewrite map_id.
  split; [reflexivity|].
  split; [apply distinct_sorted_NoDup|].
  split; [exact (distinct_sorted_sorted (map country (rows df)))|].
  split; [intros c; apply (group_keys_In country)|].
  intros x I. apply in_map_iff in I as [c [<- I]].
  apply (group_keys_In country) in I.
  exact (max_row_is_max country c (rows df) I).
Qed.

(** X2. [stats_by_year] returns one row per (country, year) pair that
    occurs in the table, in ascending order of the pair; each of its three
    values is the largest value of its column among the rows of that
    country in that year. *)
Theorem stats_by_year_maxima (df : DataFrame) :
  let out := snd (stats.stats_by_year df) in
  NoDup (map index out) /\
  sortedb kleb (map index out) = true /\
  (forall c y, In (c, y) (map index out) <->
               exists r, In r (rows df) /\ country r = c /\
                         datetime.year (date r) = y) /\
  (forall x, In x out ->
     let g := year_rows (fst (index x)) (snd (index x)) (rows df) in
     is_max_of confirmed_cases g (confirmed x) /\
     is_max_of deaths_cases g (deaths x) /\
     is_max_of recovered_cases g (recovered x)).
Proof.
  intros out. subst out. rewrite stats_by_year_rows.
  rewrite map_map. cbn [index max_row]. rewrite map_id.
  split; [apply distinct_sorted_NoDup|].
  split; [exact (distinct_sorted_sorted (map country_year (rows df)))|].
  split.
  - intros c y. rewrite (group_keys_In country_year). unfold country_year.
    split.
    + intros [r [I E]]. inversion E. eauto.
    + intros [r [I [<- <-]]]. eauto.
  - intros x I. apply in_map_iff in I as [[c y] [<- I]].
    apply (group_keys_In country_year) in I.
    exact (max_row_is_max country_year (c, y) (rows df) I).
Qed.

(** X3. [stats_by_month] returns one row per pair of a country and a
    month text ['%Y-%m'] that occurs in the table, in ascending order of
    the pair; each of its three values is the largest value of its column
    among the rows of that country whose date formats to that text. *)
Theorem stats_by_month_maxima (df : DataFrame) :
  let out := snd (stats.stats_by_month df) in
  NoDup (map index out) /\
  sortedb kleb (map index out) = true /\
  (forall c m, In (c, m) (map index out) <->
               exists r, In r (rows df) /\ country r = c /\
                         datetime.strftime_Ym (date r) = m) /\
  (forall x, In x out ->
     let g := month_rows (fst (index x)) (snd (index x)) (rows df) in
     is_max_of confirmed_cases g (confirmed x) /\
     is_max_of deaths_cases g (deaths x) /\
     is_max_of recovered_cases g (recovered x)).
Proof.
  intros out. subst out. rewrite stats_by_month_rows.
  rewrite map_map. cbn [index max_row]. rewrite map_id.
  split; [apply distinct_sorted_NoDup|].
  split; [exact (distinct_sorted_sorted (map country_month (rows df)))|].
  split.
  - intros c m. rewrite (group_keys_In country_month). unfold country_month.
    split.
    + intros [r [I E]]. inversion E. eauto.
    + intros [r [I [<- <-]]]. eauto.
  - intros x I. apply in_map_iff in I as [[c m] [<- I]].
    apply (group_keys_In country_month) in I.
    exact (max_row_is_max country_month (c, m) (rows df) I).
Qed.

Lemma digit_char_inj (a b : Z) :
  datetime.digit_char a = datetime.digit_char b -> a mod 10 = b mod 10.
Proof.
  unfold datetime.digit_char. intros E.
  apply (f_equal nat_of_ascii) in E.
  pose proof (Z.mod_pos_bound a 10 ltac:(lia)) as Ba.
  pose proof (Z.mod_pos_bound b 10 ltac:(lia)) as Bb.
  rewrite !nat_ascii_embedding in E by lia. lia.
Qed.

(** X4. The month text of [strftime('%Y-%m')] identifies the calendar
    month: two calendar dates get the same text exactly when they have the
    same year and the same month. *)
Theorem strftime_Ym_same_month (d d' : datetime.date) :
  datetime.valid d = true -> datetime.valid d' = true ->
  (datetime.strftime_Ym d = datetime.strftime_Ym d' <->
   datetime.year d = datetime.year d' /\ datetime.month d = datetime.month d').
Proof.
  unfold datetime.valid. rewrite !andb_true_iff, !Z.leb_le.
  intros [[[[[Y1 Y2] M1] M2] _] _] [[[[[Y1' Y2'] M1'] M2'] _] _].
  split; [|intros [Ey Em]; unfold datetime.strftime_Ym; now rewrite Ey, Em].
  unfold datetime.strftime_Ym, Str.of_chars. intros E.
  apply (f_equal list_ascii_of_string) in E.
  rewrite !list_ascii_of_string_of_list_ascii in E.
  inversion E as [[E1 E2 E3 E4 E5 E6]].
  apply digit_char_inj in E1, E2, E3, E4, E5, E6.
  set (y := datetime.year d) in *. set (y' := datetime.year d') in *.
  set (m := datetime.month d) in *. set (m' := datetime.month d') in *.
  clearbody y y' m m'. clear E.
  split; Z.to_euclidean_division_equations; lia.
Qed.

Lemma strftime_Ym_same_month_witness :
  datetime.strftime_Ym (day 2021 3 1) = datetime.strftime_Ym (day 2021 3 9) <->
  datetime.year (day 2021 3 1) = datetime.year (day 2021 3 9) /\
  datetime.month (day 2021 3 1) = datetime.month (day 2021 3 9).
Proof.
  apply (strftime_Ym_same_month (day 2021 3 1) (day 2021 3 9));
    reflexivity.
Defined.

Lemma is_max_of_incl (f : Row -> Z) (g g' : list Row) (v v' : Z) :
  is_max_of f g v -> is_max_of f g' v' ->
  (forall r, In r g -> In r g') -> v <= v'.
Proof.
  intros [[r [I <-]] _] [_ B] S. apply B, S, I.
Qed.

Lemma sub_key_below {K : Type} `{KeyOk K} (key : Row -> K) (k : K)
  (df : list Row) :
  (exists r, In r df /\ key r = k) ->
  forall c, (forall r, In r df -> key r = k -> country r = c) ->
  let x := max_row k (rows_of key k df) in
  let z := max_row c (rows_of country c df) in
  confirmed x <= confirmed z /\ deaths x <= deaths z /\
  recovered x <= recovered z.
Proof.
  intros E c Hc.
  assert (Ec : exists r, In r df /\ country r = c).
  { destruct E as [r [I Q]]. exists r. split; [assumption|]. now apply Hc. }
  destruct (max_row_is_max key k df E) as [A1 [A2 A3]].
  destruct (max_row_is_max country c df Ec) as [B1 [B2 B3]].
  assert (S : forall r, In r (rows_of key k df) -> In r (rows_of country c df)).
  { intros r I. apply rows_of_In in I as [I Q]. apply rows_of_In.
    split; [assumption|]. now apply Hc. }
  simpl. repeat split; eapply is_max_of_incl; eauto.
Qed.

(** X5. A yearly or monthly maximum never exceeds the maximum of its
    country: every row of [stats_by_year] and of [stats_by_month] has a row
    of [stats_by_country] for the same country whose three values are at
    least as large. *)
Theorem period_maxima_below_country (df : DataFrame) :
  Forall (fun x =>
    exists z, In z (snd (stats.stats_by_country df)) /\
              index z = fst (index x) /\
              confirmed x <= confirmed z /\ deaths x <= deaths z /\
              recovered x <= recovered z)
    (snd (stats.stats_by_year df)) /\
  Forall (fun x =>
    exists z, In z (snd (stats.stats_by_country df)) /\
              index z = fst (index x) /\
              confirmed x <= confirmed z /\ deaths x <= deaths z /\
              recovered x <= recovered z)
    (snd (stats.stats_by_month df)).
Proof.
  rewrite stats_by_country_rows, stats_by_year_rows, stats_by_month_rows.
  split; apply Forall_forall; intros x I;
    apply in_map_iff in I as [[c k] [<- I]].
  - apply (group_keys_In country_year) in I.
    exists (max_row c (rows_of country c (rows df))).
    split; [|split; [reflexivity|]].
    + apply (in_map (fun c => max_row c (rows_of country c (rows df)))).
      apply (group_keys_In country).
      destruct I as [r [I E]]. exists r. split; [assumption|].
      now inversion E.
    + apply (sub_key_below country_year (c, k) (rows df)); auto.
      intros r _ E. now inversion E.
  - apply (group_keys_In country_month) in I.
    exists (max_row c (rows_of country c (rows df))).
    split; [|split; [reflexivity|]].
    + apply (in_map (fun c => max_row c (rows_of country c (rows df)))).
      apply (group_keys_In country).
      destruct I as [r [I E]]. exists r. split; [assumption|].
      now inversion E.
    + apply (sub_key_below country_month (c, k) (rows df)); auto.
      intros r _ E. now inversion E.
Qed.

(** ** Wave intensity and the pivot *)

Lemma same_elements_length {A : Type} (l l' : list A) :
  NoDup l -> NoDup l' -> (forall a, In a l <-> In a l') ->
  List.length l = List.length l'.
Proof.
  intros N N' E. apply Permutation_length, NoDup_Permutation; assumption.
Qed.

Lemma unstacked_years_length (df : list Row) :
  List.length
    (distinct_sorted
       (map (fun kv => snd (fst kv)) (advanced_metrics.yearly_max df)))
  = List.length (distinct_years df).
Proof.
  apply same_elements_length; try apply distinct_sorted_NoDup.
  intros y. unfold distinct_years.
  rewrite !distinct_sorted_In, yearly_max_years, in_map_iff.
  split; intros [r [A B]]; exists r; auto.
Qed.

(** X6. [compare_wave_intensity] returns a table exactly when three
    distinct years occur in the input; with any other number of years,
    the empty table included, it raises [ValueError].  The input frame is
    left alone either way. *)
Theorem compare_wave_intensity_three_years (df : DataFrame) :
  fst (advanced_metrics.compare_wave_intensity df) = df /\
  (List.length (distinct_years (rows df)) = 3%nat ->
   exists out, snd (advanced_metrics.compare_wave_intensity df) = Ok out) /\
  (List.length (distinct_years (rows df)) <> 3%nat ->
   snd (advanced_metrics.compare_wave_intensity df)
   = Raise (ValueError "Length mismatch")).
Proof.
  split; [reflexivity|].
  rewrite <- unstacked_years_length.
  unfold advanced_metrics.compare_wave_intensity, advanced_metrics.unstack.
  destruct (distinct_sorted _) as [|a [|b [|c [|d l]]]]; cbn [snd List.length];
    split; intros H; try discriminate; try congruence; eauto.
Qed.

(** The sorted distinct values of a list that holds exactly three. *)
Lemma three_values (l : list Z) (y1 y2 y3 : Z) :
  y1 < y2 < y3 ->
  (forall y, In y l <-> y = y1 \/ y = y2 \/ y = y3) ->
  distinct_sorted l = [y1; y2; y3].
Proof.
  intros O M0.
  pose proof (distinct_sorted_NoDup l) as N.
  pose proof (distinct_sorted_sorted l) as S.
  assert (M : forall y, In y (distinct_sorted l) <-> y = y1 \/ y = y2 \/ y = y3)
    by (intros y; now rewrite distinct_sorted_In).
  assert (P : List.length (distinct_sorted l) = List.length [y1; y2; y3]).
  { apply same_elements_length; [assumption| |].
    - repeat constructor; simpl; intuition lia.
    - intros y. rewrite M. simpl. intuition. }
  destruct (distinct_sorted l) as [|a [|b [|c [|d L]]]]; try discriminate.
  assert (Wa : a = y1 \/ a = y2 \/ a = y3) by (apply M; simpl; auto).
  assert (Wb : b = y1 \/ b = y2 \/ b = y3) by (apply M; simpl; auto).
  assert (Wc : c = y1 \/ c = y2 \/ c = y3) by (apply M; simpl; auto).
  simpl in S. apply andb_true_iff in S as [Sab S].
  apply andb_true_iff in S as [Sbc _].
  apply Z.leb_le in Sab, Sbc.
  inversion N as [|? ? Na N']; subst. inversion N' as [|? ? Nb _]; subst.
  simpl in Na, Nb.
  assert (a <> b /\ a <> c /\ b <> c) as [? [? ?]] by intuition.
  assert (a = y1 /\ b = y2 /\ c = y3) as [-> [-> ->]] by lia.
  reflexivity.
Qed.

(** X7. The column names 2021, 2022 and 2023 are given by position: on a
    table with exactly three distinct years, whichever they are, the
    column named 2021 holds the figures of the earliest year, 2022 those
    of the middle one and 2023 those of the latest. *)
Theorem compare_wave_intensity_by_position (df : DataFrame) (y1 y2 y3 : Z) :
  y1 < y2 < y3 ->
  (forall y, (exists r, In r (rows df) /\ datetime.year (date r) = y) <->
             y = y1 \/ y = y2 \/ y = y3) ->
  exists out,
    snd (advanced_metrics.compare_wave_intensity df) = Ok out /\
    forall w, In w out ->
      yearly_peak (rows df) (advanced_metrics.w_country w) y1
        (advanced_metrics.y2021 w) /\
      yearly_peak (rows df) (advanced_metrics.w_country w) y2
        (advanced_metrics.y2022 w) /\
      yearly_peak (rows df) (advanced_metrics.w_country w) y3
        (advanced_metrics.y2023 w).
Proof.
  intros O M.
  unfold advanced_metrics.compare_wave_intensity, advanced_metrics.unstack.
  rewrite (three_values _ y1 y2 y3 O).
  2:{ intros y. now rewrite yearly_max_years. }
  cbn [snd]. eexists. split; [reflexivity|].
  intros w I. apply in_map_iff in I as [[c cells] [<- I]].
  apply in_map_iff in I as [c' [E _]]. inversion E; subst c' cells.
  cbn [fst snd map nth advanced_metrics.w_country advanced_metrics.y2021
       advanced_metrics.y2022 advanced_metrics.y2023].
  rewrite !unstack_cell. repeat split; apply group_max_peak.
Qed.

Lemma compare_wave_intensity_by_position_witness :
  exists out,
    snd (advanced_metrics.compare_wave_intensity early_waves) = Ok out /\
    forall w, In w out ->
      yearly_peak (rows early_waves) (advanced_metrics.w_country w) 2020
        (advanced_metrics.y2021 w) /\
      yearly_peak (rows early_waves) (advanced_metrics.w_country w) 2021
        (advanced_metrics.y2022 w) /\
      yearly_peak (rows early_waves) (advanced_metrics.w_country w) 2022
        (advanced_metrics.y2023 w).
Proof.
  apply (compare_wave_intensity_by_position early_waves 2020 2021 2022);
    [lia|].
  intros y. split.
  - intros [r [[<-|[<-|[<-|[]]]] <-]]; simpl; auto.
  - intros [E | [E | E]]; subst y.
    + exists (sample_row "Egypt" (day 2020 5 1) 10 1 1). simpl. auto.
    + exists (sample_row "Egypt" (day 2021 5 1) 30 1 1). simpl. auto.
    + exists (sample_row "Egypt" (day 2022 5 1) 60 1 1). simpl. auto.
Defined.

Lemma yearly_max_lookup (df : list Row) (c : string) (y : Z) :
  lookup (c, y) (advanced_metrics.yearly_max df)
  = match year_rows c y df with
    | [] => None
    | _ => Some (group_max confirmed_cases (year_rows c y df))
    end.
Proof.
  unfold advanced_metrics.yearly_max, groupby. rewrite map_map. simpl.
  rewrite (lookup_map_keys
             (fun k => group_max confirmed_cases (rows_of country_year k df))).
  change (year_rows c y df) with (rows_of country_year (c, y) df).
  destruct (existsb _ _) eqn:E.
  - apply existsb_keqb, (group_keys_In country_year) in E.
    apply (rows_of_nonempty country_year) in E.
    destruct (rows_of country_year (c, y) df); [congruence | reflexivity].
  - rewrite (rows_of_none country_year (c, y) df); [reflexivity|].
    intros I. apply distinct_sorted_In, existsb_keqb in I.
    unfold country_year in I. congruence.
Qed.

Lemma pivot_series (df : DataFrame) :
  map (fun kg => (fst kg, group_max confirmed_cases (map fst (snd kg))))
    (groupby (fun ry : Row * Z => (country (fst ry), snd ry))
       (combine (rows df) (map (fun r => datetime.year (date r)) (rows df))))
  = advanced_metrics.yearly_max (rows df).
Proof.
  unfold advanced_metrics.yearly_max.
  change (fun r : Row => (country r, datetime.year (date r)))
    with (fun r : Row =>
            (fun ry : Row * Z => (country (fst ry), snd ry))
              (r, datetime.year (date r))).
  rewrite <- (groupby_keyed (fun r => datetime.year (date r))
                (fun ry => (country (fst ry), snd ry))).
  now rewrite map_map.
Qed.

(** The pivot is the unstacked series of yearly maxima, before the fill. *)
Lemma generate_pivot_cells (df : DataFrame) :
  snd (advanced_metrics.generate_pivot df)
  = let s := advanced_metrics.yearly_max (rows df) in
    let ys := distinct_sorted (map (fun kv => snd (fst kv)) s) in
    let cs := distinct_sorted (map (fun kv => fst (fst kv)) s) in
    (ys, map (fun c => (c, map (fun y => lookup (c, y) s) ys)) cs).
Proof.
  unfold advanced_metrics.generate_pivot. cbn [snd rows set_column].
  now rewrite (pivot_series df).
Qed.

(** X8. The year columns of the wave-intensity table are the pivot table
    with its missing cells replaced by 0: whenever the comparison returns,
    its rows and the rows of [generate_pivot] list the same countries in
    the same order with the same three figures. *)
Theorem wave_intensity_is_filled_pivot (df : DataFrame)
  (out : list advanced_metrics.wave_row) :
  snd (advanced_metrics.compare_wave_intensity df) = Ok out ->
  map (fun w => (advanced_metrics.w_country w,
                 [advanced_metrics.y2021 w; advanced_metrics.y2022 w;
                  advanced_metrics.y2023 w])) out
  = map (fun cr => (fst cr, map fill0 (snd cr)))
      (snd (snd (advanced_metrics.generate_pivot df))).
Proof.
  rewrite generate_pivot_cells.
  unfold advanced_metrics.compare_wave_intensity, advanced_metrics.unstack.
  cbn zeta.
  destruct (distinct_sorted
              (map (fun kv => snd (fst kv))
                 (advanced_metrics.yearly_max (rows df))))
    as [|a [|b [|c [|d l]]]]; cbn [snd]; try discriminate.
  intros E. inversion E; subst out; clear E.
  rewrite !map_map. apply map_ext. intros k. reflexivity.
Qed.

Lemma wave_intensity_is_filled_pivot_witness :
  map (fun w => (advanced_metrics.w_country w,
                 [advanced_metrics.y2021 w; advanced_metrics.y2022 w;
                  advanced_metrics.y2023 w]))
    [advanced_metrics.mkwave "India" 100 150 120 50 (-20) 20]
  = map (fun cr => (fst cr, map fill0 (snd cr)))
      (snd (snd (advanced_metrics.generate_pivot three_waves))).
Proof.
  apply (wave_intensity_is_filled_pivot three_waves).
  vm_compute. reflexivity.
Defined.

(** X9. [generate_pivot] returns one column per year of the table, in
    ascending order, and one row per country; the cell of a country and a
    year is missing when the country has no row in that year and is
    otherwise the largest [confirmed_cases] among those rows.  The rows of
    the caller's frame are kept. *)
Theorem generate_pivot_table (df : DataFrame) :
  let years := fst (snd (advanced_metrics.generate_pivot df)) in
  let table := snd (snd (advanced_metrics.generate_pivot df)) in
  rows (fst (advanced_metrics.generate_pivot df)) = rows df /\
  NoDup years /\ sortedb Z.leb years = true /\
  (forall y, In y years <->
             exists r, In r (rows df) /\ datetime.year (date r) = y) /\
  NoDup (map fst table) /\
  (forall c, In c (map fst table) <->
             exists r, In r (rows df) /\ country r = c) /\
  (forall c cells, In (c, cells) table ->
     Forall2 (fun y cell =>
                match cell with
                | None => year_rows c y (rows df) = []
                | Some v =>
                    is_max_of confirmed_cases (year_rows c y (rows df)) v
                end) years cells).
Proof.
  intros years table. subst years table.
  split; [reflexivity|].
  rewrite generate_pivot_cells. cbn [fst snd].
  set (s := advanced_metrics.yearly_max (rows df)).
  split; [apply distinct_sorted_NoDup|].
  split; [exact (distinct_sorted_sorted (map (fun kv => snd (fst kv)) s))|].
  split; [intros y; rewrite distinct_sorted_In; apply yearly_max_years|].
  rewrite map_map. cbn [fst]. rewrite map_id.
  split; [apply distinct_sorted_NoDup|].
  split; [intros c; rewrite distinct_sorted_In; apply yearly_max_countries|].
  intros c cells I. apply in_map_iff in I as [c' [E _]].
  inversion E; subst c' cells; clear E.
  induction (distinct_sorted (map (fun kv => snd (fst kv)) s)) as [|y ys IH];
    simpl; constructor; [|exact IH].
  unfold s. rewrite yearly_max_lookup.
  destruct (year_rows c y (rows df)) as [|r g] eqn:Y; [reflexivity|].
  rewrite <- Y. apply group_max_is_max. congruence.
Qed.

(** ** The filter engine with predicates *)

Lemma filter_data_selected (df : DataFrame) (year month : option Z)
  (country_arg : option string) :
  snd (stats.filter_data df year month country_arg)
  = snd (stats.filter_data
           (mkDataFrame (filter (matches year month country_arg) (rows df))
              (date_as df) (derived df))
           None None None).
Proof.
  unfold stats.filter_data, matches. cbn [snd rows stats.truthy].
  f_equal. f_equal.
  destruct year as [y|], month as [m|],
    (stats.truthy country_arg) as [c|];
    rewrite ?filter_filter;
    try (symmetry; exact (filter_true (rows df)));
    apply filter_ext; intros r;
    repeat match goal with
           | |- context [Z.eqb ?a ?b] => destruct (Z.eqb a b)
           | |- context [String.eqb ?a ?b] => destruct (String.eqb a b)
           end; reflexivity.
Qed.

(** X10. With any choice of year, month and country the filter engine
    groups the rows that satisfy every predicate that is set: it returns
    one row per (country, date) pair of those rows, in ascending order of
    the pair, holding the sums of the three count columns over the rows of
    the pair, so that each total over the result is the total over the
    selected rows.  An empty country text selects like no country.  The
    caller's frame keeps its rows and columns and has its dates stored as
    time stamps afterwards. *)
Theorem filter_data_selection (df : DataFrame) (year month : option Z)
  (country_arg : option string) :
  let out := snd (stats.filter_data df year month country_arg) in
  let selected := filter (matches year month country_arg) (rows df) in
  let pair_of g := (stats.g_country g, stats.g_date g) in
  fst (stats.filter_data df year month country_arg)
  = mkDataFrame (rows df) datetime64 (derived df) /\
  NoDup (map pair_of out) /\
  sortedb kleb (map pair_of out) = true /\
  (forall c d, In (c, d) (map pair_of out) <-> has_row_on c d selected) /\
  (forall g, In g out ->
     stats.g_confirmed_cases g
     = total_on confirmed_cases (stats.g_country g) (stats.g_date g) selected /\
     stats.g_deaths_cases g
     = total_on deaths_cases (stats.g_country g) (stats.g_date g) selected /\
     stats.g_recovered_cases g
     = total_on recovered_cases (stats.g_country g) (stats.g_date g) selected) /\
  zsum (map stats.g_confirmed_cases out) = total confirmed_cases selected /\
  zsum (map stats.g_deaths_cases out) = total deaths_cases selected /\
  zsum (map stats.g_recovered_cases out) = total recovered_cases selected /\
  stats.filter_data df year month (Some "")
  = stats.filter_data df year month None.
Proof.
  intros out selected pair_of. subst out pair_of.
  split; [reflexivity|].
  rewrite filter_data_selected. fold selected.
  unfold stats.filter_data. cbn [snd rows stats.truthy].
  set (key := fun r : Row => (country r, date r)).
  assert (Hkeys : forall (l : list (string * datetime.date * list Row)),
    map (fun g => (stats.g_country g, stats.g_date g))
      (map (fun kg =>
         stats.mkgrouped (fst (fst kg)) (snd (fst kg))
           (group_sum confirmed_cases (snd kg))
           (group_sum deaths_cases (snd kg))
           (group_sum recovered_cases (snd kg))
           (F64.fmean (map latitude (snd kg)))
           (F64.fmean (map longitude (snd kg)))) l)
    = map fst l).
  { intros l. rewrite map_map. apply map_ext. now intros [[c d] g]. }
  rewrite Hkeys, (groupby_keys key).
  split; [apply distinct_sorted_NoDup|].
  split; [exact (distinct_sorted_sorted (map key selected))|].
  split.
  { intros c d. rewrite (group_keys_In key). unfold has_row_on, key. split.
    - intros [r [I E]]. inversion E. eauto.
    - intros [r [I [<- <-]]]. eauto. }
  split.
  { intros g I. apply in_map_iff in I as [[[c d] rs] [<- I]].
    apply (groupby_In key) in I as [_ ->]. simpl. tauto. }
  unfold total. rewrite !map_map. simpl.
  repeat split; apply (zsum_groupby key).
Qed.

(** ** Algebra of the date-range delta *)

(** X11. Swapping the two dates of the date-range delta negates it: a row
    is in the delta from [s] to [e] exactly when the row with the same
    country and the opposite values is in the delta from [e] to [s]. *)
Theorem stats_by_date_range_swap (df : DataFrame) (s e : datetime.date)
  (x : stat_row string) :
  In x (snd (stats.stats_by_date_range df s e)) <->
  In (negated x) (snd (stats.stats_by_date_range df e s)).
Proof.
  rewrite !date_range_rows. unfold negated. cbn [index].
  destruct x as [c a b d]. cbn [index confirmed deaths recovered].
  split; intros [Hd [Hs [He E]]];
    (split; [assumption|split; [assumption|split; [assumption|]]]);
    inversion E as [[E1 E2 E3]]; f_equal; lia.
Qed.

(** X12. Date-range deltas add up along a chain of dates: a country's
    delta from [s] to [e] plus its delta from [e] to [f] is its delta from
    [s] to [f]. *)
Theorem stats_by_date_range_chain (df : DataFrame) (s e f : datetime.date)
  (x y : stat_row string) :
  In x (snd (stats.stats_by_date_range df s e)) ->
  In y (snd (stats.stats_by_date_range df e f)) ->
  index x = index y ->
  In (mkstat (index x) (confirmed x + confirmed y) (deaths x + deaths y)
        (recovered x + recovered y))
     (snd (stats.stats_by_date_range df s f)).
Proof.
  rewrite !date_range_rows. cbn [index].
  intros [Hd [Hs [_ Ex]]] [_ [_ [Hf Ey]]] Q. rewrite <- Q in Hf, Ey.
  split; [assumption|]. split; [assumption|]. split; [assumption|].
  rewrite Ex, Ey. cbn [index confirmed deaths recovered]. f_equal; lia.
Qed.

Lemma stats_by_date_range_chain_witness :
  In (mkstat "Brazil" (15 + 20) (1 + 0) (4 + 21))
     (snd (stats.stats_by_date_range three_days (day 2022 1 1)
             (day 2022 1 3))).
Proof.
  apply (stats_by_date_range_chain three_days (day 2022 1 1) (day 2022 1 2)
           (day 2022 1 3) (mkstat "Brazil" 15 1 4) (mkstat "Brazil" 20 0 21)).
  - vm_compute. auto.
  - vm_compute. auto.
  - reflexivity.
Defined.

(** X13. The date-range delta is the difference of two rows of the
    unfiltered filter engine: for every delta row the filter engine has a
    row of the same country on the start date and one on the end date, and
    the delta values are the end row's sums minus the start row's. *)
Theorem stats_by_date_range_of_filter (df : DataFrame) (s e : datetime.date) :
  Forall (fun x =>
    exists gs ge,
      In gs (snd (stats.filter_data df None None None)) /\
      In ge (snd (stats.filter_data df None None None)) /\
      stats.g_country gs = index x /\ stats.g_date gs = s /\
      stats.g_country ge = index x /\ stats.g_date ge = e /\
      confirmed x = stats.g_confirmed_cases ge - stats.g_confirmed_cases gs /\
      deaths x = stats.g_deaths_cases ge - stats.g_deaths_cases gs /\
      recovered x = stats.g_recovered_cases ge - stats.g_recovered_cases gs)
    (snd (stats.stats_by_date_range df s e)).
Proof.
  apply Forall_forall. intros x I.
  apply date_range_rows in I as [_ [Hs [He E]]].
  set (key := fun r : Row => (country r, date r)).
  assert (G : forall d, has_row_on (index x) d (rows df) ->
    In (stats.mkgrouped (index x) d
          (total_on confirmed_cases (index x) d (rows df))
          (total_on deaths_cases (index x) d (rows df))
          (total_on recovered_cases (index x) d (rows df))
          (F64.fmean (map latitude (rows_on (index x) d (rows df))))
          (F64.fmean (map longitude (rows_on (index x) d (rows df)))))
       (snd (stats.filter_data df None None None))).
  { intros d [r [I [Ec Ed]]].
    unfold stats.filter_data. cbn [snd rows stats.truthy].
    apply in_map_iff.
    exists ((index x, d), rows_of key (index x, d) (rows df)).
    split; [reflexivity|].
    apply (groupby_In key). split; [|reflexivity].
    exists r. split; [assumption|]. unfold key. now rewrite Ec, Ed. }
  eexists. eexists.
  split; [apply (G s Hs)|]. split; [apply (G e He)|].
  rewrite E. cbn. repeat split; reflexivity.
Qed.

(** ** The cleaner, row by row *)

(** The columns of the cleaner up to the sort. *)
Lemma clean_data_unsorted (df : list data_utils.raw_row) :
  data_utils.clean_data df
  = (l <- (df2 <- mapM (fun r => c <- data_utils.count_cell
                                         (data_utils.Confirmed r) ;;
                                  Ok (data_utils.set_Confirmed c r))
                    (map (fun r => data_utils.set_Province_State
                            (fillna (Str "Unknown")
                               (data_utils.Province_State r)) r) df) ;;
           df3 <- mapM (fun r => c <- data_utils.count_cell
                                         (data_utils.Deaths r) ;;
                                  Ok (data_utils.set_Deaths c r)) df2 ;;
           df4 <- mapM (fun r => c <- data_utils.count_cell
                                         (data_utils.Recovered r) ;;
                                  Ok (data_utils.set_Recovered c r)) df3 ;;
           Ok (map (fun r => data_utils.set_Long_
                               (fillna (Float 0) (data_utils.Long_ r)) r)
                 (map (fun r => data_utils.set_Lat
                                  (fillna (Float 0) (data_utils.Lat r)) r)
                    df4))) ;;
     Ok (data_utils.sort_values l)).
Proof.
  unfold data_utils.clean_data.
  destruct (mapM _ (map _ df)) as [df2|]; simpl; [|reflexivity].
  destruct (mapM _ df2) as [df3|]; simpl; [|reflexivity].
  destruct (mapM _ df3) as [df4|]; simpl; reflexivity.
Qed.

(** Column by column or row by row, the same rows come out. *)
Lemma clean_columns_rows (df l : list data_utils.raw_row) :
  (df2 <- mapM (fun r => c <- data_utils.count_cell
                                (data_utils.Confirmed r) ;;
                         Ok (data_utils.set_Confirmed c r))
           (map (fun r => data_utils.set_Province_State
                   (fillna (Str "Unknown")
                      (data_utils.Province_State r)) r) df) ;;
   df3 <- mapM (fun r => c <- data_utils.count_cell
                                (data_utils.Deaths r) ;;
                         Ok (data_utils.set_Deaths c r)) df2 ;;
   df4 <- mapM (fun r => c <- data_utils.count_cell
                                (data_utils.Recovered r) ;;
                         Ok (data_utils.set_Recovered c r)) df3 ;;
   Ok (map (fun r => data_utils.set_Long_
                       (fillna (Float 0) (data_utils.Long_ r)) r)
         (map (fun r => data_utils.set_Lat
                          (fillna (Float 0) (data_utils.Lat r)) r)
            df4))) = Ok l
  <-> mapM clean_row df = Ok l.
Proof.
  revert l. induction df as [|r df IH]; intros l.
  - simpl. reflexivity.
  - unfold data_utils.set_Province_State, data_utils.set_Confirmed,
      data_utils.set_Deaths, data_utils.set_Recovered in *.
    cbn [map mapM]. unfold clean_row at 1.
    destruct r as [p c cf de re la lo d].
    cbn [data_utils.Confirmed data_utils.Deaths data_utils.Recovered
         data_utils.Province_State data_utils.Country_Region
         data_utils.Lat data_utils.Long_ data_utils.report_date].
    destruct (data_utils.count_cell cf) as [cf'|e1]; cbn [bind].
    2:{ split; discriminate. }
    destruct (mapM _ (map _ df)) as [df2|e2] eqn:M2; cbn [bind].
    2:{ split; [discriminate|].
        destruct (data_utils.count_cell de), (data_utils.count_cell re);
          cbn [bind]; try discriminate.
        destruct (mapM clean_row df) as [l'|] eqn:M; [|discriminate].
        destruct (IH l') as [_ B]. specialize (B eq_refl). discriminate. }
    cbn [mapM bind data_utils.Confirmed data_utils.Deaths
         data_utils.Recovered data_utils.Province_State
         data_utils.Country_Region data_utils.Lat data_utils.Long_
         data_utils.report_date] in *.
    destruct (data_utils.count_cell de) as [de'|e3]; cbn [bind].
    2:{ split; discriminate. }
    destruct (mapM _ df2) as [df3|e4] eqn:M3; cbn [bind].
    2:{ split; [discriminate|].
        destruct (data_utils.count_cell re); cbn [bind]; try discriminate.
        destruct (mapM clean_row df) as [l'|] eqn:M; [|discriminate].
        destruct (IH l') as [_ B]. specialize (B eq_refl). discriminate. }
    cbn [mapM bind data_utils.Confirmed data_utils.Deaths
         data_utils.Recovered data_utils.Province_State
         data_utils.Country_Region data_utils.Lat data_utils.Long_
         data_utils.report_date] in *.
    destruct (data_utils.count_cell re) as [re'|e5]; cbn [bind].
    2:{ split; discriminate. }
    destruct (mapM _ df3) as [df4|e6] eqn:M4; cbn [bind].
    2:{ split; [discriminate|].
        destruct (mapM clean_row df) as [l'|] eqn:M; [|discriminate].
        destruct (IH l') as [_ B]. specialize (B eq_refl). discriminate. }
    cbn [bind] in IH.
    destruct (IH (map (fun r => data_utils.set_Long_
                         (fillna (Float 0) (data_utils.Long_ r)) r)
                    (map (fun r => data_utils.set_Lat
                            (fillna (Float 0) (data_utils.Lat r)) r)
                       df4))) as [B _].
    rewrite (B eq_refl). cbn [bind map]. reflexivity.
Qed.

Lemma clean_data_by_row_aux (df u : list data_utils.raw_row) :
  data_utils.clean_data df = Ok u <->
  exists l, mapM clean_row df = Ok l /\ u = data_utils.sort_values l.
Proof.
  rewrite clean_data_unsorted. split.
  - destruct (bind (mapM _ (map _ df)) _) as [l|e] eqn:E; cbn [bind];
      [|discriminate].
    intros Q. inversion Q. exists l. split; [|reflexivity].
    now apply clean_columns_rows.
  - intros [l [M ->]]. apply clean_columns_rows in M.
    rewrite M. reflexivity.
Qed.

(** X14. Cleaning works row by row: [clean_data] returns a table exactly
    when every row can be cleaned on its own (province and coordinates
    filled, the three counts filled and converted), and the table is then
    the cleaned rows in the stable order of [sort_values]. *)
Theorem clean_data_by_row (df u : list data_utils.raw_row) :
  data_utils.clean_data df = Ok u <->
  exists l, mapM clean_row df = Ok l /\ u = data_utils.sort_values l.
Proof. apply clean_data_by_row_aux. Qed.

Lemma mapM_Forall2 {A B : Type} (f : A -> result B) (l : list A) :
  forall l', mapM f l = Ok l' -> Forall2 (fun a b => f a = Ok b) l l'.
Proof.
  induction l as [|a l IH]; simpl; intros l' E.
  - inversion E. constructor.
  - destruct (f a) as [b|] eqn:Fa; simpl in E; [|discriminate].
    destruct (mapM f l) as [bs|]; simpl in E; [|discriminate].
    inversion E; subst. constructor; auto.
Qed.

Lemma mapM_ok_iff {A B : Type} (f : A -> result B) (l : list A) :
  (exists l', mapM f l = Ok l') <-> Forall (fun a => exists b, f a = Ok b) l.
Proof.
  induction l as [|a l IH]; simpl.
  - split; [constructor | eauto].
  - split.
    + intros [l' E].
      destruct (f a) as [b|] eqn:Fa; simpl in E; [|discriminate].
      destruct (mapM f l) as [bs|]; simpl in E; [|discriminate].
      constructor; [eauto | apply IH; eauto].
    + intros H. inversion H as [|? ? [b Fa] Hl]; subst.
      apply IH in Hl as [bs E]. rewrite Fa, E. simpl. eauto.
Qed.

Lemma mapM_raise {A B : Type} (f : A -> result B) (l : list A) (e : exn) :
  mapM f l = Raise e -> exists a, In a l /\ f a = Raise e.
Proof.
  induction l as [|a l IH]; simpl; [discriminate|].
  destruct (f a) as [b|e'] eqn:Fa; simpl.
  - destruct (mapM f l) as [bs|e'']; simpl; [discriminate|].
    intros Q. inversion Q; subst. destruct (IH eq_refl) as [a' [I E]].
    exists a'. auto.
  - intros Q. inversion Q; subst. exists a. auto.
Qed.

Lemma count_cell_ok (c : cell) :
  (exists c', data_utils.count_cell c = Ok c') <-> convertible c = true.
Proof.
  assert (Y : forall (x : result cell) (c' : cell),
             x = Ok c' -> (exists c'', x = Ok c'') <-> true = true).
  { intros x c' ->. split; eauto. }
  assert (T : forall z, (exists c', data_utils.to_int64 z = Ok c') <->
                        data_utils.in_int64 z = true).
  { intros z. unfold data_utils.to_int64.
    destruct (data_utils.in_int64 z).
    - now apply (Y _ (Int z)).
    - split; [intros [c' E]; discriminate | discriminate]. }
  destruct c as [z|f|s]; simpl.
  - apply T.
  - unfold data_utils.count_cell, fillna, missing_or_finite. simpl.
    destruct (PrimFloat.is_nan f) eqn:N; simpl;
      [now apply (Y _ (Int 0))|].
    unfold F64.trunc, Prim2SF. rewrite N.
    destruct (PrimFloat.is_zero f); simpl; [now apply (Y _ (Int 0))|].
    destruct (PrimFloat.is_infinity f); simpl.
    + split; [intros [c' E]; discriminate | discriminate].
    + destruct (Z.frexp f) as [r ex].
      destruct (SpecFloat.shr_fexp _ _ _ _ _) as [sh e'].
      destruct (SpecFloat.shr_m sh); simpl; eapply Y; reflexivity.
  - unfold data_utils.count_cell, fillna. simpl.
    destruct (data_utils.int_of_text s) as [z|]; [apply T|].
    split; [intros [c' E]; discriminate | discriminate].
Qed.

Lemma clean_row_ok (r : data_utils.raw_row) :
  (exists r', clean_row r = Ok r') <->
  convertible (data_utils.Confirmed r) = true /\
  convertible (data_utils.Deaths r) = true /\
  convertible (data_utils.Recovered r) = true.
Proof.
  rewrite <- !count_cell_ok. unfold clean_row. split.
  - intros [r' E].
    destruct (data_utils.count_cell (data_utils.Confirmed r)); simpl in E;
      [|discriminate].
    destruct (data_utils.count_cell (data_utils.Deaths r)); simpl in E;
      [|discriminate].
    destruct (data_utils.count_cell (data_utils.Recovered r)); simpl in E;
      [|discriminate].
    repeat split; eexists; reflexivity.
  - intros [[a ->] [[b ->] [c ->]]]. simpl. eexists. reflexivity.
Qed.

(** In the model the cleaner returns a table exactly when every count
    cell is convertible. *)
Lemma clean_data_ok_iff (df : list data_utils.raw_row) :
  (exists u, data_utils.clean_data df = Ok u) <->
  Forall (fun r => convertible (data_utils.Confirmed r) = true /\
                   convertible (data_utils.Deaths r) = true /\
                   convertible (data_utils.Recovered r) = true) df.
Proof.
  split.
  - intros [u E]. apply clean_data_by_row_aux in E as [l [M _]].
    assert (H : exists l, mapM clean_row df = Ok l) by eauto.
    apply mapM_ok_iff in H. revert H. apply Forall_impl.
    intros r. apply clean_row_ok.
  - intros H.
    assert (H' : Forall (fun r => exists r', clean_row r = Ok r') df).
    { revert H. apply Forall_impl. intros r. apply clean_row_ok. }
    apply mapM_ok_iff in H' as [l M].
    exists (data_utils.sort_values l).
    apply clean_data_by_row_aux. eauto.
Qed.

Lemma numeric_convertible (c : cell) :
  numeric_count c = true -> convertible c = true.
Proof. destruct c; simpl; auto; discriminate. Qed.

Lemma unconvertible_not_convertible (c : cell) :
  unconvertible c = true -> convertible c = false.
Proof.
  destruct c as [z|f|s]; simpl; [discriminate| |].
  - now destruct (missing_or_finite f).
  - now destruct (data_utils.int_of_text s).
Qed.

(** X15. Numeric counts always clean, and an infinity or a text that is
    not a number never does: the cleaner returns a table when each of the
    three count cells of every row is an integer that fits int64, a
    missing value or a float that is not infinite, and it raises when
    some count cell is an infinite float or text that is no integer
    literal. *)
Theorem clean_data_conversions (df : list data_utils.raw_row) :
  (Forall (fun r => numeric_count (data_utils.Confirmed r) = true /\
                    numeric_count (data_utils.Deaths r) = true /\
                    numeric_count (data_utils.Recovered r) = true) df ->
   exists u, data_utils.clean_data df = Ok u) /\
  (Exists (fun r => unconvertible (data_utils.Confirmed r) = true \/
                    unconvertible (data_utils.Deaths r) = true \/
                    unconvertible (data_utils.Recovered r) = true) df ->
   exists e, data_utils.clean_data df = Raise e).
Proof.
  split.
  - intros H. apply clean_data_ok_iff. revert H. apply Forall_impl.
    intros r [A [B C]]. auto using numeric_convertible.
  - intros H.
    destruct (data_utils.clean_data df) as [u|e] eqn:E; [|eauto].
    exfalso.
    assert (F : exists u, data_utils.clean_data df = Ok u) by eauto.
    apply clean_data_ok_iff in F. rewrite Forall_forall in F.
    apply Exists_exists in H as [r [I U]].
    destruct (F r I) as [A [B C]].
    destruct U as [U|[U|U]]; apply unconvertible_not_convertible in U;
      congruence.
Qed.

Example clean_data_conversions_sample :
  data_utils.clean_data
    [data_utils.mkraw NaN "India" (Str " 1_200 ") (Float 1e30) (Float (-2.7))
       (Int 0) (Int 0) (day 2021 3 1)]
  = Ok [data_utils.mkraw (Str "Unknown") "India" (Int 1200)
          (Int data_utils.int64_min) (Int (-2)) (Int 0) (Int 0)
          (day 2021 3 1)] /\
  data_utils.clean_data
    [data_utils.mkraw NaN "India" (Int (10 ^ 20)) (Int 2) NaN (Int 0) (Int 0)
       (day 2021 3 1)]
  = Raise (OverflowError "Python int too large to convert to C long") /\
  (exists msg,
     data_utils.clean_data
       [data_utils.mkraw NaN "India" (Str "12.0") (Int 2) NaN (Int 0) (Int 0)
          (day 2021 3 1)]
     = Raise (ValueError msg)).
Proof.
  split; [vm_compute; reflexivity|].
  split; [vm_compute; reflexivity|].
  eexists. vm_compute. reflexivity.
Qed.

Lemma clean_row_key (r r' : data_utils.raw_row) :
  clean_row r = Ok r' -> data_utils.sort_key r' = data_utils.sort_key r.
Proof.
  unfold clean_row.
  destruct (data_utils.count_cell (data_utils.Confirmed r)); simpl;
    [|discriminate].
  destruct (data_utils.count_cell (data_utils.Deaths r)); simpl;
    [|discriminate].
  destruct (data_utils.count_cell (data_utils.Recovered r)); simpl;
    [|discriminate].
  intros Q. inversion Q. reflexivity.
Qed.

Lemma clean_rows_keys (df l : list data_utils.raw_row) :
  mapM clean_row df = Ok l ->
  map data_utils.sort_key l = map data_utils.sort_key df.
Proof.
  intros M. apply mapM_Forall2 in M.
  induction M as [|r r' df l Hr _ IH]; simpl; [reflexivity|].
  now rewrite (clean_row_key r r' Hr), IH.
Qed.

(** X16. What the cleaner returns has as many rows as it was given, with
    the same (country, report date) pairs, now in ascending order of the
    pair; no province and no coordinate is missing and every count is an
    integer. *)
Theorem clean_data_output (df u : list data_utils.raw_row) :
  data_utils.clean_data df = Ok u ->
  List.length u = List.length df /\
  Permutation (map data_utils.sort_key u) (map data_utils.sort_key df) /\
  sorted_rows u = true /\
  Forall cleaned u.
Proof.
  intros E. destruct (clean_data_result df u E) as [C S].
  apply clean_data_by_row_aux in E as [l [M ->]].
  pose proof (clean_rows_keys df l M) as K.
  assert (P : Permutation (data_utils.sort_values l) l)
    by apply isort_perm.
  repeat split; try assumption.
  - rewrite (Permutation_length P). apply (f_equal (@List.length _)) in K.
    now rewrite !length_map in K.
  - rewrite <- K. now apply Permutation_map.
Qed.

Lemma clean_data_output_witness :
  List.length (data_utils.sort_values
                 [data_utils.mkraw (Str "Unknown") "India" (Int 100) (Int 2)
                    (Int 0) (Int 0) (Int 0) (day 2021 3 1);
                  data_utils.mkraw (Str "Lazio") "Italy" (Int 70) (Int 7)
                    (Int 7) (Int 0) (Int 0) (day 2021 3 1)])
  = List.length table_one_report /\
  Permutation
    (map data_utils.sort_key
       (data_utils.sort_values
          [data_utils.mkraw (Str "Unknown") "India" (Int 100) (Int 2)
             (Int 0) (Int 0) (Int 0) (day 2021 3 1);
           data_utils.mkraw (Str "Lazio") "Italy" (Int 70) (Int 7)
             (Int 7) (Int 0) (Int 0) (day 2021 3 1)]))
    (map data_utils.sort_key table_one_report) /\
  sorted_rows
    (data_utils.sort_values
       [data_utils.mkraw (Str "Unknown") "India" (Int 100) (Int 2)
          (Int 0) (Int 0) (Int 0) (day 2021 3 1);
        data_utils.mkraw (Str "Lazio") "Italy" (Int 70) (Int 7)
          (Int 7) (Int 0) (Int 0) (day 2021 3 1)]) = true /\
  Forall cleaned
    (data_utils.sort_values
       [data_utils.mkraw (Str "Unknown") "India" (Int 100) (Int 2)
          (Int 0) (Int 0) (Int 0) (day 2021 3 1);
        data_utils.mkraw (Str "Lazio") "Italy" (Int 70) (Int 7)
          (Int 7) (Int 0) (Int 0) (day 2021 3 1)]).
Proof.
  apply (clean_data_output table_one_report).
  vm_compute. reflexivity.
Defined.

(** ** The ingestion loop *)

Lemma collect_spec (entries : list data_utils.dir_entry) :
  forall acc out,
    data_utils.collect entries acc = Ok out <->
    Forall (fun e => exists o, data_utils.day_table e = Ok o) entries /\
    out = acc ++ day_tables entries.
Proof.
  induction entries as [|e entries IH]; intros acc out; simpl.
  - rewrite app_nil_r. split.
    + intros Q. inversion Q. auto.
    + intros [_ ->]. reflexivity.
  - unfold day_tables. simpl. fold (day_tables entries).
    destruct (data_utils.day_table e) as [[tbl|]|err] eqn:D; simpl.
    + rewrite IH, <- app_assoc. simpl. split.
      * intros [F ->]. split; [constructor; eauto | reflexivity].
      * intros [F ->]. inversion F; subst. auto.
    + rewrite IH. split.
      * intros [F ->]. split; [constructor; eauto | reflexivity].
      * intros [F ->]. inversion F; subst. auto.
    + split; [discriminate|].
      intros [F _]. inversion F as [|? ? [o Q] _]. congruence.
Qed.

(** X17. [load_all_csvs] returns a table exactly when no entry of the
    folder makes the loop raise and at least one entry yields a day table;
    the table is then the day tables one after the other, in the order of
    the directory listing. *)
Theorem load_all_csvs_returns (folder : list data_utils.dir_entry)
  (t : list data_utils.raw_row) :
  data_utils.load_all_csvs folder = Ok t <->
  Forall (fun e => exists o, data_utils.day_table e = Ok o) folder /\
  day_tables folder <> [] /\
  t = List.concat (day_tables folder).
Proof.
  unfold data_utils.load_all_csvs. split.
  - destruct (data_utils.collect folder []) as [out|err] eqn:C; simpl;
      [|discriminate].
    apply collect_spec in C as [F ->]. simpl.
    unfold data_utils.concat.
    destruct (day_tables folder) as [|t0 ts]; [discriminate|].
    intros Q. inversion Q. repeat split; [assumption | discriminate].
  - intros [F [N ->]].
    assert (C : data_utils.collect folder [] = Ok (day_tables folder))
      by (apply collect_spec; auto).
    rewrite C. simpl. unfold data_utils.concat.
    destruct (day_tables folder); [congruence | reflexivity].
Qed.

Lemma load_all_csvs_skip (before after : list data_utils.dir_entry)
  (e : data_utils.dir_entry) :
  data_utils.day_table e = Ok None ->
  data_utils.load_all_csvs (before ++ e :: after)
  = data_utils.load_all_csvs (before ++ after).
Proof.
  intros D. unfold data_utils.load_all_csvs. rewrite !collect_app.
  destruct (data_utils.collect before []) as [out|err]; simpl; [|reflexivity].
  now rewrite D.
Qed.

(** X18. A CSV file dated outside 2021..2023 is dropped before it is
    read: whatever reading it would give, even an error, the ingestion
    behaves as if the file were not in the folder. *)
Theorem load_all_csvs_out_of_window
  (before after : list data_utils.dir_entry) (e : data_utils.dir_entry)
  (d : datetime.date) :
  Str.endswith (data_utils.filename e) ".csv" = true ->
  datetime.strptime_mdY (stem e) = Ok d ->
  in_window d = false ->
  data_utils.day_table e = Ok None /\
  data_utils.load_all_csvs (before ++ e :: after)
  = data_utils.load_all_csvs (before ++ after).
Proof.
  intros Hc P W.
  assert (D : data_utils.day_table e = Ok None).
  { assert (O : (datetime.year d <? 2021) || (datetime.year d >? 2023)
                = true).
    { unfold in_window in W. rewrite Z.gtb_ltb.
      destruct (Z.leb_spec 2021 (datetime.year d)),
               (Z.leb_spec (datetime.year d) 2023),
               (Z.ltb_spec (datetime.year d) 2021),
               (Z.ltb_spec 2023 (datetime.year d));
        simpl in *; try reflexivity; try discriminate; lia. }
    unfold data_utils.day_table, stem in *.
    rewrite Hc. simpl. rewrite P. simpl. now rewrite O. }
  split; [assumption | now apply load_all_csvs_skip].
Qed.

Lemma load_all_csvs_out_of_window_witness :
  data_utils.day_table (data_utils.mkentry "03-01-2020.csv" unreadable)
  = Ok None /\
  data_utils.load_all_csvs
    ([data_utils.mkentry "03-01-2021.csv" (Ok report_early)]
     ++ data_utils.mkentry "03-01-2020.csv" unreadable :: [])
  = data_utils.load_all_csvs
      ([data_utils.mkentry "03-01-2021.csv" (Ok report_early)] ++ []).
Proof.
  apply (load_all_csvs_out_of_window
           [data_utils.mkentry "03-01-2021.csv" (Ok report_early)] []
           (data_utils.mkentry "03-01-2020.csv" unreadable) (day 2020 3 1));
    reflexivity.
Defined.

(** ** Columns of a report *)

Lemma index_of_found (n : string) (cols : list string) :
  existsb (String.eqb n) cols = true ->
  exists i, data_utils.index_of n cols = Some i.
Proof.
  induction cols as [|c cols IH]; simpl; [discriminate|].
  rewrite (String.eqb_sym n c).
  destruct (String.eqb c n); simpl; [eauto|].
  intros E. destruct (IH E) as [i ->]. simpl. eauto.
Qed.

Lemma index_of_missing (n : string) (cols : list string) :
  existsb (String.eqb n) cols = false -> data_utils.index_of n cols = None.
Proof.
  induction cols as [|c cols IH]; simpl; [reflexivity|].
  rewrite (String.eqb_sym n c).
  destruct (String.eqb c n); simpl; [discriminate|].
  intros E. now rewrite (IH E).
Qed.

Lemma column_indexes (names : list string) (df : data_utils.frame) :
  match first_missing names (data_utils.columns df) with
  | Some k => mapM (data_utils.column_index df) names = Raise (KeyError k)
  | None => exists idx, mapM (data_utils.column_index df) names = Ok idx
  end.
Proof.
  unfold first_missing.
  induction names as [|n names IH]; simpl; [eauto|].
  destruct (existsb (String.eqb n) (data_utils.columns df)) eqn:E; simpl.
  - destruct (index_of_found _ _ E) as [i Hi].
    assert (C : data_utils.column_index df n = Ok i)
      by (unfold data_utils.column_index; now rewrite Hi).
    rewrite C. simpl.
    destruct (find _ names) as [k|].
    + now rewrite IH.
    + destruct IH as [idx ->]. simpl. eauto.
  - unfold data_utils.column_index.
    now rewrite (index_of_missing _ _ E).
Qed.

(** Selecting columns fails at the first name the frame lacks. *)
Lemma select_first_missing (names : list string) (df : data_utils.frame) :
  match first_missing names (data_utils.columns df) with
  | Some k => data_utils.select names df = Raise (KeyError k)
  | None => exists out, data_utils.select names df = Ok out
  end.
Proof.
  unfold data_utils.select. pose proof (column_indexes names df) as C.
  destruct (first_missing names (data_utils.columns df)) as [k|].
  - now rewrite C.
  - destruct C as [idx ->]. simpl. eauto.
Qed.

(** The columns after a default column was added where absent. *)
Lemma injected_column (n name : string) (v : cell) (df : data_utils.frame) :
  existsb (String.eqb n)
    (data_utils.columns
       (if data_utils.has_column name df then df
        else data_utils.add_column name v df))
  = existsb (String.eqb n) (data_utils.columns df) || String.eqb n name.
Proof.
  unfold data_utils.has_column.
  destruct (existsb (String.eqb name) (data_utils.columns df)) eqn:H.
  - destruct (String.eqb n name) eqn:Q.
    + apply String.eqb_eq in Q. subst. now rewrite H.
    + now rewrite orb_false_r.
  - unfold data_utils.add_column. cbn [data_utils.columns].
    rewrite existsb_app. simpl. now rewrite orb_false_r.
Qed.

Lemma injected_columns (n : string) (df : data_utils.frame) :
  let df1 := if data_utils.has_column "Lat" df then df
             else data_utils.add_column "Lat" (Int 0) df in
  let df2 := if data_utils.has_column "Long_" df1 then df1
             else data_utils.add_column "Long_" (Int 0) df1 in
  existsb (String.eqb n) (data_utils.columns df2)
  = existsb (String.eqb n) (data_utils.columns df)
    || String.eqb n "Lat" || String.eqb n "Long_".
Proof.
  cbv zeta. now rewrite !injected_column.
Qed.

(** X19. A report that passes the filename and year filters and is read
    must have the five columns Province_State, Country_Region, Confirmed,
    Deaths and Recovered once its header is normalised: when one is
    absent the ingestion raises [KeyError] for the first absent one, when
    all are there a day table is produced, whether or not the report has
    coordinate columns.  An error of the reader is passed on. *)
Theorem day_table_required_columns (e : data_utils.dir_entry) :
  passes e = true ->
  (forall err, data_utils.read_csv e = Raise err ->
               data_utils.day_table e = Raise err) /\
  (forall fr, data_utils.read_csv e = Ok fr ->
     match first_missing required_columns
             (map data_utils.normalize_column (data_utils.columns fr)) with
     | Some k => data_utils.day_table e = Raise (KeyError k)
     | None => exists tbl, data_utils.day_table e = Ok (Some tbl)
     end).
Proof.
  unfold passes, stem, in_window. intros H.
  apply andb_true_iff in H as [Hc H].
  destruct (datetime.strptime_mdY _) as [d|] eqn:P; [|discriminate].
  apply andb_true_iff in H as [W1 W2]. apply Z.leb_le in W1, W2.
  assert (O : (datetime.year d <? 2021) || (datetime.year d >? 2023) = false).
  { rewrite Z.gtb_ltb.
    destruct (Z.ltb_spec (datetime.year d) 2021),
             (Z.ltb_spec 2023 (datetime.year d)); simpl; try reflexivity; lia. }
  unfold data_utils.day_table. rewrite Hc. cbn [negb]. rewrite P.
  cbn [bind]. rewrite O. split.
  - intros err ->. reflexivity.
  - intros fr ->. cbn [bind].
    set (df0 := data_utils.mkframe
                  (map data_utils.normalize_column (data_utils.columns fr))
                  (data_utils.values fr)).
    set (df1 := if data_utils.has_column "Lat" df0 then df0
                else data_utils.add_column "Lat" (Int 0) df0).
    set (df2 := if data_utils.has_column "Long_" df1 then df1
                else data_utils.add_column "Long_" (Int 0) df1).
    pose proof (select_first_missing
                  ["Province_State"; "Country_Region"; "Confirmed"; "Deaths";
                   "Recovered"; "Lat"; "Long_"] df2) as S.
    assert (Q : first_missing
                  ["Province_State"; "Country_Region"; "Confirmed"; "Deaths";
                   "Recovered"; "Lat"; "Long_"] (data_utils.columns df2)
                = first_missing required_columns
                    (map data_utils.normalize_column (data_utils.columns fr))).
    { unfold first_missing, required_columns. cbn [find].
      subst df2 df1. rewrite !(injected_columns _ df0).
      cbn [data_utils.columns df0]. subst df0. cbn [data_utils.columns].
      change (String.eqb "Province_State" "Lat") with false.
      change (String.eqb "Province_State" "Long_") with false.
      change (String.eqb "Country_Region" "Lat") with false.
      change (String.eqb "Country_Region" "Long_") with false.
      change (String.eqb "Confirmed" "Lat") with false.
      change (String.eqb "Confirmed" "Long_") with false.
      change (String.eqb "Deaths" "Lat") with false.
      change (String.eqb "Deaths" "Long_") with false.
      change (String.eqb "Recovered" "Lat") with false.
      change (String.eqb "Recovered" "Long_") with false.
      change (String.eqb "Lat" "Lat") with true.
      change (String.eqb "Long_" "Long_") with true.
      rewrite !orb_false_r, !orb_true_r. cbn [negb].
      repeat match goal with
             | |- context [existsb ?f ?l] => destruct (existsb f l)
             end; reflexivity. }
    rewrite Q in S.
    destruct (first_missing required_columns _) as [k|].
    + now rewrite S.
    + destruct S as [out ->]. cbn [bind]. eauto.
Qed.

Lemma day_table_required_columns_witness :
  (forall err,
     data_utils.read_csv
       (data_utils.mkentry "03-01-2021.csv" (Ok report_no_deaths))
     = Raise err ->
     data_utils.day_table
       (data_utils.mkentry "03-01-2021.csv" (Ok report_no_deaths))
     = Raise err) /\
  (forall fr,
     data_utils.read_csv
       (data_utils.mkentry "03-01-2021.csv" (Ok report_no_deaths)) = Ok fr ->
     match first_missing required_columns
             (map data_utils.normalize_column (data_utils.columns fr)) with
     | Some k =>
         data_utils.day_table
           (data_utils.mkentry "03-01-2021.csv" (Ok report_no_deaths))
         = Raise (KeyError k)
     | None =>
         exists tbl,
           data_utils.day_table
             (data_utils.mkentry "03-01-2021.csv" (Ok report_no_deaths))
           = Ok (Some tbl)
     end).
Proof.
  apply (day_table_required_columns
           (data_utils.mkentry "03-01-2021.csv" (Ok report_no_deaths))).
  reflexivity.
Defined.

Example day_table_without_deaths :
  data_utils.day_table
    (data_utils.mkentry "03-01-2021.csv" (Ok report_no_deaths))
  = Raise (KeyError "Deaths").
Proof. vm_compute. reflexivity. Qed.

(** ** Default coordinates *)

Lemma index_of_bound (n : string) (cols : list string) (i : nat) :
  data_utils.index_of n cols = Some i -> (i < List.length cols)%nat.
Proof.
  revert i. induction cols as [|c cols IH]; simpl; intros i; [discriminate|].
  destruct (String.eqb c n).
  - intros Q. inversion Q. lia.
  - destruct (data_utils.index_of n cols) as [j|]; simpl; [|discriminate].
    intros Q. inversion Q. specialize (IH j eq_refl). lia.
Qed.

Lemma index_of_app_l (n : string) (cols more : list string) (i : nat) :
  data_utils.index_of n cols = Some i ->
  data_utils.index_of n (cols ++ more) = Some i.
Proof.
  revert i. induction cols as [|c cols IH]; simpl; intros i; [discriminate|].
  destruct (String.eqb c n); [auto|].
  destruct (data_utils.index_of n cols) as [j|]; simpl; [|discriminate].
  intros Q. now rewrite (IH j eq_refl).
Qed.

Lemma index_of_added (n : string) (cols : list string) :
  existsb (String.eqb n) cols = false ->
  data_utils.index_of n (cols ++ [n]) = Some (List.length cols).
Proof.
  induction cols as [|c cols IH]; simpl.
  - now rewrite String.eqb_refl.
  - rewrite (String.eqb_sym n c).
    destruct (String.eqb c n); simpl; [discriminate|].
    intros E. now rewrite (IH E).
Qed.

(** Adding a column keeps the frame rectangular and the cells of the
    columns it had. *)
Lemma add_column_rectangular (name : string) (v : cell)
  (df : data_utils.frame) :
  rectangular df -> rectangular (data_utils.add_column name v df).
Proof.
  unfold rectangular, data_utils.add_column. cbn.
  intros R. apply Forall_map. revert R. apply Forall_impl.
  intros row E. rewrite !length_app, E. reflexivity.
Qed.

Lemma add_column_old (name n : string) (v : cell) (df : data_utils.frame)
  (i : nat) (row : list cell) :
  rectangular df ->
  data_utils.index_of n (data_utils.columns df) = Some i ->
  In row (data_utils.values (data_utils.add_column name v df)) ->
  data_utils.index_of n
    (data_utils.columns (data_utils.add_column name v df)) = Some i /\
  exists row0, In row0 (data_utils.values df) /\
               nth i row NaN = nth i row0 NaN.
Proof.
  unfold rectangular, data_utils.add_column. cbn. intros R Hi I.
  split; [now apply index_of_app_l|].
  apply in_map_iff in I as [row0 [<- I]]. exists row0. split; [assumption|].
  rewrite Forall_forall in R. specialize (R row0 I).
  apply index_of_bound in Hi. apply app_nth1. lia.
Qed.

Lemma add_column_new (name : string) (v : cell) (df : data_utils.frame)
  (row : list cell) :
  rectangular df ->
  data_utils.has_column name df = false ->
  In row (data_utils.values (data_utils.add_column name v df)) ->
  exists i,
    data_utils.index_of name
      (data_utils.columns (data_utils.add_column name v df)) = Some i /\
    nth i row NaN = v.
Proof.
  unfold rectangular, data_utils.add_column, data_utils.has_column. cbn.
  intros R H I. exists (List.length (data_utils.columns df)).
  split; [now apply index_of_added|].
  apply in_map_iff in I as [row0 [<- I]].
  rewrite Forall_forall in R. specialize (R row0 I).
  rewrite app_nth2 by lia. rewrite R, Nat.sub_diag. reflexivity.
Qed.

(** The rows of a day table read their coordinates at the positions of
    the Lat and Long_ columns of the completed frame. *)
Lemma day_table_coordinates (e : data_utils.dir_entry)
  (fr : data_utils.frame) (tbl : list data_utils.raw_row) :
  data_utils.read_csv e = Ok fr ->
  data_utils.day_table e = Ok (Some tbl) ->
  let df1 := if data_utils.has_column "Lat" (normalized fr)
             then normalized fr
             else data_utils.add_column "Lat" (Int 0) (normalized fr) in
  let df2 := if data_utils.has_column "Long_" df1 then df1
             else data_utils.add_column "Long_" (Int 0) df1 in
  exists i j,
    data_utils.index_of "Lat" (data_utils.columns df2) = Some i /\
    data_utils.index_of "Long_" (data_utils.columns df2) = Some j /\
    Forall (fun r => exists row, In row (data_utils.values df2) /\
                                 data_utils.Lat r = nth i row NaN /\
                                 data_utils.Long_ r = nth j row NaN) tbl.
Proof.
  intros Rd. unfold data_utils.day_table.
  destruct (negb _); [discriminate|].
  destruct (datetime.strptime_mdY _) as [d|]; cbn [bind]; [|discriminate].
  destruct (_ || _); [discriminate|].
  rewrite Rd. cbn [bind]. fold (normalized fr).
  set (df1 := if data_utils.has_column "Lat" (normalized fr)
              then normalized fr
              else data_utils.add_column "Lat" (Int 0) (normalized fr)).
  set (df2 := if data_utils.has_column "Long_" df1 then df1
              else data_utils.add_column "Long_" (Int 0) df1).
  intros D. unfold data_utils.select in D.
  destruct (mapM _ _) as [idx|] eqn:M; cbn [bind] in D; [|discriminate].
  inversion D; subst tbl; clear D.
  apply mapM_Forall2 in M.
  inversion M as [|? i1 ? ? _ M1]; subst; clear M.
  inversion M1 as [|? i2 ? ? _ M2]; subst; clear M1.
  inversion M2 as [|? i3 ? ? _ M3]; subst; clear M2.
  inversion M3 as [|? i4 ? ? _ M4]; subst; clear M3.
  inversion M4 as [|? i5 ? ? _ M5]; subst; clear M4.
  inversion M5 as [|? i6 ? ? H6 M6]; subst; clear M5.
  inversion M6 as [|? i7 ? ? H7 M7]; subst; clear M6.
  inversion M7; subst; clear M7.
  unfold data_utils.column_index in H6, H7.
  destruct (data_utils.index_of "Lat" _) as [i|] eqn:Hi; [|discriminate].
  destruct (data_utils.index_of "Long_" _) as [j|] eqn:Hj; [|discriminate].
  inversion H6; inversion H7; subst i6 i7.
  exists i, j. split; [reflexivity|]. split; [reflexivity|].
  apply Forall_forall. intros r I.
  apply filter_map_In in I as [row' [I K]].
  cbn [data_utils.values] in I.
  apply in_map_iff in I as [row [<- I]]. exists row. split; [assumption|].
  cbn [map] in K. unfold data_utils.keep_target in K.
  destruct (nth i2 row NaN); try discriminate.
  destruct (data_utils.isin _ _); [|discriminate].
  inversion K. auto.
Qed.

(** X20. A report without a Lat column gets latitude 0 on every row of its
    day table, and one without a Long_ column longitude 0; the report is
    rectangular, as a parsed CSV file is. *)
Theorem day_table_default_coordinates (e : data_utils.dir_entry)
  (fr : data_utils.frame) (tbl : list data_utils.raw_row) :
  data_utils.read_csv e = Ok fr ->
  data_utils.day_table e = Ok (Some tbl) ->
  rectangular fr ->
  (data_utils.has_column "Lat" (normalized fr) = false ->
   Forall (fun r => data_utils.Lat r = Int 0) tbl) /\
  (data_utils.has_column "Long_" (normalized fr) = false ->
   Forall (fun r => data_utils.Long_ r = Int 0) tbl).
Proof.
  intros Rd D R0.
  assert (R : rectangular (normalized fr)).
  { unfold rectangular, normalized in *. cbn. now rewrite length_map. }
  clear R0.
  destruct (day_table_coordinates e fr tbl Rd D) as [i [j [Hi [Hj F]]]].
  clear Rd D. rewrite Forall_forall in F.
  split; intros H; apply Forall_forall; intros r I;
    destruct (F r I) as [row [Ir [EL EG]]].
  - rewrite EL. clear EL EG. rewrite H in *.
    assert (R1 : rectangular (data_utils.add_column "Lat" (Int 0)
                                (normalized fr)))
      by now apply add_column_rectangular.
    destruct (data_utils.has_column "Long_"
                (data_utils.add_column "Lat" (Int 0) (normalized fr))).
    + destruct (add_column_new "Lat" (Int 0) _ row R H Ir) as [i' [Hi' E]].
      congruence.
    + assert (Ha : exists a, data_utils.index_of "Lat"
                     (data_utils.columns
                        (data_utils.add_column "Lat" (Int 0) (normalized fr)))
                   = Some a).
      { exists (List.length (data_utils.columns (normalized fr))).
        apply index_of_added, H. }
      destruct Ha as [a Ha].
      destruct (add_column_old "Long_" "Lat" (Int 0) _ a row R1 Ha Ir)
        as [Hi' [row0 [I0 E]]].
      assert (i = a) by congruence. subst a. rewrite E.
      destruct (add_column_new "Lat" (Int 0) _ row0 R H I0) as [i' [Hi'' E']].
      congruence.
  - rewrite EG. clear EL EG.
    set (df1 := if data_utils.has_column "Lat" (normalized fr)
                then normalized fr
                else data_utils.add_column "Lat" (Int 0) (normalized fr))
      in *.
    assert (R1 : rectangular df1).
    { subst df1. destruct (data_utils.has_column "Lat" (normalized fr));
        [assumption | now apply add_column_rectangular]. }
    assert (H1 : data_utils.has_column "Long_" df1 = false).
    { unfold data_utils.has_column. subst df1.
      rewrite (injected_column "Long_" "Lat" (Int 0) (normalized fr)).
      unfold data_utils.has_column in H. rewrite H. reflexivity. }
    rewrite H1 in *.
    destruct (add_column_new "Long_" (Int 0) _ row R1 H1 Ir) as [j' [Hj' E]].
    congruence.
Qed.

Lemma day_table_default_coordinates_witness :
  (data_utils.has_column "Lat" (normalized report_early) = false ->
   Forall (fun r => data_utils.Lat r = Int 0) table_one_report) /\
  (data_utils.has_column "Long_" (normalized report_early) = false ->
   Forall (fun r => data_utils.Long_ r = Int 0) table_one_report).
Proof.
  apply (day_table_default_coordinates
           (data_utils.mkentry "03-01-2021.csv" (Ok report_early))
           report_early table_one_report).
  - reflexivity.
  - vm_compute. reflexivity.
  - repeat constructor.
Defined.

(** ** Header names *)

Lemma chars_of_chars (l : list ascii) : Str.chars (Str.of_chars l) = l.
Proof. apply list_ascii_of_string_of_list_ascii. Qed.

Lemma of_chars_chars (s : string) : Str.of_chars (Str.chars s) = s.
Proof. apply string_of_list_ascii_of_string. Qed.

Lemma lstrip_no_space (l : list ascii) :
  Forall (fun ch => Str.isspace ch = false) l -> Str.lstrip_chars l = l.
Proof.
  destruct l as [|c l]; [reflexivity|].
  intros F. inversion F as [|? ? Hc _]. simpl. now rewrite Hc.
Qed.

(** X21. A normalised column name holds no slash and no space, and a name
    that has neither white space nor a slash is left as it is. *)
Theorem normalize_column_chars (c : string) :
  Forall (fun ch => ch <> "/"%char /\ ch <> " "%char)
    (Str.chars (data_utils.normalize_column c)) /\
  (Forall (fun ch => Str.isspace ch = false /\ ch <> "/"%char)
     (Str.chars c) ->
   data_utils.normalize_column c = c).
Proof.
  unfold data_utils.normalize_column, Str.replace. split.
  - rewrite !chars_of_chars, map_map. apply Forall_map, Forall_forall.
    intros ch _.
    destruct (Ascii.eqb ch "/") eqn:E1.
    + split; discriminate.
    + destruct (Ascii.eqb ch " ") eqn:E2.
      * split; discriminate.
      * apply Ascii.eqb_neq in E1, E2. auto.
  - intros F.
    assert (Fs : Forall (fun ch => Str.isspace ch = false) (Str.chars c))
      by (revert F; apply Forall_impl; tauto).
    assert (S : Str.strip c = c).
    { unfold Str.strip. rewrite (lstrip_no_space _ Fs).
      rewrite lstrip_no_space by now apply Forall_rev.
      rewrite rev_involutive. apply of_chars_chars. }
    rewrite S, !chars_of_chars, map_map.
    rewrite (map_fixed _ (Str.chars c)); [apply of_chars_chars|].
    revert F. apply Forall_impl. intros ch [Hs Hn].
    destruct (Ascii.eqb ch "/") eqn:E1.
    + apply Ascii.eqb_eq in E1. tauto.
    + destruct (Ascii.eqb ch " ") eqn:E2; [|reflexivity].
      apply Ascii.eqb_eq in E2. subst ch. discriminate.
Qed.

(** ** Rates without the sign assumption *)

(** X22. [calculate_rates] keeps only the rows with a positive number of
    confirmed cases, so rows at 0 or below never count: it leaves the
    frame alone and returns, in ascending order of the name, one row per
    country that has such a row, whose rates are the means of the per-row
    percentages over the country's rows with positive confirmed cases. *)
Theorem calculate_rates_positive_rows (df : DataFrame) :
  let out := snd (advanced_metrics.calculate_rates df) in
  let kept := filter (fun r => 0 <? confirmed_cases r) (rows df) in
  fst (advanced_metrics.calculate_rates df) = df /\
  NoDup (map advanced_metrics.r_country out) /\
  sortedb String.leb (map advanced_metrics.r_country out) = true /\
  (forall c, In c (map advanced_metrics.r_country out) <->
             exists r, In r (rows df) /\ country r = c /\
                       0 < confirmed_cases r) /\
  (forall x, In x out ->
     advanced_metrics.fatality_rate x
     = F64.fmean (map (percent_of_confirmed deaths_cases)
                    (country_rows (advanced_metrics.r_country x) kept)) /\
     advanced_metrics.recovery_rate x
     = F64.fmean (map (percent_of_confirmed recovered_cases)
                    (country_rows (advanced_metrics.r_country x) kept))).
Proof.
  intros out kept. subst out.
  split; [reflexivity|].
  rewrite calculate_rates_groups. cbv zeta.
  assert (K : filter (fun r => confirmed_cases r >? 0) (rows df) = kept).
  { apply filter_ext. intros r. apply Z.gtb_ltb. }
  rewrite K, map_map. cbn [advanced_metrics.r_country]. rewrite map_id.
  split; [apply distinct_sorted_NoDup|].
  split; [exact (distinct_sorted_sorted (map country kept))|].
  split.
  - intros c. rewrite (group_keys_In country). split.
    + intros [r [I E]]. apply filter_In in I as [I P].
      apply Z.ltb_lt in P. eauto.
    + intros [r [I [E P]]]. exists r. split; [|assumption].
      apply filter_In. split; [assumption|]. now apply Z.ltb_lt.
  - intros x I. apply in_map_iff in I as [c [<- _]]. simpl. auto.
Qed.

(** ** Ingestion followed by cleaning *)

(** X23. Cleaning keeps what the ingestion guarantees: every row of a
    table that was loaded and then cleaned has a target country and a
    report date in 2021..2023, and the table has as many rows as were
    loaded. *)
Theorem load_then_clean (folder : list data_utils.dir_entry)
  (t u : list data_utils.raw_row) :
  data_utils.load_all_csvs folder = Ok t ->
  data_utils.clean_data t = Ok u ->
  List.length u = List.length t /\
  Forall (fun r =>
    In (data_utils.Country_Region r) data_utils.TARGET_COUNTRIES /\
    2021 <= datetime.year (data_utils.report_date r) <= 2023) u.
Proof.
  intros L C.
  apply clean_data_by_row_aux in C as [l [M ->]].
  pose proof (clean_rows_keys t l M) as K.
  pose proof (isort_perm
                (fun a b => kleb (data_utils.sort_key a) (data_utils.sort_key b))
                l) as P.
  fold (data_utils.sort_values l) in P.
  split.
  - rewrite (Permutation_length P).
    apply (f_equal (@List.length _)) in K. now rewrite !length_map in K.
  - apply Forall_forall. intros r I.
    assert (J : In (data_utils.sort_key r) (map data_utils.sort_key t)).
    { rewrite <- K. apply in_map. eapply Permutation_in; eassumption. }
    apply in_map_iff in J as [r0 [Q J]].
    destruct (load_all_csvs_In _ _ _ L J) as [e [tbl [_ [D Jt]]]].
    destruct (day_table_Some _ _ D) as [d [Pd [W F]]].
    rewrite Forall_forall in F. destruct (F r0 Jt) as [Rd Tc].
    unfold passes, in_window in W. rewrite Pd in W.
    apply andb_true_iff in W as [_ W].
    apply andb_true_iff in W as [A B]. apply Z.leb_le in A, B.
    assert (Qc : data_utils.Country_Region r = data_utils.Country_Region r0)
      by (apply (f_equal fst) in Q; symmetry; exact Q).
    assert (Qd : data_utils.report_date r = data_utils.report_date r0)
      by (apply (f_equal snd) in Q; symmetry; exact Q).
    rewrite Qc, Qd, Rd. split; [exact Tc | lia].
Qed.

Lemma load_then_clean_witness :
  List.length cleaned_one_report = List.length table_one_report /\
  Forall (fun r =>
    In (data_utils.Country_Region r) data_utils.TARGET_COUNTRIES /\
    2021 <= datetime.year (data_utils.report_date r) <= 2023)
    cleaned_one_report.
Proof.
  apply (load_then_clean folder_one_report table_one_report
           cleaned_one_report); vm_compute; reflexivity.
Defined.
